(** * InspectableWebContentsImpl: the DevTools bridge of
    shell/browser/ui/inspectable_web_contents_impl.cc

    A shallow embedding of the message bridge (chunked delivery to the
    frontend, envelope parsing, reload interception), of the attach/detach
    life cycle and of the network resource loader with its exponential
    backoff; then of the load completion with docking and preferences, of
    the bounds of the devtools window, of the opening and closing of the
    devtools and of the extensions API in subframes; followed by the
    properties proved about them.

    Conventions.
    - [size_t] positions and lengths are [nat]; an [int] is a [Z], and the
      one narrowing cast of the file ([static_cast<int>]) is written out.
    - [std::string] and [base::StringPiece] are [string] (a list of bytes).
    - [base::TimeDelta] is its [int64_t] count of microseconds, a [Z].
    - A member function is a computation in the monad [M]: it reads and
      writes the fields of the object, appends the calls it makes on its
      collaborators to an event log, and may dereference a null pointer. *)

From Stdlib Require Import ZArith String Ascii Bool List Lia.
From stdpp Require Import gmap strings list fin_maps pretty.

#[local] Set Warnings "-register-all".
#[local] Open Scope Z_scope.

(** ** Strings *)

Module Str.

(** The double quote, written by its code. *)
Definition dquote : ascii := "034"%char.
Definition backslash : ascii := "092"%char.

(** [quoted s] is [s] between double quotes. *)
Definition quoted (s : string) : string :=
  String dquote (s +:+ String dquote EmptyString).

(** [std::string::find(c) != npos] *)
Fixpoint contains (c : ascii) (s : string) : bool :=
  match s with
  | EmptyString => false
  | String x s' => if Ascii.eqb x c then true else contains c s'
  end.

(** [base::RemoveChars(input, remove_chars, &output)] for a single
    character to remove. *)
Fixpoint RemoveChars (input : string) (c : ascii) : string :=
  match input with
  | EmptyString => EmptyString
  | String x s' =>
      if Ascii.eqb x c then RemoveChars s' c else String x (RemoveChars s' c)
  end.

End Str.

(** ** [base::Value]

    The values of Chromium's base library (outside this repository) that the
    file builds, parses and hands to the frontend.  A dictionary is a map
    from keys to values; a double is kept as its bit pattern. *)

Inductive Value : Type :=
| NoneValue
| BooleanValue (b : bool)
| IntegerValue (i : Z)
| DoubleValue (bits : Z)
| StringValue (s : string)
| DictionaryValue (d : gmap string Value)
| ListValue (l : list Value).

Module Dict.

(** The keys of a path: [path] cut at every ['.'], as the loop over
    [current_path.find('.')] of [DictionaryValue::Set] and [Get] does. *)
Fixpoint components (path : string) : list string :=
  match path with
  | EmptyString => [EmptyString]
  | String c rest =>
      if Ascii.eqb c "."%char then EmptyString :: components rest
      else match components rest with
           | k :: ks => String c k :: ks
           | [] => [String c EmptyString]
           end
  end.

(** [FindKeyOfType(key, Type::DICTIONARY)], with an empty dictionary
    created by [SetKey] when there is none. *)
Definition child (key : string) (d : gmap string Value) : gmap string Value :=
  match d !! key with
  | Some (DictionaryValue c) => c
  | _ => ∅
  end.

Fixpoint set_components (keys : list string) (v : Value)
    (d : gmap string Value) : gmap string Value :=
  match keys with
  | [] => d
  | k :: ks =>
      match ks with
      | [] => <[k := v]> d
      | _ :: _ => <[k := DictionaryValue (set_components ks v (child k d))]> d
      end
  end.

(** [DictionaryValue::Set(path, value)]: the path is expanded. *)
Definition Set_ (path : string) (v : Value) (d : gmap string Value) :
    gmap string Value :=
  set_components (components path) v d.

Definition SetString (path value : string) := Set_ path (StringValue value).
Definition SetInteger (path : string) (i : Z) := Set_ path (IntegerValue i).

Fixpoint get_components (keys : list string) (d : gmap string Value) :
    option Value :=
  match keys with
  | [] => None
  | k :: ks =>
      match ks with
      | [] => d !! k
      | _ :: _ =>
          match d !! k with
          | Some (DictionaryValue c) => get_components ks c
          | _ => None
          end
      end
  end.

(** [DictionaryValue::Get(path, &out)] *)
Definition Get (path : string) (d : gmap string Value) : option Value :=
  get_components (components path) d.

(** [HasKey(key)]: no path expansion. *)
Definition HasKey (key : string) (d : gmap string Value) : bool :=
  bool_decide (is_Some (d !! key)).

(** [GetString(path, &out)], [GetList(path, &out)], [GetInteger(path, &out)]:
    [None] stands for the [false] they return, which leaves [out] alone. *)
Definition GetString (path : string) (d : gmap string Value) : option string :=
  match Get path d with Some (StringValue s) => Some s | _ => None end.

Definition GetList (path : string) (d : gmap string Value) :
    option (list Value) :=
  match Get path d with Some (ListValue l) => Some l | _ => None end.

Definition GetInteger (path : string) (d : gmap string Value) : option Z :=
  match Get path d with Some (IntegerValue i) => Some i | _ => None end.

End Dict.

(** ** [base::MatchPattern]

    The glob matcher of Chromium's base library (base/strings/pattern.h,
    outside this repository): [*] stands for any run of characters, [?] for
    at most one character, and a backslash takes the next pattern character
    literally.  The one pattern this file matches against has neither [?]
    nor a backslash.  Characters are compared byte by byte; against a
    pattern of ASCII characters this is the comparison of code points that
    the library makes on well-formed UTF-8. *)

Module Pattern.

(** [star k e]: some suffix of [e] is accepted by [k]. *)
Fixpoint star (k : string -> bool) (e : string) : bool :=
  k e || match e with
         | EmptyString => false
         | String _ e' => star k e'
         end.

Definition literal (c : ascii) (k : string -> bool) (e : string) : bool :=
  match e with
  | EmptyString => false
  | String x e' => Ascii.eqb x c && k e'
  end.

Fixpoint MatchPattern (eval pattern : string) {struct pattern} : bool :=
  match pattern with
  | EmptyString =>
      match eval with EmptyString => true | String _ _ => false end
  | String p rest =>
      if Ascii.eqb p "*"%char then
        star (fun e => MatchPattern e rest) eval
      else if Ascii.eqb p "?"%char then
        MatchPattern eval rest
        || match eval with
           | EmptyString => false
           | String _ e' => MatchPattern e' rest
           end
      else if Ascii.eqb p Str.backslash then
        match rest with
        | EmptyString => literal p (fun e => MatchPattern e rest) eval
        | String q rest' => literal q (fun e => MatchPattern e rest') eval
        end
      else literal p (fun e => MatchPattern e rest) eval
  end.

End Pattern.

(** ** The collaborators

    Objects owned by the embedder or by Chromium are known to this file by
    their identity only. *)

Definition WebContents := nat.
Definition DevToolsAgentHost := nat.
Definition InspectableWebContentsDelegate := nat.
Definition InspectableWebContentsViewDelegate := nat.
Definition DispatchCallback := nat.

(** [base::TimeDelta], in microseconds. *)
Definition TimeDelta := Z.

Definition FromMilliseconds (ms : Z) : TimeDelta := ms * 1000.
Definition FromSeconds (s : Z) : TimeDelta := s * 1000000.

Definition kInitialBackoffDelay : TimeDelta := FromMilliseconds 250.
Definition kMaxBackoffDelay : TimeDelta := FromSeconds 10.

(** [net::ERR_INSUFFICIENT_RESOURCES] of net/base/net_error_list.h; only its
    being different from the other error codes matters. *)
Definition ERR_INSUFFICIENT_RESOURCES : Z := -12.

(** [net::HttpResponseHeaders]: the status code, and the header lines in the
    order in which [EnumerateHeaderLines] yields them. *)
Record HttpResponseHeaders := {
  response_code : Z;
  header_lines : list (string * string)
}.

(** The factory picked by [LoadNetworkResource]. *)
Inductive URLLoaderFactoryHolder :=
| FileURLLoaderFactory
| StoragePartitionFactory (devtools : WebContents).

Record ResourceRequest := {
  request_url : string;
  request_headers : string
}.

(** The fields of [NetworkResourceLoader].  [loader_] and [timer_] live in
    the network stack and on the message loop; what they do reaches the
    loader through [OnResponseStarted], [OnDataReceived] and [OnComplete]. *)
Record NetworkResourceLoader := {
  stream_id_ : Z;
  resource_request_ : ResourceRequest;
  url_loader_factory_ : URLLoaderFactoryHolder;
  callback_ : DispatchCallback;
  response_headers_ : option HttpResponseHeaders;
  retry_delay_ : TimeDelta
}.

(** An enabled extension, as far as [AddDevToolsExtensionsToClient] reads it. *)
Record Extension := {
  extension_name : string;
  extension_url : string;
  devtools_page_url : string;
  has_experimental_permission : bool
}.

(** What the object asks of its collaborators. *)
Inductive Event :=
| ExecuteJavaScript (frontend : WebContents) (javascript : string)
| AttachClient (host : DevToolsAgentHost)
| DetachClient (host : DevToolsAgentHost)
| AgentDispatchProtocolMessage (host : DevToolsAgentHost) (message : string)
| DevToolsReloadPage (delegate : InspectableWebContentsDelegate)
| EmbedderDispatch (id : Z) (method : string) (params : list Value)
| RunCallback (callback : DispatchCallback) (arg : option Value)
| TimerStart (loader : nat) (delay : TimeDelta)
| Resume
| LogError (message : string)
| LogWarning (stream_id : Z) (delay : TimeDelta)
| ViewShowDevTools (activate : bool)
| ViewSetIsDocked (docked activate : bool)
| DevToolsOpened (delegate : InspectableWebContentsViewDelegate)
| DevToolsClosed (delegate : InspectableWebContentsViewDelegate)
| Observe (contents : option WebContents)
| GrantRequestOrigin (origin : string).

(** The fields of [InspectableWebContentsImpl] that the modelled functions
    read or write.  [pref_service_] is the dictionary stored under
    [kDevToolsPreferences]; [view_delegate] is [view_->GetDelegate()]. *)
Record InspectableWebContentsImpl := {
  frontend_loaded_ : bool;
  can_dock_ : bool;
  dock_state_ : string;
  activate_ : bool;
  delegate_ : option InspectableWebContentsDelegate;
  view_delegate : option InspectableWebContentsViewDelegate;
  pref_service_ : gmap string Value;
  agent_host_ : option DevToolsAgentHost;
  managed_devtools_web_contents_ : option WebContents;
  external_devtools_web_contents_ : option WebContents;
  embedder_message_dispatcher_ : bool;
  loaders_ : gmap nat NetworkResourceLoader
}.

(** The object together with what lies outside it: the agent hosts on which
    this client currently has a session, the extension registry of the
    browser context ([None] when [ExtensionRegistry::Get] returns null), and
    the calls made so far, oldest first. *)
Record World := {
  self : InspectableWebContentsImpl;
  attached : gset DevToolsAgentHost;
  extension_registry : option (list Extension);
  events : list Event
}.

Definition set_self (f : InspectableWebContentsImpl -> InspectableWebContentsImpl)
    (w : World) : World :=
  {| self := f (self w); attached := attached w;
     extension_registry := extension_registry w; events := events w |}.

Definition set_attached (f : gset DevToolsAgentHost -> gset DevToolsAgentHost)
    (w : World) : World :=
  {| self := self w; attached := f (attached w);
     extension_registry := extension_registry w; events := events w |}.

Definition add_event (e : Event) (w : World) : World :=
  {| self := self w; attached := attached w;
     extension_registry := extension_registry w; events := events w ++ [e] |}.

Definition with_frontend_loaded (b : bool) (s : InspectableWebContentsImpl) :=
  {| frontend_loaded_ := b; can_dock_ := can_dock_ s;
     dock_state_ := dock_state_ s; activate_ := activate_ s;
     delegate_ := delegate_ s; view_delegate := view_delegate s;
     pref_service_ := pref_service_ s; agent_host_ := agent_host_ s;
     managed_devtools_web_contents_ := managed_devtools_web_contents_ s;
     external_devtools_web_contents_ := external_devtools_web_contents_ s;
     embedder_message_dispatcher_ := embedder_message_dispatcher_ s;
     loaders_ := loaders_ s |}.

Definition with_dock_state (d : string) (s : InspectableWebContentsImpl) :=
  {| frontend_loaded_ := frontend_loaded_ s; can_dock_ := can_dock_ s;
     dock_state_ := d; activate_ := activate_ s;
     delegate_ := delegate_ s; view_delegate := view_delegate s;
     pref_service_ := pref_service_ s; agent_host_ := agent_host_ s;
     managed_devtools_web_contents_ := managed_devtools_web_contents_ s;
     external_devtools_web_contents_ := external_devtools_web_contents_ s;
     embedder_message_dispatcher_ := embedder_message_dispatcher_ s;
     loaders_ := loaders_ s |}.

Definition with_agent_host (h : option DevToolsAgentHost)
    (s : InspectableWebContentsImpl) :=
  {| frontend_loaded_ := frontend_loaded_ s; can_dock_ := can_dock_ s;
     dock_state_ := dock_state_ s; activate_ := activate_ s;
     delegate_ := delegate_ s; view_delegate := view_delegate s;
     pref_service_ := pref_service_ s; agent_host_ := h;
     managed_devtools_web_contents_ := managed_devtools_web_contents_ s;
     external_devtools_web_contents_ := external_devtools_web_contents_ s;
     embedder_message_dispatcher_ := embedder_message_dispatcher_ s;
     loaders_ := loaders_ s |}.

Definition with_external_devtools_web_contents (c : option WebContents)
    (s : InspectableWebContentsImpl) :=
  {| frontend_loaded_ := frontend_loaded_ s; can_dock_ := can_dock_ s;
     dock_state_ := dock_state_ s; activate_ := activate_ s;
     delegate_ := delegate_ s; view_delegate := view_delegate s;
     pref_service_ := pref_service_ s; agent_host_ := agent_host_ s;
     managed_devtools_web_contents_ := managed_devtools_web_contents_ s;
     external_devtools_web_contents_ := c;
     embedder_message_dispatcher_ := embedder_message_dispatcher_ s;
     loaders_ := loaders_ s |}.

Definition with_embedder_message_dispatcher (b : bool)
    (s : InspectableWebContentsImpl) :=
  {| frontend_loaded_ := frontend_loaded_ s; can_dock_ := can_dock_ s;
     dock_state_ := dock_state_ s; activate_ := activate_ s;
     delegate_ := delegate_ s; view_delegate := view_delegate s;
     pref_service_ := pref_service_ s; agent_host_ := agent_host_ s;
     managed_devtools_web_contents_ := managed_devtools_web_contents_ s;
     external_devtools_web_contents_ := external_devtools_web_contents_ s;
     embedder_message_dispatcher_ := b;
     loaders_ := loaders_ s |}.

Definition with_loaders (l : gmap nat NetworkResourceLoader)
    (s : InspectableWebContentsImpl) :=
  {| frontend_loaded_ := frontend_loaded_ s; can_dock_ := can_dock_ s;
     dock_state_ := dock_state_ s; activate_ := activate_ s;
     delegate_ := delegate_ s; view_delegate := view_delegate s;
     pref_service_ := pref_service_ s; agent_host_ := agent_host_ s;
     managed_devtools_web_contents_ := managed_devtools_web_contents_ s;
     external_devtools_web_contents_ := external_devtools_web_contents_ s;
     embedder_message_dispatcher_ := embedder_message_dispatcher_ s;
     loaders_ := l |}.

(** ** The monad of member functions *)

Inductive Outcome (A : Type) :=
| Done (a : A) (w : World)
| NullDereference
| Diverges.
Arguments Done {A} a w.
Arguments NullDereference {A}.
Arguments Diverges {A}.

Definition M (A : Type) := World -> Outcome A.

#[global] Instance M_ret : MRet M := fun A a w => Done a w.

#[global] Instance M_bind : MBind M := fun A B k m w =>
  match m w with
  | Done a w' => k a w'
  | NullDereference => NullDereference
  | Diverges => Diverges
  end.

Definition get {A} (field : InspectableWebContentsImpl -> A) : M A :=
  fun w => Done (field (self w)) w.

Definition modify (f : InspectableWebContentsImpl -> InspectableWebContentsImpl) :
    M unit :=
  fun w => Done tt (set_self f w).

Definition emit (e : Event) : M unit := fun w => Done tt (add_event e w).

Definition modify_attached
    (f : gset DevToolsAgentHost -> gset DevToolsAgentHost) : M unit :=
  fun w => Done tt (set_attached f w).

Definition get_extension_registry : M (option (list Extension)) :=
  fun w => Done (extension_registry w) w.

(** A loop that does not come to an end. *)
Definition diverge {A} : M A := fun _ => Diverges.

(** [p->...] on a pointer that may be null. *)
Definition deref {A} (p : option A) : M A :=
  fun w => match p with Some a => Done a w | None => NullDereference end.

Definition when (b : bool) (m : M unit) : M unit := if b then m else mret tt.

(** The events added by a run. *)
Definition emitted {A} (m : M A) (w : World) : option (list Event) :=
  match m w with
  | Done _ w' => Some (drop (length (events w)) (events w'))
  | _ => None
  end.

(** ** The member functions *)

Definition kFrontendHostId : string := "id".
Definition kFrontendHostMethod : string := "method".
Definition kFrontendHostParams : string := "params".

(** The pattern of [DispatchProtocolMessageFromDevToolsFrontend]:
    [{"id":*,"method":"Page.reload","params":*}]. *)
Definition kReloadPattern : string :=
  "{" +:+ Str.quoted "id" +:+ ":*," +:+
  Str.quoted "method" +:+ ":" +:+ Str.quoted "Page.reload" +:+ "," +:+
  Str.quoted "params" +:+ ":*}".

(** [static_cast<int>(n)] for a [size_t]: the low 32 bits, read as signed. *)
Definition static_cast_int (n : nat) : Z :=
  let low := Z.of_nat n mod 2 ^ 32 in
  if low <? 2 ^ 31 then low else low - 2 ^ 32.

Definition INT_MAX : Z := 2 ^ 31 - 1.

(** [delta * 1.3] on a [TimeDelta]: the product is formed in double
    precision and cut back to whole microseconds.  For the delays a loader
    can hold (below thirteen seconds) cutting the exact product
    [13 * delta / 10] gives the same number of microseconds. *)
Definition GetNextExponentialBackoffDelay (delta : TimeDelta) : TimeDelta :=
  if delta =? 0 then kInitialBackoffDelay else delta * 13 / 10.

Section Bridge.

(** What the file takes from Chromium and from the build. *)
Variable kMaximumMessageSize : nat.           (* IPC::Channel *)
Variable JSONReader_ReadDeprecated : string -> option Value.
Variable JSONWriter_Write : Value -> string.
Variable EscapeJSONString : string -> string. (* put_in_quotes = true *)
Variable GURL_is_valid : string -> bool.
Variable GURL_SchemeIsFile : string -> bool.
Variable IsStringUTF8 : string -> bool.
Variable Base64Encode : string -> string.
Variable ENABLE_ELECTRON_EXTENSIONS : bool.
(** Whether an agent host lets this client attach: [AttachClient] returns
    a [bool] that the file does not look at. *)
Variable AttachClient_succeeds : DevToolsAgentHost -> bool.

Definition kMaxMessageChunkSize : nat := kMaximumMessageSize / 4.

(** *** The agent host *)

Definition agent_AttachClient (host : DevToolsAgentHost) : M unit :=
  emit (AttachClient host);;
  if AttachClient_succeeds host
  then modify_attached (fun hosts => {[host]} ∪ hosts)
  else mret tt.

Definition agent_DetachClient (host : DevToolsAgentHost) : M unit :=
  emit (DetachClient host);;
  modify_attached (fun hosts => hosts ∖ {[host]}).

(** *** Attach and detach *)

Definition GetDevToolsWebContents : M (option WebContents) :=
  external ← get external_devtools_web_contents_;
  match external with
  | Some c => mret (Some c)
  | None => get managed_devtools_web_contents_
  end.

Definition Detach : M unit :=
  host ← get agent_host_;
  match host with
  | Some h => agent_DetachClient h
  | None => mret tt
  end;;
  modify (with_agent_host None).

Definition AttachTo (host : DevToolsAgentHost) : M unit :=
  Detach;;
  modify (with_agent_host (Some host));;
  h ← get agent_host_ ≫= deref;
  agent_AttachClient h.

Definition Reattach (callback : DispatchCallback) : M unit :=
  host ← get agent_host_;
  match host with
  | Some h => agent_DetachClient h;; agent_AttachClient h
  | None => mret tt
  end;;
  emit (RunCallback callback None).

(** *** Calls into the frontend *)

Definition client_arguments (arg1 arg2 arg3 : option Value) : string :=
  match arg1 with
  | None => EmptyString
  | Some a1 =>
      JSONWriter_Write a1 +:+
      match arg2 with
      | None => EmptyString
      | Some a2 =>
          ", " +:+ JSONWriter_Write a2 +:+
          match arg3 with
          | None => EmptyString
          | Some a3 => ", " +:+ JSONWriter_Write a3
          end
      end
  end.

Definition CallClientFunction (function_name : string)
    (arg1 arg2 arg3 : option Value) : M unit :=
  contents ← GetDevToolsWebContents;
  match contents with
  | None => mret tt
  | Some _ =>
      let javascript :=
        function_name +:+ "(" +:+ client_arguments arg1 arg2 arg3 +:+ ");" in
      frontend ← GetDevToolsWebContents ≫= deref;
      emit (ExecuteJavaScript frontend javascript)
  end.

Definition SendMessageAck (request_id : Z) (arg : option Value) : M unit :=
  CallClientFunction "DevToolsAPI.embedderMessageAck"
    (Some (IntegerValue request_id)) arg None.

Definition SetIsDocked (callback : option DispatchCallback) (docked : bool) :
    M unit :=
  managed ← get managed_devtools_web_contents_;
  when (bool_decide (is_Some managed))
    (activate ← get activate_; emit (ViewSetIsDocked docked activate));;
  match callback with
  | Some cb => emit (RunCallback cb None)
  | None => mret tt
  end.

(** One turn of the loop over the enabled extensions. *)
Definition add_extension (results : list Value) (extension : Extension) :
    M (list Value) :=
  if bool_decide (devtools_page_url extension = EmptyString) then mret results
  else
    emit (GrantRequestOrigin (extension_url extension));;
    let extension_info :=
      Dict.Set_ "exposeExperimentalAPIs"
        (BooleanValue (has_experimental_permission extension))
        (Dict.SetString "name" (extension_name extension)
           (Dict.SetString "startPage" (devtools_page_url extension) ∅)) in
    mret (results ++ [DictionaryValue extension_info]).

Fixpoint add_extensions (results : list Value) (extensions : list Extension) :
    M (list Value) :=
  match extensions with
  | [] => mret results
  | extension :: rest =>
      results' ← add_extension results extension;
      add_extensions results' rest
  end.

Definition AddDevToolsExtensionsToClient : M unit :=
  registry ← get_extension_registry;
  match registry with
  | None => mret tt
  | Some enabled_extensions =>
      results ← add_extensions [] enabled_extensions;
      CallClientFunction "DevToolsAPI.addExtensions"
        (Some (ListValue results)) None None
  end.

Definition LoadCompleted : M unit :=
  modify (with_frontend_loaded true);;
  managed ← get managed_devtools_web_contents_;
  when (bool_decide (is_Some managed))
    (activate ← get activate_; emit (ViewShowDevTools activate));;
  can_dock ← get can_dock_;
  (if negb can_dock then SetIsDocked None false
   else
     dock_state ← get dock_state_;
     when (bool_decide (dock_state = EmptyString))
       (prefs ← get pref_service_;
        let current_dock_state :=
          default EmptyString (Dict.GetString "currentDockState" prefs) in
        modify (with_dock_state
                  (Str.RemoveChars current_dock_state Str.dquote)));;
     dock_state ← get dock_state_;
     frontend ← GetDevToolsWebContents ≫= deref;
     emit (ExecuteJavaScript frontend
             ("Components.dockController.setDockSide(" +:+
              Str.quoted dock_state +:+ ");")));;
  when ENABLE_ELECTRON_EXTENSIONS AddDevToolsExtensionsToClient;;
  delegate ← get view_delegate;
  match delegate with
  | Some d => emit (DevToolsOpened d)
  | None => mret tt
  end.

Definition WebContentsDestroyed : M unit :=
  modify (with_frontend_loaded false);;
  modify (with_external_devtools_web_contents None);;
  emit (Observe None);;
  Detach;;
  modify (with_embedder_message_dispatcher false);;
  delegate ← get view_delegate;
  match delegate with
  | Some d => emit (DevToolsClosed d)
  | None => mret tt
  end.

(** *** Messages from the frontend *)

Definition DispatchProtocolMessageFromDevToolsFrontend (message : string) :
    M unit :=
  if Pattern.MatchPattern message kReloadPattern then
    delegate ← get delegate_;
    match delegate with
    | Some d => emit (DevToolsReloadPage d)
    | None => mret tt
    end
  else
    host ← get agent_host_;
    match host with
    | Some h => emit (AgentDispatchProtocolMessage h message)
    | None => mret tt
    end.

Definition invalid_message (message : string) : M unit :=
  emit (LogError ("Invalid message was sent to embedder: " +:+ message)).

(** [embedder_message_dispatcher_->Dispatch], with [SendMessageAck] bound
    to [id] as its callback. *)
Definition dispatch_to_embedder (dict : gmap string Value) (method : string)
    (params : list Value) : M unit :=
  let id := default 0 (Dict.GetInteger kFrontendHostId dict) in
  emit (EmbedderDispatch id method params).

Definition HandleMessageFromDevToolsFrontend (message : string) : M unit :=
  dispatcher ← get embedder_message_dispatcher_;
  if negb dispatcher then mret tt
  else
    match JSONReader_ReadDeprecated message with
    | Some (DictionaryValue dict) =>
        match Dict.GetString kFrontendHostMethod dict with
        | Some method =>
            if Dict.HasKey kFrontendHostParams dict then
              match Dict.GetList kFrontendHostParams dict with
              | Some params => dispatch_to_embedder dict method params
              | None => invalid_message message
              end
            else dispatch_to_embedder dict method []
        | None => invalid_message message
        end
    | _ => invalid_message message
    end.

(** *** Messages to the frontend *)

(** The loop [for (pos = 0; pos < length; pos += kMaxMessageChunkSize)];
    [fuel] bounds the number of tests of [pos < length]. *)
Fixpoint dispatch_chunks (fuel : nat) (message : string) (total_size : Value)
    (pos : nat) : M unit :=
  match fuel with
  | O => diverge
  | S fuel' =>
      if (pos <? String.length message)%nat then
        CallClientFunction "DevToolsAPI.dispatchMessageChunk"
          (Some (StringValue (substring pos kMaxMessageChunkSize message)))
          (if (pos =? 0)%nat then Some total_size else None)
          None;;
        dispatch_chunks fuel' message total_size (pos + kMaxMessageChunkSize)
      else mret tt
  end.

Definition DispatchProtocolMessage (agent_host : DevToolsAgentHost)
    (message : string) : M unit :=
  loaded ← get frontend_loaded_;
  if negb loaded then mret tt
  else if (String.length message <? kMaxMessageChunkSize)%nat then
    let param := EscapeJSONString message in
    frontend ← GetDevToolsWebContents ≫= deref;
    emit (ExecuteJavaScript frontend
            ("DevToolsAPI.dispatchMessage(" +:+ param +:+ ");"))
  else
    let total_size := IntegerValue (static_cast_int (String.length message)) in
    dispatch_chunks (S (String.length message)) message total_size 0.

(** *** The network resource loader *)

Definition NetworkResourceLoader_Create (stream_id : Z)
    (resource_request : ResourceRequest)
    (url_loader_factory : URLLoaderFactoryHolder)
    (callback : DispatchCallback) (retry_delay : TimeDelta) : M unit :=
  loaders ← get loaders_;
  let this := fresh (dom loaders) in
  emit (TimerStart this retry_delay);;
  modify (with_loaders
            (<[this := {| stream_id_ := stream_id;
                          resource_request_ := resource_request;
                          url_loader_factory_ := url_loader_factory;
                          callback_ := callback;
                          response_headers_ := None;
                          retry_delay_ := retry_delay |}]> loaders)).

Definition this_loader (this : nat) : M NetworkResourceLoader :=
  loaders ← get loaders_; deref (loaders !! this).


Definition OnDataReceived (this : nat) (chunk : string) : M unit :=
  l ← this_loader this;
  let encoded := negb (IsStringUTF8 chunk) in
  let chunkValue :=
    if encoded then StringValue (Base64Encode chunk) else StringValue chunk in
  CallClientFunction "DevToolsAPI.streamWrite"
    (Some (IntegerValue (stream_id_ l))) (Some chunkValue)
    (Some (BooleanValue encoded));;
  emit Resume.

(** The dictionary filled by the loop over [EnumerateHeaderLines]. *)
Definition headers_dictionary (lines : list (string * string)) :
    gmap string Value :=
  foldl (fun headers line => Dict.SetString line.1 line.2 headers) ∅ lines.

Definition completion_response (response_headers : option HttpResponseHeaders) :
    Value :=
  let status_code :=
    match response_headers with
    | Some h => response_code h
    | None => 200
    end in
  let response := Dict.SetInteger "statusCode" status_code ∅ in
  let headers :=
    match response_headers with
    | Some h => headers_dictionary (header_lines h)
    | None => ∅
    end in
  DictionaryValue (Dict.Set_ "headers" (DictionaryValue headers) response).

(** [success] is the argument of [OnComplete] and [net_error] the value of
    [loader_->NetError()]. *)
Definition OnComplete (this : nat) (success : bool) (net_error : Z) : M unit :=
  l ← this_loader this;
  (if negb success && (net_error =? ERR_INSUFFICIENT_RESOURCES)
      && (retry_delay_ l <? kMaxBackoffDelay)
   then
     let delay := GetNextExponentialBackoffDelay (retry_delay_ l) in
     emit (LogWarning (stream_id_ l) delay);;
     NetworkResourceLoader_Create (stream_id_ l) (resource_request_ l)
       (url_loader_factory_ l) (callback_ l) delay
   else
     emit (RunCallback (callback_ l)
             (Some (completion_response (response_headers_ l)))));;
  loaders ← get loaders_;
  modify (with_loaders (delete this loaders)).

Definition LoadNetworkResource (callback : DispatchCallback)
    (url headers : string) (stream_id : Z) : M unit :=
  if negb (GURL_is_valid url) then
    let response := Dict.SetInteger "statusCode" 404 ∅ in
    emit (RunCallback callback (Some (DictionaryValue response)))
  else
    let resource_request :=
      {| request_url := url; request_headers := headers |} in
    url_loader_factory ←
      (if GURL_SchemeIsFile url then mret FileURLLoaderFactory
       else
         devtools ← GetDevToolsWebContents ≫= deref;
         mret (StoragePartitionFactory devtools));
    NetworkResourceLoader_Create stream_id resource_request
      url_loader_factory callback 0.

End Bridge.

(** ** Vocabulary of the properties *)

(** The world after some more calls on the collaborators. *)
Definition add_events (es : list Event) (w : World) : World :=
  {| self := self w; attached := attached w;
     extension_registry := extension_registry w; events := events w ++ es |}.

(** The origins granted by [AddDevToolsExtensionsToClient]: one for every
    enabled extension that has a devtools page. *)
Definition requested_grants (registry : option (list Extension)) : list Event :=
  match registry with
  | None => []
  | Some extensions =>
      (fun e => GrantRequestOrigin (extension_url e)) <$>
      filter (fun e => devtools_page_url e ≠ EmptyString) extensions
  end.

(** A call made into the frontend document. *)
Definition is_frontend_call (e : Event) : Prop :=
  match e with ExecuteJavaScript _ _ => True | _ => False end.

(** The frontend document, if there is one: the externally supplied one
    before the managed one, as [GetDevToolsWebContents] returns it. *)
Definition frontend_of (w : World) : option WebContents :=
  match external_devtools_web_contents_ (self w) with
  | Some c => Some c
  | None => managed_devtools_web_contents_ (self w)
  end.

(** The calls of the attach/detach life cycle. *)
Inductive LifecycleCall :=
| CallAttachTo (host : DevToolsAgentHost)
| CallDetach
| CallReattach (callback : DispatchCallback)
| CallWebContentsDestroyed.

Definition lifecycle_call (AttachClient_succeeds : DevToolsAgentHost -> bool)
    (call : LifecycleCall) : M unit :=
  match call with
  | CallAttachTo host => AttachTo AttachClient_succeeds host
  | CallDetach => Detach
  | CallReattach callback => Reattach AttachClient_succeeds callback
  | CallWebContentsDestroyed => WebContentsDestroyed
  end.

Fixpoint lifecycle_calls (AttachClient_succeeds : DevToolsAgentHost -> bool)
    (calls : list LifecycleCall) : M unit :=
  match calls with
  | [] => mret tt
  | call :: rest =>
      lifecycle_call AttachClient_succeeds call;;
      lifecycle_calls AttachClient_succeeds rest
  end.

(** The agent hosts the object believes it is bound to: [agent_host_], if set. *)
Definition bound_hosts (w : World) : gset DevToolsAgentHost :=
  match agent_host_ (self w) with
  | Some h => {[h]}
  | None => ∅
  end.

(** Every session this client has on an agent host is the one the object
    holds in [agent_host_]. *)
Definition attachment_consistent (w : World) : Prop :=
  attached w ⊆ bound_hosts w.

(** The object as its constructor leaves it, before anything was opened
    ([activate_] and [dock_state_] hold their defaults), with nothing
    attached and no call made. *)
Definition constructed : InspectableWebContentsImpl :=
  {| frontend_loaded_ := false; can_dock_ := true;
     dock_state_ := EmptyString; activate_ := false;
     delegate_ := None; view_delegate := None;
     pref_service_ := ∅; agent_host_ := None;
     managed_devtools_web_contents_ := None;
     external_devtools_web_contents_ := None;
     embedder_message_dispatcher_ := false;
     loaders_ := ∅ |}.

Definition initial_world : World :=
  {| self := constructed; attached := ∅;
     extension_registry := None; events := [] |}.

(** The ways in which the payload of a frontend message can fail to be an
    envelope, stated on what the JSON reader returns for it. *)
Definition not_valid_JSON (parsed : option Value) : Prop :=
  parsed = None.

Definition not_an_object (parsed : option Value) : Prop :=
  exists v, parsed = Some v /\ forall dict, v ≠ DictionaryValue dict.

Definition lacks_string_method (parsed : option Value) : Prop :=
  exists dict, parsed = Some (DictionaryValue dict)
               /\ forall s, dict !! "method" ≠ Some (StringValue s).

Definition params_not_a_list (parsed : option Value) : Prop :=
  exists dict v, parsed = Some (DictionaryValue dict)
                 /\ dict !! "params" = Some v
                 /\ forall l, v ≠ ListValue l.

Definition parse_fails (parsed : option Value) : Prop :=
  not_valid_JSON parsed \/ not_an_object parsed
  \/ lacks_string_method parsed \/ params_not_a_list parsed.

(** The [id] and [params] of an envelope, with their defaults. *)
Definition envelope_id (dict : gmap string Value) : Z :=
  match dict !! "id" with
  | Some (IntegerValue i) => i
  | _ => 0
  end.

Definition envelope_params (dict : gmap string Value) : list Value :=
  match dict !! "params" with
  | Some (ListValue l) => l
  | _ => []
  end.

(** The messages of the shape [{"id":<id>,"method":"Page.reload","params":<params>}],
    for any two pieces of text [id] and [params]. *)
Definition reload_message (id params : string) : string :=
  "{" +:+ Str.quoted "id" +:+ ":" +:+ id +:+ "," +:+
  Str.quoted "method" +:+ ":" +:+ Str.quoted "Page.reload" +:+ "," +:+
  Str.quoted "params" +:+ ":" +:+ params +:+ "}".

(** The two fixed pieces of [kReloadPattern], before and between its stars. *)
Definition reload_head : string := "{" +:+ Str.quoted "id" +:+ ":".
Definition reload_middle : string :=
  "," +:+ Str.quoted "method" +:+ ":" +:+ Str.quoted "Page.reload" +:+ "," +:+
  Str.quoted "params" +:+ ":".

(** A pattern character that stands for itself. *)
Definition plain (c : ascii) : bool :=
  negb (Ascii.eqb c "*"%char) && negb (Ascii.eqb c "?"%char)
  && negb (Ascii.eqb c Str.backslash).

Fixpoint all_plain (s : string) : bool :=
  match s with
  | EmptyString => true
  | String c s' => plain c && all_plain s'
  end.

(** [{"id":1,"method":"Page.reload"}]: a reload command without [params]. *)
Definition reload_without_params : string :=
  "{" +:+ Str.quoted "id" +:+ ":1," +:+
  Str.quoted "method" +:+ ":" +:+ Str.quoted "Page.reload" +:+ "}".

(** A session in use: the frontend document 3 is loaded, the object is
    attached to the agent host 1 and has the delegate 2. *)
Definition attached_session : InspectableWebContentsImpl :=
  {| frontend_loaded_ := true; can_dock_ := true;
     dock_state_ := EmptyString; activate_ := true;
     delegate_ := Some 2%nat; view_delegate := None;
     pref_service_ := ∅; agent_host_ := Some 1%nat;
     managed_devtools_web_contents_ := Some 3%nat;
     external_devtools_web_contents_ := None;
     embedder_message_dispatcher_ := true;
     loaders_ := ∅ |}.

Definition attached_world : World :=
  {| self := attached_session; attached := {[1%nat]};
     extension_registry := None; events := [] |}.

(** [chunk_count size len] is [len / size] rounded up: the least number of
    pieces of [size] characters that cover [len] characters. *)
Definition chunk_count (size len : nat) : nat := (len + size - 1) / size.

(** The [i]-th piece of a message cut every [size] characters. *)
Definition chunk_at (size : nat) (message : string) (i : nat) : string :=
  substring (i * size) size message.

(** The script run for the [i]-th piece: the piece, and the total size with
    the piece at offset 0 only. *)
Definition chunk_call (JSONWriter_Write : Value -> string)
    (frontend : WebContents) (total_size : Value) (size : nat)
    (message : string) (i : nat) : Event :=
  ExecuteJavaScript frontend
    ("DevToolsAPI.dispatchMessageChunk(" +:+
     client_arguments JSONWriter_Write
       (Some (StringValue (chunk_at size message i)))
       (if (i =? 0)%nat then Some total_size else None) None +:+ ");").

Definition concat_strings (pieces : list string) : string :=
  foldr String.append EmptyString pieces.

(** A JSON writer for the examples: strings between quotes as they are,
    integers in decimal. *)
Definition example_Write (v : Value) : string :=
  match v with
  | StringValue s => Str.quoted s
  | IntegerValue i => pretty i
  | BooleanValue b => if b then "true" else "false"
  | _ => "null"
  end.

Definition example_Escape (s : string) : string := Str.quoted s.

(** The value of the last header line that has the given name. *)
Definition last_value (name : string) (lines : list (string * string)) :
    option string :=
  snd <$> last (filter (fun line => line.1 = name) lines).

(** A header name without a ['.']: the key it is stored under is the name. *)
Definition dot_free (line : string * string) : Prop :=
  Str.contains "."%char line.1 = false.

(** A completion that is not retried: the download succeeded, or failed
    with another error, or the delay has reached [kMaxBackoffDelay]. *)
Definition terminal (l : NetworkResourceLoader) (success : bool)
    (net_error : Z) : Prop :=
  success = true \/ net_error ≠ ERR_INSUFFICIENT_RESOURCES
  \/ kMaxBackoffDelay <= retry_delay_ l.

(** The loader that [OnComplete] creates for a retry. *)
Definition retry_of (l : NetworkResourceLoader) : NetworkResourceLoader :=
  {| stream_id_ := stream_id_ l;
     resource_request_ := resource_request_ l;
     url_loader_factory_ := url_loader_factory_ l;
     callback_ := callback_ l;
     response_headers_ := None;
     retry_delay_ := GetNextExponentialBackoffDelay (retry_delay_ l) |}.

(** The delays of the retries of a load whose every attempt fails with
    [ERR_INSUFFICIENT_RESOURCES], from an attempt that was started with
    [delay]: as [OnComplete] decides them, at most [fuel] of them. *)
Fixpoint backoff_delays (fuel : nat) (delay : TimeDelta) : list TimeDelta :=
  match fuel with
  | O => []
  | S fuel' =>
      if delay <? kMaxBackoffDelay then
        let next := GetNextExponentialBackoffDelay delay in
        next :: backoff_delays fuel' next
      else []
  end.

(** The network stack failing every attempt of a load with
    [ERR_INSUFFICIENT_RESOURCES]: [OnComplete] is called on the loader of
    the load, and again on the loader it has created for the retry, if any,
    until none is created. *)
Fixpoint fail_every_attempt (fuel : nat) (this : nat) : M unit :=
  match fuel with
  | O => diverge
  | S fuel' =>
      loaders ← get loaders_;
      let created := fresh (dom loaders) in
      OnComplete this false ERR_INSUFFICIENT_RESOURCES;;
      loaders' ← get loaders_;
      if bool_decide (is_Some (loaders' !! created))
      then fail_every_attempt fuel' created
      else mret tt
  end.

(** The delays of the timers started, and the callbacks run, among some
    events. *)
Definition timer_delays (es : list Event) : list TimeDelta :=
  omap (fun e => match e with TimerStart _ d => Some d | _ => None end) es.

Definition callbacks_run (es : list Event) :
    list (DispatchCallback * option Value) :=
  omap (fun e => match e with RunCallback c v => Some (c, v) | _ => None end) es.

(** The events of [w'] that [w] does not have yet. *)
Definition events_since (w w' : World) : list Event :=
  drop (length (events w)) (events w').

(** A load in its fifteenth retry: the loader of stream 7 was started with
    a delay of 9.843424 seconds. *)
Definition backing_off_loader : NetworkResourceLoader :=
  {| stream_id_ := 7;
     resource_request_ := {| request_url := "https://example.test/a.map";
                             request_headers := EmptyString |};
     url_loader_factory_ := StoragePartitionFactory 3%nat;
     callback_ := 5%nat;
     response_headers_ := None;
     retry_delay_ := 9843424 |}.

Definition backing_off_world : World :=
  {| self := with_loaders {[ 0%nat := backing_off_loader ]} attached_session;
     attached := {[1%nat]}; extension_registry := None; events := [] |}.

(** A load, in its first attempt, whose response has two header lines of
    the same name. *)
Definition two_cookies : HttpResponseHeaders :=
  {| response_code := 200;
     header_lines := [("Set-Cookie", "a=1"); ("Set-Cookie", "b=2")] |}.

Definition two_cookies_loader : NetworkResourceLoader :=
  {| stream_id_ := 7;
     resource_request_ := {| request_url := "https://example.test/a.map";
                             request_headers := EmptyString |};
     url_loader_factory_ := StoragePartitionFactory 3%nat;
     callback_ := 5%nat;
     response_headers_ := Some two_cookies;
     retry_delay_ := 0 |}.

Definition two_cookies_world : World :=
  {| self := with_loaders {[ 0%nat := two_cookies_loader ]} attached_session;
     attached := {[1%nat]}; extension_registry := None; events := [] |}.

(** A reader for the examples that knows one message, [{"method":"ping"}]. *)
Definition ping_message : string :=
  "{" +:+ Str.quoted "method" +:+ ":" +:+ Str.quoted "ping" +:+ "}".

Definition example_Read (message : string) : option Value :=
  if decide (message = ping_message)
  then Some (DictionaryValue {[ "method" := StringValue "ping" ]})
  else None.

(** For the examples, every URL but the empty one is valid, and no URL has
    the file scheme. *)
Definition example_is_valid (url : string) : bool :=
  bool_decide (url ≠ EmptyString).

Definition example_SchemeIsFile (url : string) : bool := false.

Definition every_host_accepts (host : DevToolsAgentHost) : bool := true.

(** ** Further vocabulary *)

(** An enabled extension that has a devtools page. *)
Definition has_devtools_page (e : Extension) : Prop :=
  devtools_page_url e ≠ EmptyString.

(** What the frontend is told about an extension. *)
Definition extension_info (e : Extension) : gmap string Value :=
  <["exposeExperimentalAPIs" := BooleanValue (has_experimental_permission e)]>
    (<["name" := StringValue (extension_name e)]>
       {[ "startPage" := StringValue (devtools_page_url e) ]}).


Definition with_pref_service (prefs : gmap string Value)
    (s : InspectableWebContentsImpl) :=
  {| frontend_loaded_ := frontend_loaded_ s; can_dock_ := can_dock_ s;
     dock_state_ := dock_state_ s; activate_ := activate_ s;
     delegate_ := delegate_ s; view_delegate := view_delegate s;
     pref_service_ := prefs; agent_host_ := agent_host_ s;
     managed_devtools_web_contents_ := managed_devtools_web_contents_ s;
     external_devtools_web_contents_ := external_devtools_web_contents_ s;
     embedder_message_dispatcher_ := embedder_message_dispatcher_ s;
     loaders_ := loaders_ s |}.

(** ** Further member functions *)


(** [devtools] may be null. *)
Definition SetDevToolsWebContents (devtools : option WebContents) : M unit :=
  managed ← get managed_devtools_web_contents_;
  if bool_decide (is_Some managed) then mret tt
  else modify (with_external_devtools_web_contents devtools).

(** The preferences: [DictionaryPrefUpdate] on [kDevToolsPreferences]. *)
Definition GetPreferences (callback : DispatchCallback) : M unit :=
  prefs ← get pref_service_;
  emit (RunCallback callback (Some (DictionaryValue prefs))).

Definition SetPreference (name value : string) : M unit :=
  prefs ← get pref_service_;
  modify (with_pref_service (<[name := StringValue value]> prefs)).

Definition RemovePreference (name : string) : M unit :=
  prefs ← get pref_service_;
  modify (with_pref_service (delete name prefs)).

Definition ClearPreferences : M unit :=
  modify (with_pref_service ∅).

(** The script by which [LoadCompleted] docks the frontend. *)
Definition dock_side_script (dock_state : string) : string :=
  "Components.dockController.setDockSide(" +:+ Str.quoted dock_state +:+ ");".

(** The dock state that [LoadCompleted] uses when docking is possible:
    [dock_state_], or when that is empty the preference [currentDockState]
    without its double quotes. *)
Definition stored_dock_state (s : InspectableWebContentsImpl) : string :=
  Str.RemoveChars
    (default EmptyString (Dict.GetString "currentDockState" (pref_service_ s)))
    Str.dquote.

Definition effective_dock_state (s : InspectableWebContentsImpl) : string :=
  if bool_decide (dock_state_ s = EmptyString) then stored_dock_state s
  else dock_state_ s.

(** The calls of [LoadCompleted], in their order: the view is shown, the
    frontend is docked or declared undocked, the extensions are listed, the
    view delegate is told. *)
Definition load_completed_events (JSONWriter_Write : Value -> string)
    (ENABLE_ELECTRON_EXTENSIONS : bool) (frontend : WebContents) (w : World) :
    list Event :=
  let s := self w in
  let managed := bool_decide (is_Some (managed_devtools_web_contents_ s)) in
  (if managed then [ViewShowDevTools (activate_ s)] else [])
  ++ (if can_dock_ s
      then [ExecuteJavaScript frontend
              (dock_side_script (effective_dock_state s))]
      else if managed then [ViewSetIsDocked false (activate_ s)] else [])
  ++ (if ENABLE_ELECTRON_EXTENSIONS then
        match extension_registry w with
        | None => []
        | Some extensions =>
            let listed := filter has_devtools_page extensions in
            ((fun e => GrantRequestOrigin (extension_url e)) <$> listed)
            ++ [ExecuteJavaScript frontend
                  ("DevToolsAPI.addExtensions(" +:+
                   JSONWriter_Write
                     (ListValue
                        ((fun e => DictionaryValue (extension_info e))
                         <$> listed))
                   +:+ ");")]
        end
      else [])
  ++ match view_delegate s with
     | Some d => [DevToolsOpened d]
     | None => []
     end.

(** The object after [LoadCompleted]. *)
Definition load_completed_self (s : InspectableWebContentsImpl) :
    InspectableWebContentsImpl :=
  if can_dock_ s && bool_decide (dock_state_ s = EmptyString)
  then with_dock_state (stored_dock_state s) (with_frontend_loaded true s)
  else with_frontend_loaded true s.

(** The loader that [LoadNetworkResource] creates. *)
Definition new_loader (GURL_SchemeIsFile : string -> bool)
    (callback : DispatchCallback) (url headers : string) (stream_id : Z)
    (frontend : WebContents) : NetworkResourceLoader :=
  {| stream_id_ := stream_id;
     resource_request_ := {| request_url := url; request_headers := headers |};
     url_loader_factory_ :=
       if GURL_SchemeIsFile url then FileURLLoaderFactory
       else StoragePartitionFactory frontend;
     callback_ := callback;
     response_headers_ := None;
     retry_delay_ := 0 |}.

(** ** The bounds of the devtools window

    [gfx::Rect] of ui/gfx (outside this repository): an origin and a size
    of [int]s.  A size is never negative, and it is cut so that the origin
    plus the size does not exceed [INT_MAX], by the constructor and by every
    setter.  Sums and differences of [int]s are the exact ones: the
    properties are stated where they fit an [int]. *)

Record Rect := {
  rect_x : Z;
  rect_y : Z;
  rect_width : Z;
  rect_height : Z
}.

Module Gfx.

Definition AddWouldOverflow (a b : Z) : bool :=
  (0 <? a) && (0 <? b) && (INT_MAX - a <? b).

Definition GetClampedValue (origin size : Z) : Z :=
  if AddWouldOverflow origin size then INT_MAX - origin else size.

(** The size kept for a requested size at an origin. *)
Definition clamped (origin size : Z) : Z :=
  Z.max 0 (GetClampedValue origin size).

Definition make_Rect (x y width height : Z) : Rect :=
  {| rect_x := x; rect_y := y;
     rect_width := clamped x width; rect_height := clamped y height |}.

Definition set_x (x : Z) (r : Rect) : Rect :=
  {| rect_x := x; rect_y := rect_y r;
     rect_width := clamped x (rect_width r); rect_height := rect_height r |}.

Definition set_y (y : Z) (r : Rect) : Rect :=
  {| rect_x := rect_x r; rect_y := y;
     rect_width := rect_width r; rect_height := clamped y (rect_height r) |}.

Definition set_width (width : Z) (r : Rect) : Rect :=
  {| rect_x := rect_x r; rect_y := rect_y r;
     rect_width := clamped (rect_x r) width; rect_height := rect_height r |}.

Definition set_height (height : Z) (r : Rect) : Rect :=
  {| rect_x := rect_x r; rect_y := rect_y r;
     rect_width := rect_width r; rect_height := clamped (rect_y r) height |}.

End Gfx.

(** [Value::GetInt()]: a [CHECK] fails on a value that is not an integer. *)
Definition GetInt (v : Value) : option Z :=
  match v with
  | IntegerValue i => Some i
  | _ => None
  end.

(** [found ? found->GetInt() : fallback] for [found = dict->FindKey(key)]. *)
Definition int_or (key : string) (fallback : Z) (dict : gmap string Value) :
    option Z :=
  match dict !! key with
  | Some found => GetInt found
  | None => Some fallback
  end.

Definition RectToDictionary (bounds : Rect) : gmap string Value :=
  <["height" := IntegerValue (rect_height bounds)]>
    (<["width" := IntegerValue (rect_width bounds)]>
       (<["y" := IntegerValue (rect_y bounds)]>
          (<["x" := IntegerValue (rect_x bounds)]> ∅))).

(** [None] when a [CHECK] fails. *)
Definition DictionaryToRect (dict : gmap string Value) : option Rect :=
  x ← int_or "x" 0 dict;
  y ← int_or "y" 0 dict;
  width ← int_or "width" 800 dict;
  height ← int_or "height" 600 dict;
  Some (Gfx.make_Rect x y width height).

Definition Point : Type := Z * Z.

Definition IsPointInRect (point : Point) (rect : Rect) : bool :=
  (rect_x rect <? point.1) && (point.1 <? rect_width rect + rect_x rect)
  && (rect_y rect <? point.2) && (point.2 <? rect_height rect + rect_y rect).

(** The bounds of the displays of the screen are an argument. *)
Fixpoint IsPointInScreen (all_displays : list Rect) (point : Point) : bool :=
  match all_displays with
  | [] => false
  | display :: rest =>
      if IsPointInRect point display then true
      else IsPointInScreen rest point
  end.

(** The [devtools_bounds_] that the constructor computes from the value
    stored under [kDevToolsBoundsPref].  [nearest] are the bounds of the
    display nearest to the native view of the inspected contents,
    [has_native_view] whether there is such a view, and [primary] the bounds
    of the primary display. *)
Definition initial_devtools_bounds (bounds_dict : Value)
    (is_guest has_native_view : bool)
    (all_displays : list Rect) (nearest primary : Rect) : option Rect :=
  match bounds_dict with
  | DictionaryValue dict =>
      bounds ← DictionaryToRect dict;
      let bounds :=
        if (rect_height bounds <? 100) || (rect_width bounds <? 100)
        then Gfx.set_width 800 (Gfx.set_height 600 bounds)
        else bounds in
      if negb (IsPointInScreen all_displays (rect_x bounds, rect_y bounds))
      then
        let display :=
          if negb is_guest && has_native_view then nearest else primary in
        let bounds :=
          Gfx.set_x (rect_x display
                     + (rect_width display - rect_width bounds) ÷ 2) bounds in
        Some (Gfx.set_y (rect_y display
                         + (rect_height display - rect_height bounds) ÷ 2)
                bounds)
      else Some bounds
  | _ => Some (Gfx.make_Rect 0 0 0 0)
  end.

(** A rectangle as the class keeps it. *)
Definition Rect_valid (r : Rect) : Prop :=
  0 <= rect_width r /\ 0 <= rect_height r
  /\ rect_x r + rect_width r <= INT_MAX /\ rect_y r + rect_height r <= INT_MAX.

(** Coordinates and sizes far from the ends of [int]. *)
Definition moderate (z : Z) : Prop := - 2 ^ 29 <= z <= 2 ^ 29.

Definition Rect_moderate (r : Rect) : Prop :=
  moderate (rect_x r) /\ moderate (rect_y r)
  /\ 0 <= rect_width r <= 2 ^ 29 /\ 0 <= rect_height r <= 2 ^ 29.

(** ** Opening and closing the devtools

    The functions below make calls that the event log of [World] has no
    name for, and use members that [InspectableWebContentsImpl] above does
    not carry.  A [Session] adds them: the guest flag, the contents that the
    object observes as a [WebContentsObserver], the scripts registered by
    [RegisterExtensionsAPI], and a history in which the calls known so far
    and the new ones follow each other in the order in which they are
    made. *)

Definition with_activate (b : bool) (s : InspectableWebContentsImpl) :=
  {| frontend_loaded_ := frontend_loaded_ s; can_dock_ := can_dock_ s;
     dock_state_ := dock_state_ s; activate_ := b;
     delegate_ := delegate_ s; view_delegate := view_delegate s;
     pref_service_ := pref_service_ s; agent_host_ := agent_host_ s;
     managed_devtools_web_contents_ := managed_devtools_web_contents_ s;
     external_devtools_web_contents_ := external_devtools_web_contents_ s;
     embedder_message_dispatcher_ := embedder_message_dispatcher_ s;
     loaders_ := loaders_ s |}.

Definition with_managed_devtools_web_contents (c : option WebContents)
    (s : InspectableWebContentsImpl) :=
  {| frontend_loaded_ := frontend_loaded_ s; can_dock_ := can_dock_ s;
     dock_state_ := dock_state_ s; activate_ := activate_ s;
     delegate_ := delegate_ s; view_delegate := view_delegate s;
     pref_service_ := pref_service_ s; agent_host_ := agent_host_ s;
     managed_devtools_web_contents_ := c;
     external_devtools_web_contents_ := external_devtools_web_contents_ s;
     embedder_message_dispatcher_ := embedder_message_dispatcher_ s;
     loaders_ := loaders_ s |}.

Inductive Call :=
| Earlier (e : Event)
| CreateWebContents (contents : WebContents)
| SetWebContentsDelegate (contents : WebContents)
| ClearWebContentsDelegate (contents : WebContents)
| LoadURL (contents : WebContents) (url : string)
| ViewCloseDevTools
| DestroyWebContents (contents : WebContents)
| FocusInspectedContents
| ExecuteJavaScriptForTests (frame : nat) (script : string).

Record Session := {
  world : World;
  is_guest_ : bool;
  observed : option WebContents;
  extensions_api_ : gmap string string;
  history : list Call
}.

Inductive SessionOutcome (A : Type) :=
| Finished (a : A) (s : Session)
| Crashed
| Hangs.
Arguments Finished {A} a s.
Arguments Crashed {A}.
Arguments Hangs {A}.

Definition MS (A : Type) := Session -> SessionOutcome A.

#[global] Instance MS_ret : MRet MS := fun A a s => Finished a s.

#[global] Instance MS_bind : MBind MS := fun A B k m s =>
  match m s with
  | Finished a s' => k a s'
  | Crashed => Crashed
  | Hangs => Hangs
  end.

(** A member function of the earlier kind, run on the session: its calls
    are entered in the history. *)
Definition lift {A} (m : M A) : MS A := fun s =>
  match m (world s) with
  | Done a w' =>
      Finished a
        {| world := w'; is_guest_ := is_guest_ s; observed := observed s;
           extensions_api_ := extensions_api_ s;
           history := history s ++ (Earlier <$> events_since (world s) w') |}
  | NullDereference => Crashed
  | Diverges => Hangs
  end.

Definition call (c : Call) : MS unit := fun s =>
  Finished tt
    {| world := world s; is_guest_ := is_guest_ s; observed := observed s;
       extensions_api_ := extensions_api_ s; history := history s ++ [c] |}.

Definition set_observed (c : option WebContents) : MS unit := fun s =>
  Finished tt
    {| world := world s; is_guest_ := is_guest_ s; observed := c;
       extensions_api_ := extensions_api_ s; history := history s |}.

Definition set_extensions_api (api : gmap string string) : MS unit := fun s =>
  Finished tt
    {| world := world s; is_guest_ := is_guest_ s; observed := observed s;
       extensions_api_ := api; history := history s |}.

Definition read {A} (field : Session -> A) : MS A := fun s => Finished (field s) s.

(** [Observe(contents)] of [WebContentsObserver]. *)
Definition Observe_ (contents : option WebContents) : MS unit :=
  lift (emit (Observe contents));;
  set_observed contents.

(** [WebContentsDestroyed], with the [Observe(nullptr)] in it taking
    effect. *)
Definition WebContentsDestroyed_ : MS unit :=
  lift WebContentsDestroyed;;
  set_observed None.

(** The end of a [WebContents]: its observers are told
    ([WebContentsObserver::WebContentsDestroyed]), as the destructor of the
    class relies on when it says that calling [WebContentsDestroyed] itself
    unsubscribes the observer, so that it is not called again. *)
Definition destroy (contents : WebContents) : MS unit :=
  call (DestroyWebContents contents);;
  watching ← read observed;
  if bool_decide (watching = Some contents) then WebContentsDestroyed_
  else mret tt.

Definition kChromeUIDevToolsURL_before : string :=
  "devtools://devtools/bundled/devtools_app.html?remoteBase=".

Definition kChromeUIDevToolsURL_after : string :=
  "&toolbarColor=rgba(223,223,223,1)&textColor=rgba(0,0,0,1)&experiments=true".

(** [GetDevToolsURL(can_dock)] before it is parsed into a [GURL];
    [remote_base] is [GetRemoteBaseURL().spec()]. *)
Definition GetDevToolsURL (remote_base : string) (can_dock : bool) : string :=
  kChromeUIDevToolsURL_before +:+ remote_base +:+ "&can_dock=" +:+
  (if can_dock then "true" else EmptyString) +:+ kChromeUIDevToolsURL_after.

Section Opening.

Variable AttachClient_succeeds : DevToolsAgentHost -> bool.
Variable remote_base : string.

(** [created] is what [WebContents::Create] returns when it is called, and
    [inspected] what [DevToolsAgentHost::GetOrCreateFor] returns for the
    inspected contents.  The assignment to the [unique_ptr] puts an end to
    the contents that it held, if any. *)
Definition ShowDevTools (activate : bool) (created : WebContents)
    (inspected : DevToolsAgentHost) : MS unit :=
  dispatcher ← lift (get embedder_message_dispatcher_);
  if (dispatcher : bool) then
    managed ← lift (get managed_devtools_web_contents_);
    if bool_decide (is_Some managed) then lift (emit (ViewShowDevTools activate))
    else mret tt
  else
    lift (modify (with_activate activate));;
    lift (modify (with_embedder_message_dispatcher true));;
    external ← lift (get external_devtools_web_contents_);
    (if bool_decide (is_Some external) then mret tt
     else
       call (CreateWebContents created);;
       replaced ← lift (get managed_devtools_web_contents_);
       lift (modify (with_managed_devtools_web_contents (Some created)));;
       match replaced with
       | Some old => destroy old
       | None => mret tt
       end;;
       call (SetWebContentsDelegate created));;
    (lift GetDevToolsWebContents ≫= Observe_);;
    lift (AttachTo AttachClient_succeeds inspected);;
    frontend ← lift (GetDevToolsWebContents ≫= deref);
    can_dock ← lift (get can_dock_);
    call (LoadURL frontend (GetDevToolsURL remote_base can_dock)).

Definition CloseDevTools : MS unit :=
  frontend ← lift GetDevToolsWebContents;
  if bool_decide (is_Some frontend) then
    lift (modify (with_frontend_loaded false));;
    managed ← lift (get managed_devtools_web_contents_);
    match managed with
    | Some contents =>
        call ViewCloseDevTools;;
        lift (modify (with_managed_devtools_web_contents None));;
        destroy contents
    | None => mret tt
    end;;
    lift (modify (with_embedder_message_dispatcher false));;
    guest ← read is_guest_;
    if (guest : bool) then mret tt else call FocusInspectedContents
  else mret tt.

(** [CloseContents]: the devtools close themselves. *)
Definition CloseContents : MS unit := CloseDevTools.

End Opening.

(** Devtools open in an external document: the document 4 is set, loaded
    and observed, and the object is attached to the agent host 1. *)
Definition external_session : Session :=
  {| world :=
       {| self := with_external_devtools_web_contents (Some 4%nat)
                    (with_managed_devtools_web_contents None attached_session);
          attached := {[1%nat]}; extension_registry := None; events := [] |};
     is_guest_ := false; observed := Some 4%nat; extensions_api_ := ∅;
     history := [] |}.

(** The destructor, as far as the devtools go: its body, and then the end
    of [managed_devtools_web_contents_] with the members. *)
Definition Destructor : MS unit :=
  frontend ← lift GetDevToolsWebContents;
  (if bool_decide (is_Some frontend) then
     managed ← lift (get managed_devtools_web_contents_);
     match managed with
     | Some contents => call (ClearWebContentsDelegate contents)
     | None => mret tt
     end;;
     WebContentsDestroyed_
   else mret tt);;
  managed ← lift (get managed_devtools_web_contents_);
  match managed with
  | Some contents =>
      lift (modify (with_managed_devtools_web_contents None));;
      destroy contents
  | None => mret tt
  end.

(** ** The extensions API in subframes *)

Module StrOps.

(** [std::string::find(needle)] from position 0. *)
Fixpoint find (needle s : string) : option nat :=
  if String.prefix needle s then Some 0%nat
  else match s with
       | EmptyString => None
       | String _ s' => S <$> find needle s'
       end.

Fixpoint take (n : nat) (s : string) : string :=
  match n, s with
  | S n', String c s' => String c (take n' s')
  | _, _ => EmptyString
  end.

Fixpoint drop (n : nat) (s : string) : string :=
  match n, s with
  | S n', String _ s' => drop n' s'
  | _, _ => s
  end.

(** [base::ReplaceFirstSubstringAfterOffset(&s, 0, find_this,
    replace_with)] of Chromium's base library: the first occurrence of
    [find_this] gives way to [replace_with]; without an occurrence the
    string stays. *)
Definition ReplaceFirstSubstringAfterOffset (s find_this replace_with : string)
    : string :=
  match find find_this s with
  | Some pos =>
      take pos s +:+ replace_with +:+ drop (pos + String.length find_this) s
  | None => s
  end.

(** What [%s] prints of [s.c_str()]: the characters before the first
    NUL. *)
Fixpoint c_str (s : string) : string :=
  match s with
  | EmptyString => EmptyString
  | String c s' =>
      if Ascii.eqb c "000"%char then EmptyString else String c (c_str s')
  end.

End StrOps.

(** What [DidFinishNavigation] asks of a [content::NavigationHandle]:
    [url_scheme] is the scheme of [GetURL()] and [origin_spec] is
    [GetURL().GetOrigin().spec()]. *)
Record NavigationHandle := {
  IsInMainFrame : bool;
  url_scheme : string;
  HasCommitted : bool;
  GetRenderFrameHost : nat;
  origin_spec : string
}.


Definition chrome_patch (script : string) : string :=
  StrOps.ReplaceFirstSubstringAfterOffset script "var chrome"
    "var chrome = window.chrome ".

(** [base::StringPrintf] with the format [%s(%s)], the second argument
    between double quotes, of [script.c_str()] and [guid.c_str()]. *)
Definition api_call (script guid : string) : string :=
  StrOps.c_str script +:+ "(" +:+ Str.quoted (StrOps.c_str guid) +:+ ")".

(** [guid] is what [base::GenerateGUID()] returns when it is called.  The
    replacement is made in the entry of [extensions_api_] itself; the script
    is recorded as it is before [UTF8ToUTF16]. *)
Definition DidFinishNavigation (navigation_handle : NavigationHandle)
    (guid : string) : MS unit :=
  if IsInMainFrame navigation_handle
     || negb (String.eqb (url_scheme navigation_handle) "chrome-extension")
     || negb (HasCommitted navigation_handle)
  then mret tt
  else
    let frame := GetRenderFrameHost navigation_handle in
    let origin := origin_spec navigation_handle in
    api ← read extensions_api_;
    match api !! origin with
    | None => mret tt
    | Some stored =>
        let patched := chrome_patch stored in
        set_extensions_api (<[origin := patched]> api);;
        call (ExecuteJavaScriptForTests frame (api_call patched guid))
    end.

(** Navigations one after the other, each with the GUID generated for
    it. *)
Fixpoint navigations (handles : list (NavigationHandle * string)) : MS unit :=
  match handles with
  | [] => mret tt
  | (h, guid) :: rest => DidFinishNavigation h guid;; navigations rest
  end.

(** [k] copies of [s] in a row. *)
Fixpoint repeat_string (k : nat) (s : string) : string :=
  match k with
  | O => EmptyString
  | S k' => s +:+ repeat_string k' s
  end.

(** A script in which [var chrome] first occurs at [pos], after [k]
    replacements: what the replacement adds follows the occurrence [k]
    times. *)
Definition patched_script (script : string) (pos k : nat) : string :=
  StrOps.take pos script +:+ "var chrome" +:+
  repeat_string k " = window.chrome " +:+
  StrOps.drop (pos + 10) script.

(** ** Examples *)

(** The frontend has loaded, but its document is gone. *)
Definition orphaned_world : World :=
  set_self (with_managed_devtools_web_contents None) attached_world.

(** Two enabled extensions, the second without a devtools page. *)
Definition react_extension : Extension :=
  {| extension_name := "React";
     extension_url := "chrome-extension://react/";
     devtools_page_url := "chrome-extension://react/main.html";
     has_experimental_permission := false |}.

Definition plain_extension : Extension :=
  {| extension_name := "Plain";
     extension_url := "chrome-extension://plain/";
     devtools_page_url := EmptyString;
     has_experimental_permission := false |}.

Definition extensions_world : World :=
  {| self := attached_session; attached := {[1%nat]};
     extension_registry := Some [react_extension; plain_extension];
     events := [] |}.

(** A window of 640 by 480 on a display of 1920 by 1080, and the same
    window with its origin on the corner of the display. *)
Definition full_hd : Rect :=
  {| rect_x := 0; rect_y := 0; rect_width := 1920; rect_height := 1080 |}.

Definition saved_bounds : Rect :=
  {| rect_x := 40; rect_y := 30; rect_width := 640; rect_height := 480 |}.

Definition corner_bounds : Rect :=
  {| rect_x := 0; rect_y := 0; rect_width := 640; rect_height := 480 |}.

(** Before the devtools are opened, and with the devtools open in the
    managed document 3. *)
Definition closed_session : Session :=
  {| world := initial_world; is_guest_ := false; observed := None;
     extensions_api_ := ∅; history := [] |}.

Definition open_session : Session :=
  {| world := attached_world; is_guest_ := false; observed := Some 3%nat;
     extensions_api_ := ∅; history := [] |}.

(** A committed navigation of the subframe 9 to a page of an extension
    whose script is registered. *)
Definition extension_subframe : NavigationHandle :=
  {| IsInMainFrame := false; url_scheme := "chrome-extension";
     HasCommitted := true; GetRenderFrameHost := 9%nat;
     origin_spec := "chrome-extension://react/" |}.

Definition api_script : string := "(function(id) { var chrome; })".

Definition api_session : Session :=
  {| world := attached_world; is_guest_ := false; observed := Some 3%nat;
     extensions_api_ := {[ "chrome-extension://react/" := api_script ]};
     history := [] |}.

(** * Properties *)

Module StrFacts.
Import Str.

Lemma app_nil_l (b : string) : EmptyString +:+ b = b.
Proof. reflexivity. Qed.

Lemma app_cons (x : ascii) (a b : string) :
  String x a +:+ b = String x (a +:+ b).
Proof. reflexivity. Qed.

Lemma app_assoc (a b c : string) : (a +:+ b) +:+ c = a +:+ (b +:+ c).
Proof.
  induction a as [|x a IH]; [reflexivity|]. by rewrite !app_cons, IH.
Qed.

Lemma app_empty_r (a : string) : a +:+ EmptyString = a.
Proof. induction a as [|x a IH]; [reflexivity|]. by rewrite app_cons, IH. Qed.

(** [substr(pos, n)] is [String.substring pos n]: the part of the string that
    starts at [pos], cut after [n] characters or at the end of the string. *)
Lemma substring_nil (pos n : nat) : substring pos n EmptyString = EmptyString.
Proof. destruct pos, n; reflexivity. Qed.

Lemma substring_none (pos : nat) (s : string) :
  substring pos 0 s = EmptyString.
Proof.
  revert pos; induction s as [|x s IH]; intros [|pos]; simpl; auto.
Qed.

Lemma substring_0_all (n : nat) (s : string) :
  (String.length s <= n)%nat -> substring 0 n s = s.
Proof.
  revert n; induction s as [|x s IH]; intros n Hn.
  - apply substring_nil.
  - destruct n as [|n]; simpl in *; [lia|]. rewrite IH; [reflexivity | lia].
Qed.

(** A piece of length [n] followed by the next piece is the piece of both. *)
Lemma substring_split (pos n m : nat) (s : string) :
  substring pos n s +:+ substring (pos + n) m s = substring pos (n + m) s.
Proof.
  revert pos n; induction s as [|x s IH]; intros pos n.
  - by rewrite !substring_nil.
  - destruct pos as [|pos].
    + destruct n as [|n]; simpl; [reflexivity|].
      by rewrite app_cons, <- (IH 0%nat n).
    + simpl. apply IH.
Qed.

End StrFacts.

Module DictFacts.
Import Dict.

Lemma components_no_dot (path : string) :
  Str.contains "."%char path = false -> components path = [path].
Proof.
  induction path as [|c rest IH]; simpl; [reflexivity|].
  destruct (Ascii.eqb c "."%char); [discriminate|].
  intros H. by rewrite (IH H).
Qed.

Lemma Set_no_dot (path : string) (v : Value) (d : gmap string Value) :
  Str.contains "."%char path = false -> Set_ path v d = <[path := v]> d.
Proof. intros H. unfold Set_. by rewrite (components_no_dot _ H). Qed.

Lemma Get_no_dot (path : string) (d : gmap string Value) :
  Str.contains "."%char path = false -> Get path d = d !! path.
Proof. intros H. unfold Get. by rewrite (components_no_dot _ H). Qed.

End DictFacts.

Module PatternFacts.
Import Pattern.

(** A star lets any prefix go by. *)
Lemma star_skip (k : string -> bool) (skipped e : string) :
  k e = true -> star k (skipped +:+ e) = true.
Proof.
  intros Hk. induction skipped as [|x skipped IH].
  - rewrite StrFacts.app_nil_l. destruct e; simpl; rewrite Hk; reflexivity.
  - rewrite StrFacts.app_cons. simpl. rewrite IH. apply orb_true_r.
Qed.

(** And a star accepts only so: what it accepts ends in something that the
    rest of the pattern accepts. *)
Lemma star_inv (k : string -> bool) (e : string) :
  star k e = true -> exists skipped e', e = skipped +:+ e' /\ k e' = true.
Proof.
  induction e as [|x e IH]; simpl; intros H.
  - exists EmptyString, EmptyString. split; [reflexivity|].
    by rewrite orb_false_r in H.
  - apply orb_true_iff in H as [H|H].
    + by exists EmptyString, (String x e).
    + destruct (IH H) as (s & e' & -> & Hk).
      by exists (String x s), e'.
Qed.

End PatternFacts.

(** ** Running a member function *)

#[local] Set Warnings "-clear-no-such-hyp".

Ltac run :=
  repeat (progress (unfold mbind, M_bind, mret, M_ret, get, modify, emit, deref,
                      when, modify_attached, get_extension_registry; simpl)).

Lemma add_events_nil (w : World) : add_events [] w = w.
Proof. destruct w; unfold add_events; simpl. by rewrite app_nil_r. Qed.

Lemma add_event_events (e : Event) (w : World) : add_event e w = add_events [e] w.
Proof. reflexivity. Qed.

Lemma add_events_app (es es' : list Event) (w : World) :
  add_events es' (add_events es w) = add_events (es ++ es') w.
Proof. unfold add_events; simpl. by rewrite app_assoc. Qed.

Lemma GetDevToolsWebContents_spec (w : World) :
  GetDevToolsWebContents w = Done (frontend_of w) w.
Proof.
  unfold GetDevToolsWebContents, frontend_of. run.
  by destruct (external_devtools_web_contents_ (self w)).
Qed.

Section ClientFunction.

Variable JSONWriter_Write : Value -> string.

Lemma CallClientFunction_absent (function_name : string)
    (arg1 arg2 arg3 : option Value) (w : World) :
  frontend_of w = None ->
  CallClientFunction JSONWriter_Write function_name arg1 arg2 arg3 w = Done tt w.
Proof.
  intros H. unfold CallClientFunction. run.
  rewrite GetDevToolsWebContents_spec. by rewrite H.
Qed.

Lemma CallClientFunction_present (function_name : string)
    (arg1 arg2 arg3 : option Value) (w : World) (frontend : WebContents) :
  frontend_of w = Some frontend ->
  CallClientFunction JSONWriter_Write function_name arg1 arg2 arg3 w =
  Done tt (add_events
             [ExecuteJavaScript frontend
                (function_name +:+ "(" +:+
                 client_arguments JSONWriter_Write arg1 arg2 arg3 +:+ ");")] w).
Proof.
  intros H. unfold CallClientFunction. run.
  rewrite GetDevToolsWebContents_spec. rewrite H.
  rewrite GetDevToolsWebContents_spec. by rewrite H.
Qed.

Lemma add_extensions_spec (extensions : list Extension) (results : list Value)
    (w : World) :
  exists results',
    add_extensions results extensions w =
    Done results' (add_events (requested_grants (Some extensions)) w).
Proof.
  revert results w. induction extensions as [|e rest IH]; intros results w.
  - exists results. simpl. run. by rewrite add_events_nil.
  - simpl. unfold add_extension. run. rewrite filter_cons.
    destruct (decide (devtools_page_url e ≠ EmptyString)) as [Hne|Heq].
    + rewrite bool_decide_eq_false_2 by done. run.
      destruct (IH (results ++
        [DictionaryValue
           (Dict.Set_ "exposeExperimentalAPIs"
              (BooleanValue (has_experimental_permission e))
              (Dict.SetString "name" (extension_name e)
                 (Dict.SetString "startPage" (devtools_page_url e) ∅)))])
        (add_event (GrantRequestOrigin (extension_url e)) w)) as [r Hr].
      exists r. rewrite Hr. rewrite add_event_events, add_events_app.
      reflexivity.
    + rewrite bool_decide_eq_true_2 by (by apply dec_stable).
      destruct (IH results w) as [r Hr]. exists r. by rewrite Hr.
Qed.

End ClientFunction.

(** ** Delivery without a frontend document *)

(** C9. When there is no frontend document, neither an external nor a
    managed one, a client-function delivery makes no call and does not fail:
    [CallClientFunction] returns with the world as it was, and so does the
    message ack; a stream chunk only resumes the download; the extension
    list only grants the extensions their origins.  None of them runs a
    script in a frontend. *)
Theorem delivery_without_frontend_is_noop
    (JSONWriter_Write : Value -> string)
    (IsStringUTF8 : string -> bool) (Base64Encode : string -> string)
    (w : World) :
  external_devtools_web_contents_ (self w) = None ->
  managed_devtools_web_contents_ (self w) = None ->
  (forall function_name arg1 arg2 arg3,
      CallClientFunction JSONWriter_Write function_name arg1 arg2 arg3 w
      = Done tt w)
  /\ (forall request_id arg,
         SendMessageAck JSONWriter_Write request_id arg w = Done tt w)
  /\ (forall this l chunk,
         loaders_ (self w) !! this = Some l ->
         OnDataReceived JSONWriter_Write IsStringUTF8 Base64Encode this chunk w
         = Done tt (add_events [Resume] w))
  /\ AddDevToolsExtensionsToClient JSONWriter_Write w
     = Done tt (add_events (requested_grants (extension_registry w)) w)
  /\ Forall (fun e => ~ is_frontend_call e)
       (Resume :: requested_grants (extension_registry w)).
Proof.
  intros Hext Hman.
  assert (Hnone : forall es, frontend_of (add_events es w) = None).
  { intros es. unfold frontend_of. simpl. by rewrite Hext, Hman. }
  assert (Hw : frontend_of w = None) by (rewrite <- (add_events_nil w); apply Hnone).
  repeat split.
  - intros. by apply CallClientFunction_absent.
  - intros. unfold SendMessageAck. by apply CallClientFunction_absent.
  - intros this l chunk Hl. unfold OnDataReceived, this_loader. run.
    rewrite Hl. run. by rewrite CallClientFunction_absent.
  - unfold AddDevToolsExtensionsToClient. run.
    destruct (extension_registry w) as [extensions|] eqn:Hreg; run.
    + destruct (add_extensions_spec extensions [] w) as [r Hr]. rewrite Hr.
      by rewrite CallClientFunction_absent.
    + by rewrite add_events_nil.
  - constructor; [by intros []|].
    destruct (extension_registry w) as [extensions|]; simpl; [|constructor].
    apply Forall_fmap, Forall_forall. by intros e _ [].
Qed.

(** ** Events that arrive before the frontend has loaded *)

(** C10. While [frontend_loaded_] is false a protocol message from the
    inspected target is dropped: [DispatchProtocolMessage] returns with the
    world as it was, so the message is neither handed to the frontend nor
    kept anywhere, and whatever runs later ([LoadCompleted] among it) runs
    as if the message had never arrived. *)
Theorem message_before_load_is_discarded
    (kMaximumMessageSize : nat)
    (JSONWriter_Write : Value -> string) (EscapeJSONString : string -> string)
    (ENABLE_ELECTRON_EXTENSIONS : bool)
    (agent_host : DevToolsAgentHost) (message : string) (w : World) :
  frontend_loaded_ (self w) = false ->
  DispatchProtocolMessage kMaximumMessageSize JSONWriter_Write EscapeJSONString
    agent_host message w = Done tt w
  /\ (DispatchProtocolMessage kMaximumMessageSize JSONWriter_Write
        EscapeJSONString agent_host message;;
      LoadCompleted JSONWriter_Write ENABLE_ELECTRON_EXTENSIONS) w
     = LoadCompleted JSONWriter_Write ENABLE_ELECTRON_EXTENSIONS w
  /\ (forall (A : Type) (later : M A),
         (DispatchProtocolMessage kMaximumMessageSize JSONWriter_Write
            EscapeJSONString agent_host message;; later) w = later w).
Proof.
  intros Hloaded.
  assert (Hdrop : DispatchProtocolMessage kMaximumMessageSize JSONWriter_Write
                    EscapeJSONString agent_host message w = Done tt w).
  { unfold DispatchProtocolMessage. run. by rewrite Hloaded. }
  split; [exact Hdrop|].
  assert (Hlater : forall (A : Type) (later : M A),
             (DispatchProtocolMessage kMaximumMessageSize JSONWriter_Write
                EscapeJSONString agent_host message;; later) w = later w).
  { intros A later. unfold mbind, M_bind. by rewrite Hdrop. }
  split; [apply Hlater | exact Hlater].
Qed.

(** ** Loading from a URL that does not parse *)

Lemma status_code_only (code : Z) :
  Dict.SetInteger "statusCode" code ∅
  = ({[ "statusCode" := IntegerValue code ]} : gmap string Value).
Proof.
  unfold Dict.SetInteger. rewrite DictFacts.Set_no_dot by reflexivity.
  by rewrite insert_empty.
Qed.

(** C7. A load whose URL is not valid ends inside the call: the callback is
    run at once with a response that holds the status code 404 and nothing
    else (no headers), and nothing else happens: no timer is started, so
    there is no network attempt and no retry, and the object, its loader
    registry included, is as before. *)
Theorem invalid_url_completes_with_404
    (GURL_is_valid GURL_SchemeIsFile : string -> bool)
    (callback : DispatchCallback) (url headers : string) (stream_id : Z)
    (w : World) :
  GURL_is_valid url = false ->
  let response : gmap string Value := {[ "statusCode" := IntegerValue 404 ]} in
  LoadNetworkResource GURL_is_valid GURL_SchemeIsFile callback url headers
    stream_id w
  = Done tt (add_events [RunCallback callback (Some (DictionaryValue response))] w)
  /\ response !! "headers" = None
  /\ loaders_ (self (add_events
                       [RunCallback callback (Some (DictionaryValue response))] w))
     = loaders_ (self w).
Proof.
  intros Hinvalid response. split; [|split; [reflexivity | reflexivity]].
  unfold LoadNetworkResource. rewrite Hinvalid. simpl.
  by rewrite status_code_only.
Qed.

(** ** Attach and detach *)

Lemma with_agent_host_None_id (s : InspectableWebContentsImpl) :
  agent_host_ s = None -> with_agent_host None s = s.
Proof. destruct s; simpl; intros ->; reflexivity. Qed.

Lemma set_self_id (f : InspectableWebContentsImpl -> InspectableWebContentsImpl)
    (w : World) :
  f (self w) = self w -> set_self f w = w.
Proof. destruct w; unfold set_self; simpl; intros ->; reflexivity. Qed.

Lemma Detach_detached (w : World) :
  agent_host_ (self w) = None -> Detach w = Done tt w.
Proof.
  intros H. unfold Detach. run. rewrite H. run.
  by rewrite set_self_id by (by apply with_agent_host_None_id).
Qed.

Lemma Detach_attached (w : World) (h : DevToolsAgentHost) :
  agent_host_ (self w) = Some h ->
  Detach w =
  Done tt (set_self (with_agent_host None)
             (set_attached (fun hosts => hosts ∖ {[h]})
                (add_event (DetachClient h) w))).
Proof. intros H. unfold Detach, agent_DetachClient. run. by rewrite H. Qed.

(** After [Detach] nothing is bound, and what was attached and bound is
    attached no more. *)
Lemma Detach_spec (w : World) :
  exists w',
    Detach w = Done tt w'
    /\ agent_host_ (self w') = None
    /\ attached w' = attached w ∖ bound_hosts w
    /\ events w' = events w ++ (match agent_host_ (self w) with
                                | Some h => [DetachClient h]
                                | None => []
                                end).
Proof.
  unfold bound_hosts. destruct (agent_host_ (self w)) as [h|] eqn:Hh.
  - eexists. split; [by apply Detach_attached|]. simpl. by rewrite ?Hh.
  - exists w. split; [by apply Detach_detached|].
    rewrite Hh, app_nil_r. split_and!; [done | set_solver | done].
Qed.

Section Lifecycle.

Variable AttachClient_succeeds : DevToolsAgentHost -> bool.

Lemma AttachTo_spec (host : DevToolsAgentHost) (w : World) :
  exists w',
    AttachTo AttachClient_succeeds host w = Done tt w'
    /\ agent_host_ (self w') = Some host
    /\ attached w' =
       (if AttachClient_succeeds host then {[host]} else ∅)
       ∪ (attached w ∖ bound_hosts w)
    /\ events w' = events w ++ (match agent_host_ (self w) with
                                | Some h => [DetachClient h]
                                | None => []
                                end) ++ [AttachClient host].
Proof.
  destruct (Detach_spec w) as (w1 & Hrun & Hhost & Hatt & Hev).
  unfold AttachTo, agent_AttachClient. run. rewrite Hrun. run.
  destruct (AttachClient_succeeds host); run; eexists; (split; [reflexivity|]);
    simpl; rewrite Hatt, Hev, <- app_assoc; split_and!; try done; set_solver.
Qed.

Lemma Reattach_spec (callback : DispatchCallback) (w : World) :
  exists w',
    Reattach AttachClient_succeeds callback w = Done tt w'
    /\ agent_host_ (self w') = agent_host_ (self w)
    /\ attached w' ⊆ attached w ∪ bound_hosts w.
Proof.
  unfold Reattach, agent_DetachClient, agent_AttachClient, bound_hosts. run.
  destruct (agent_host_ (self w)) as [h|] eqn:Hh; run.
  - destruct (AttachClient_succeeds h); run; eexists;
      (split; [reflexivity|]); simpl; (split; [done | set_solver]).
  - eexists; (split; [reflexivity|]); simpl; (split; [done | set_solver]).
Qed.

Lemma WebContentsDestroyed_spec (w : World) :
  exists w',
    WebContentsDestroyed w = Done tt w'
    /\ agent_host_ (self w') = None
    /\ attached w' = attached w ∖ bound_hosts w.
Proof.
  unfold WebContentsDestroyed. run.
  set (w0 := add_event (Observe None) _).
  destruct (Detach_spec w0) as (w1 & Hrun & Hhost & Hatt & Hev).
  rewrite Hrun. run.
  destruct (view_delegate (self w1)); run; eexists; (split; [reflexivity|]);
    simpl; by rewrite Hhost, Hatt.
Qed.

Lemma lifecycle_call_consistent (call : LifecycleCall) (w : World) :
  attachment_consistent w ->
  exists w',
    lifecycle_call AttachClient_succeeds call w = Done tt w'
    /\ attachment_consistent w'.
Proof.
  unfold attachment_consistent. intros Hw. destruct call as [host| |callback|]; simpl.
  - destruct (AttachTo_spec host w) as (w' & Hrun & Hhost & Hatt & _).
    exists w'. split; [done|]. unfold bound_hosts at 1. rewrite Hhost, Hatt.
    destruct (AttachClient_succeeds host); set_solver.
  - destruct (Detach_spec w) as (w' & Hrun & Hhost & Hatt & _).
    exists w'. split; [done|]. rewrite Hatt. set_solver.
  - destruct (Reattach_spec callback w) as (w' & Hrun & Hhost & Hatt).
    exists w'. split; [done|]. unfold bound_hosts at 1. rewrite Hhost.
    fold (bound_hosts w). set_solver.
  - destruct (WebContentsDestroyed_spec w) as (w' & Hrun & Hhost & Hatt).
    exists w'. split; [done|]. rewrite Hatt. set_solver.
Qed.

Lemma lifecycle_calls_consistent (calls : list LifecycleCall) (w : World) :
  attachment_consistent w ->
  exists w',
    lifecycle_calls AttachClient_succeeds calls w = Done tt w'
    /\ attachment_consistent w'.
Proof.
  revert w. induction calls as [|call rest IH]; intros w Hw.
  - by exists w.
  - destruct (lifecycle_call_consistent call w Hw) as (w1 & Hrun & Hw1).
    destruct (IH w1 Hw1) as (w' & Hrest & Hw').
    exists w'. split; [|done]. simpl. unfold mbind, M_bind. by rewrite Hrun.
Qed.

Lemma consistent_at_most_one (w : World) :
  attachment_consistent w -> (size (attached w) <= 1)%nat.
Proof.
  unfold attachment_consistent, bound_hosts. intros Hw.
  apply subseteq_size in Hw.
  destruct (agent_host_ (self w)).
  - rewrite size_singleton in Hw. lia.
  - rewrite size_empty in Hw. lia.
Qed.

End Lifecycle.

(** C8. [AttachTo] detaches whatever is attached before it binds the new
    host: the old host, if any, is told to detach the client before the new
    host is told to attach it, and afterwards the object holds the new host
    and the client has a session on no other host.  [Detach] on a detached
    object changes nothing.  After any sequence of [AttachTo], [Detach],
    [Reattach] and [WebContentsDestroyed] the client has at most one session,
    and it is on the host the object holds.  [Detach] itself, in any state,
    leaves the object detached: the host it held, if any, is told once to
    detach the client, [agent_host_] is null and no other member changes,
    the client has no session left, and a second [Detach] right after it
    changes nothing and makes no call, so that two in a row do what one
    does. *)
Theorem attach_detach_keep_one_attachment
    (AttachClient_succeeds : DevToolsAgentHost -> bool)
    (host : DevToolsAgentHost) (calls : list LifecycleCall) (w : World) :
  attachment_consistent w ->
  (exists w',
      AttachTo AttachClient_succeeds host w = Done tt w'
      /\ agent_host_ (self w') = Some host
      /\ attached w' = (if AttachClient_succeeds host then {[host]} else ∅)
      /\ events w' = events w ++ (match agent_host_ (self w) with
                                  | Some old => [DetachClient old]
                                  | None => []
                                  end) ++ [AttachClient host])
  /\ (agent_host_ (self w) = None -> Detach w = Done tt w)
  /\ (exists w',
         lifecycle_calls AttachClient_succeeds calls w = Done tt w'
         /\ attachment_consistent w'
         /\ (size (attached w') <= 1)%nat)
  /\ (exists w',
         Detach w = Done tt w'
         /\ agent_host_ (self w') = None
         /\ self w' = with_agent_host None (self w)
         /\ attached w' = ∅
         /\ events w' = events w ++ (match agent_host_ (self w) with
                                     | Some old => [DetachClient old]
                                     | None => []
                                     end)
         /\ Detach w' = Done tt w'
         /\ (Detach;; Detach) w = Detach w).
Proof.
  intros Hw. split_and!.
  - destruct (AttachTo_spec AttachClient_succeeds host w)
      as (w' & Hrun & Hhost & Hatt & Hev).
    exists w'. split_and!; try done. rewrite Hatt.
    unfold attachment_consistent in Hw. set_solver.
  - apply Detach_detached.
  - destruct (lifecycle_calls_consistent AttachClient_succeeds calls w Hw)
      as (w' & Hrun & Hw').
    exists w'. split_and!; try done. by apply consistent_at_most_one.
  - destruct (Detach_spec w) as (w' & Hrun & Hhost & Hatt & Hev).
    assert (Hagain : Detach w' = Done tt w') by (by apply Detach_detached).
    exists w'. split_and!; try done.
    + unfold bound_hosts in Hatt.
      destruct (agent_host_ (self w)) as [old|] eqn:Hold.
      * rewrite (Detach_attached w old Hold) in Hrun. by simplify_eq.
      * rewrite (Detach_detached w Hold) in Hrun. simplify_eq.
        symmetry. by apply with_agent_host_None_id.
    + rewrite Hatt. unfold attachment_consistent in Hw. set_solver.
    + unfold mbind, M_bind. by rewrite Hrun.
Qed.

(** ** Envelopes from the frontend *)

Lemma GetString_method (dict : gmap string Value) :
  Dict.GetString kFrontendHostMethod dict
  = match dict !! "method" with Some (StringValue s) => Some s | _ => None end.
Proof. unfold Dict.GetString. by rewrite DictFacts.Get_no_dot. Qed.

Lemma GetList_params (dict : gmap string Value) :
  Dict.GetList kFrontendHostParams dict
  = match dict !! "params" with Some (ListValue l) => Some l | _ => None end.
Proof. unfold Dict.GetList. by rewrite DictFacts.Get_no_dot. Qed.

Lemma GetInteger_id (dict : gmap string Value) :
  default 0 (Dict.GetInteger kFrontendHostId dict) = envelope_id dict.
Proof.
  unfold Dict.GetInteger, envelope_id. rewrite DictFacts.Get_no_dot by done.
  unfold kFrontendHostId. by destruct (dict !! "id") as [[]|].
Qed.

Lemma HasKey_params (dict : gmap string Value) :
  Dict.HasKey kFrontendHostParams dict
  = match dict !! "params" with Some _ => true | None => false end.
Proof.
  unfold Dict.HasKey, kFrontendHostParams.
  destruct (dict !! "params") eqn:H.
  - by apply bool_decide_eq_true_2.
  - apply bool_decide_eq_false_2. by intros [? ?].
Qed.

Section Envelope.

Variable JSONReader_ReadDeprecated : string -> option Value.

(** What [HandleMessageFromDevToolsFrontend] does once there is a
    dispatcher, by cases on what the reader returns. *)
Lemma HandleMessage_cases (message : string) (w : World) :
  embedder_message_dispatcher_ (self w) = true ->
  HandleMessageFromDevToolsFrontend JSONReader_ReadDeprecated message w =
  Done tt
    (add_events
       [match JSONReader_ReadDeprecated message with
        | Some (DictionaryValue dict) =>
            match dict !! "method", dict !! "params" with
            | Some (StringValue method), (None | Some (ListValue _)) =>
                EmbedderDispatch (envelope_id dict) method
                  (envelope_params dict)
            | _, _ =>
                LogError ("Invalid message was sent to embedder: " +:+ message)
            end
        | _ => LogError ("Invalid message was sent to embedder: " +:+ message)
        end] w).
Proof.
  intros Hdisp. unfold HandleMessageFromDevToolsFrontend. run. rewrite Hdisp.
  simpl. destruct (JSONReader_ReadDeprecated message) as [[| | | | |dict|]|];
    try reflexivity.
  rewrite GetString_method, HasKey_params, GetList_params.
  unfold dispatch_to_embedder, envelope_params. rewrite GetInteger_id.
  destruct (dict !! "method") as [[]|]; try reflexivity;
    destruct (dict !! "params") as [[]|]; reflexivity.
Qed.

End Envelope.

(** C5. With a dispatcher in place, that is, between [ShowDevTools] and the
    next [CloseDevTools] or [WebContentsDestroyed], a frontend message is
    dropped, with an error line in the log as the only trace (nothing is
    dispatched and no reply is sent), exactly when its payload is not valid
    JSON, or is not an object, or has no string [method], or has a [params]
    that is not a list.  Any other message is dispatched with its method,
    with its [params] (none when the field is absent) and with its [id],
    which is 0 when the field is absent. *)
Theorem envelope_rejected_exactly_when_malformed
    (JSONReader_ReadDeprecated : string -> option Value)
    (message : string) (w : World) :
  embedder_message_dispatcher_ (self w) = true ->
  let parsed := JSONReader_ReadDeprecated message in
  let dropped :=
    Done tt (add_events
               [LogError ("Invalid message was sent to embedder: " +:+ message)]
               w) in
  (parse_fails parsed <->
   HandleMessageFromDevToolsFrontend JSONReader_ReadDeprecated message w = dropped)
  /\ (~ parse_fails parsed ->
      exists dict method,
        parsed = Some (DictionaryValue dict)
        /\ dict !! "method" = Some (StringValue method)
        /\ HandleMessageFromDevToolsFrontend JSONReader_ReadDeprecated message w
           = Done tt (add_events
                        [EmbedderDispatch (envelope_id dict) method
                           (envelope_params dict)] w)
        /\ (dict !! "id" = None -> envelope_id dict = 0)
        /\ (dict !! "params" = None -> envelope_params dict = [])).
Proof.
  intros Hdisp parsed dropped.
  pose proof (HandleMessage_cases JSONReader_ReadDeprecated message w Hdisp)
    as Hrun.
  fold parsed in Hrun. subst dropped.
  assert (Hcases :
    (parse_fails parsed /\
     HandleMessageFromDevToolsFrontend JSONReader_ReadDeprecated message w
     = Done tt (add_events
                  [LogError ("Invalid message was sent to embedder: " +:+ message)]
                  w))
    \/ (~ parse_fails parsed /\
        exists dict method,
          parsed = Some (DictionaryValue dict)
          /\ dict !! "method" = Some (StringValue method)
          /\ HandleMessageFromDevToolsFrontend JSONReader_ReadDeprecated
               message w
             = Done tt (add_events
                          [EmbedderDispatch (envelope_id dict) method
                             (envelope_params dict)] w))).
  { unfold parse_fails, not_valid_JSON, not_an_object, lacks_string_method,
      params_not_a_list.
    destruct parsed as [v|]; [|left; split; [by left | done]].
    destruct v as [| | | | |dict|];
      try (left; split; [right; left; eexists; split; [done|]; by intros ?
                        | done]).
    destruct (dict !! "method") as [m|] eqn:Hm.
    2:{ left. split; [|done]. right; right; left.
        exists dict. split; [done|]. rewrite Hm. by intros ?. }
    destruct m as [| | | |method| |];
      try (left; split; [|done]; right; right; left;
           exists dict; split; [done|]; rewrite Hm; by intros ?).
    destruct (dict !! "params") as [p|] eqn:Hp.
    - destruct p as [| | | | | |l];
        try (left; split; [|done]; right; right; right;
             eexists dict, _; split_and!; [done | exact Hp | by intros ?]).
      right. split; [|by exists dict, method].
      intros [H|[(v & Hv & Hnot)|[(d & Hd & Hnot)|(d & v & Hd & Hv & Hnot)]]];
        simplify_eq; by eapply Hnot.
    - right. split; [|by exists dict, method].
      intros [H|[(v & Hv & Hnot)|[(d & Hd & Hnot)|(d & v & Hd & Hv & Hnot)]]];
        simplify_eq; by eapply Hnot. }
  split.
  - destruct Hcases as [[Hfail Hdrop]|[Hok (dict & method & _ & _ & Hdisp')]].
    + by split.
    + split; [done|]. intros Hdrop. rewrite Hdrop in Hdisp'.
      exfalso. inversion Hdisp' as [Hev].
      apply app_inv_head in Hev. discriminate.
  - intros Hok.
    destruct Hcases as [[Hfail _]|[_ (dict & method & Hd & Hm & Hdisp')]];
      [done|].
    exists dict, method. split_and!; try done.
    + unfold envelope_id. by intros ->.
    + unfold envelope_params. by intros ->.
Qed.

(** C5 as it is worded, for every inbound message, does not hold: without
    a dispatcher the function returns before it reads the payload, so that a
    well-formed envelope is dropped as well, and without an error line.
    [CloseDevTools] on an external frontend document leads there: it drops
    the dispatcher while the document stays set and observed.  The message
    is [{"method":"ping"}]. *)
Lemma wellformed_envelope_is_dropped_without_dispatcher :
  ~ parse_fails (example_Read ping_message)
  /\ exists s',
       CloseDevTools external_session = Finished tt s'
       /\ external_devtools_web_contents_ (self (world s')) = Some 4%nat
       /\ observed s' = Some 4%nat
       /\ embedder_message_dispatcher_ (self (world s')) = false
       /\ HandleMessageFromDevToolsFrontend example_Read ping_message (world s')
          = Done tt (world s').
Proof.
  split.
  - assert (Hread : example_Read ping_message
                    = Some (DictionaryValue {[ "method" := StringValue "ping" ]})).
    { unfold example_Read. by rewrite decide_True. }
    rewrite Hread. unfold parse_fails, not_valid_JSON, not_an_object,
      lacks_string_method, params_not_a_list.
    intros [H|[(v & Hv & Hnot)|[(d & Hd & Hnot)|(d & v & Hd & Hv & Hnot)]]].
    + discriminate.
    + simplify_eq. by eapply Hnot.
    + simplify_eq. eapply Hnot. apply lookup_singleton_eq.
    + by simplify_eq.
  - eexists. split; [reflexivity|]. split_and!; reflexivity.
Qed.

(** ** The reload command *)

Module ReloadFacts.
Import Pattern.

Lemma match_star (e p : string) :
  MatchPattern e (String "*"%char p) = star (fun e' => MatchPattern e' p) e.
Proof. reflexivity. Qed.

Lemma match_plain (c : ascii) (e p : string) :
  plain c = true ->
  MatchPattern e (String c p) = literal c (fun e' => MatchPattern e' p) e.
Proof.
  unfold plain. intros H.
  apply andb_true_iff in H as [H Hb]. apply andb_true_iff in H as [Hs Hq].
  apply negb_true_iff in Hb, Hs, Hq. simpl. by rewrite Hs, Hq, Hb.
Qed.

(** A run of plain characters accepts itself and nothing else. *)
Lemma match_plain_prefix (lit e p : string) :
  all_plain lit = true ->
  MatchPattern (lit +:+ e) (lit +:+ p) = MatchPattern e p.
Proof.
  induction lit as [|c lit IH]; [reflexivity|]. intros H. simpl in H.
  apply andb_true_iff in H as [Hc Hlit].
  rewrite !StrFacts.app_cons, match_plain by done.
  simpl. by rewrite Ascii.eqb_refl, IH.
Qed.

Lemma match_plain_prefix_inv (lit e p : string) :
  all_plain lit = true ->
  MatchPattern e (lit +:+ p) = true ->
  exists e', e = lit +:+ e' /\ MatchPattern e' p = true.
Proof.
  revert e. induction lit as [|c lit IH]; intros e Hplain Hmatch.
  - by exists e.
  - simpl in Hplain. apply andb_true_iff in Hplain as [Hc Hlit].
    rewrite StrFacts.app_cons, match_plain in Hmatch by done.
    destruct e as [|x e]; [discriminate|]. simpl in Hmatch.
    apply andb_true_iff in Hmatch as [Hx Hmatch].
    apply Ascii.eqb_eq in Hx as ->.
    destruct (IH e Hlit Hmatch) as (e' & -> & He').
    by exists e'.
Qed.

Lemma kReloadPattern_pieces :
  kReloadPattern
  = reload_head +:+ String "*"%char (reload_middle +:+ String "*"%char "}").
Proof. reflexivity. Qed.

Lemma reload_message_pieces (id params : string) :
  reload_message id params
  = reload_head +:+ (id +:+ (reload_middle +:+ (params +:+ "}"))).
Proof. reflexivity. Qed.

Lemma reload_message_matches (id params : string) :
  MatchPattern (reload_message id params) kReloadPattern = true.
Proof.
  rewrite kReloadPattern_pieces, reload_message_pieces.
  rewrite match_plain_prefix by reflexivity.
  rewrite match_star. apply PatternFacts.star_skip.
  rewrite match_plain_prefix by reflexivity.
  rewrite match_star. apply PatternFacts.star_skip.
  reflexivity.
Qed.

Lemma matches_only_reload_messages (message : string) :
  MatchPattern message kReloadPattern = true ->
  exists id params, message = reload_message id params.
Proof.
  rewrite kReloadPattern_pieces. intros H.
  apply match_plain_prefix_inv in H as (e1 & -> & H); [|reflexivity].
  rewrite match_star in H.
  apply PatternFacts.star_inv in H as (id & e2 & -> & H).
  apply match_plain_prefix_inv in H as (e3 & -> & H); [|reflexivity].
  rewrite match_star in H.
  apply PatternFacts.star_inv in H as (params & e4 & -> & H).
  apply (match_plain_prefix_inv "}" e4 EmptyString) in H
    as (e5 & -> & H); [|reflexivity].
  destruct e5; [|discriminate].
  exists id, params. by rewrite reload_message_pieces.
Qed.

End ReloadFacts.

(** C2, as the code has it.  A message is intercepted exactly when its text
    has the shape [{"id":<id>,"method":"Page.reload","params":<params>}]:
    whatever the texts [<id>] and [<params>] are, such a message is never
    forwarded to the agent host, and the delegate, when there is one, is told
    to reload the page.  Every other message goes to the agent host, when
    there is one, unchanged. *)
Theorem reload_shape_is_intercepted (message : string) (w : World) :
  ((exists id params, message = reload_message id params) <->
   Pattern.MatchPattern message kReloadPattern = true)
  /\ (forall id params,
         DispatchProtocolMessageFromDevToolsFrontend (reload_message id params) w
         = Done tt (add_events
                      match delegate_ (self w) with
                      | Some d => [DevToolsReloadPage d]
                      | None => []
                      end w))
  /\ ((~ exists id params, message = reload_message id params) ->
      DispatchProtocolMessageFromDevToolsFrontend message w
      = Done tt (add_events
                   match agent_host_ (self w) with
                   | Some h => [AgentDispatchProtocolMessage h message]
                   | None => []
                   end w)).
Proof.
  split_and!.
  - split.
    + intros (id & params & ->). apply ReloadFacts.reload_message_matches.
    + apply ReloadFacts.matches_only_reload_messages.
  - intros id params. unfold DispatchProtocolMessageFromDevToolsFrontend.
    rewrite ReloadFacts.reload_message_matches. run.
    destruct (delegate_ (self w)); [reflexivity|]. by rewrite add_events_nil.
  - intros Hshape. unfold DispatchProtocolMessageFromDevToolsFrontend.
    destruct (Pattern.MatchPattern message kReloadPattern) eqn:Hmatch.
    + exfalso. by apply Hshape, ReloadFacts.matches_only_reload_messages.
    + run. destruct (agent_host_ (self w)); [reflexivity|].
      by rewrite add_events_nil.
Qed.

(** C2 as it is worded does not hold: a reload command without [params],
    [{"id":1,"method":"Page.reload"}], is not intercepted.  On a session that
    is attached to the agent host 1 it is forwarded to that host, and the
    delegate hears nothing. *)
Lemma reload_without_params_is_forwarded :
  DispatchProtocolMessageFromDevToolsFrontend reload_without_params
    attached_world
  = Done tt (add_events
               [AgentDispatchProtocolMessage 1%nat reload_without_params]
               attached_world).
Proof. vm_compute. reflexivity. Qed.

(** ** Delivery to the frontend *)

Module ChunkFacts.

Lemma chunk_count_covers (size len : nat) :
  (0 < size)%nat -> (len <= chunk_count size len * size)%nat.
Proof.
  intros Hsize. unfold chunk_count.
  pose proof (Nat.div_mod_eq (len + size - 1) size) as Hdiv.
  pose proof (Nat.mod_upper_bound (len + size - 1) size) as Hmod.
  nia.
Qed.

Lemma chunk_count_least (size len : nat) :
  (0 < size)%nat -> (0 < len)%nat ->
  ((chunk_count size len - 1) * size < len)%nat.
Proof.
  intros Hsize Hlen. unfold chunk_count.
  pose proof (Nat.div_mod_eq (len + size - 1) size) as Hdiv.
  pose proof (Nat.mod_upper_bound (len + size - 1) size) as Hmod.
  nia.
Qed.

Lemma chunk_count_le (size len : nat) :
  (0 < size)%nat -> (chunk_count size len <= len)%nat.
Proof.
  intros Hsize. destruct len as [|len].
  - unfold chunk_count. rewrite Nat.div_small by lia. lia.
  - pose proof (chunk_count_least size (S len) Hsize). nia.
Qed.

Lemma concat_chunks (size : nat) (message : string) (m i : nat) :
  concat_strings (chunk_at size message <$> seq i m)
  = substring (i * size) (m * size) message.
Proof.
  revert i. induction m as [|m IH]; intros i; simpl.
  - apply eq_sym, StrFacts.substring_none.
  - rewrite IH. unfold chunk_at.
    replace (S i * size)%nat with (i * size + size)%nat by lia.
    apply StrFacts.substring_split.
Qed.

(** The pieces of a message, put together in order, are the message. *)
Lemma concat_all_chunks (size : nat) (message : string) :
  (0 < size)%nat ->
  concat_strings
    (chunk_at size message <$> seq 0 (chunk_count size (String.length message)))
  = message.
Proof.
  intros Hsize. rewrite concat_chunks. simpl.
  apply StrFacts.substring_0_all. by apply chunk_count_covers.
Qed.

End ChunkFacts.

Lemma static_cast_int_in_range (n : nat) :
  Z.of_nat n <= INT_MAX -> static_cast_int n = Z.of_nat n.
Proof.
  unfold static_cast_int, INT_MAX. intros H.
  rewrite Z.mod_small by lia.
  destruct (Z.ltb_spec (Z.of_nat n) (2 ^ 31)); lia.
Qed.

Section Delivery.

Variable kMaximumMessageSize : nat.
Variable JSONWriter_Write : Value -> string.
Variable EscapeJSONString : string -> string.

Let size := kMaxMessageChunkSize kMaximumMessageSize.

(** The loop, entered at the [i]-th piece with [m] pieces to go. *)
Lemma dispatch_chunks_spec (message : string) (total_size : Value)
    (frontend : WebContents) (m i fuel : nat) (w : World) :
  frontend_of w = Some frontend ->
  (0 < size)%nat ->
  (m < fuel)%nat ->
  (String.length message <= (i + m) * size)%nat ->
  (m = 0%nat \/ (i + m - 1) * size < String.length message)%nat ->
  dispatch_chunks kMaximumMessageSize JSONWriter_Write fuel message total_size
    (i * size) w
  = Done tt (add_events
               (chunk_call JSONWriter_Write frontend total_size size message
                  <$> seq i m) w).
Proof.
  intros Hfront Hsize. revert i fuel w Hfront.
  induction m as [|m IH]; intros i fuel w Hfront Hfuel Hcover Hleast.
  - destruct fuel as [|fuel]; [lia|]. simpl. fold size.
    destruct (Nat.ltb_spec (i * size) (String.length message)); [lia|].
    by rewrite add_events_nil.
  - destruct fuel as [|fuel]; [lia|]. simpl. fold size.
    destruct (Nat.ltb_spec (i * size) (String.length message)); [|nia].
    unfold mbind, M_bind.
    rewrite (CallClientFunction_present _ _ _ _ _ _ frontend Hfront).
    replace (i * size + size)%nat with (S i * size)%nat by lia.
    rewrite IH; [|done|lia|lia|].
    + rewrite add_events_app. do 2 f_equal. simpl. f_equal.
      unfold chunk_call, chunk_at.
      destruct (Nat.eqb_spec (i * size) 0), (Nat.eqb_spec i 0);
        try reflexivity; nia.
    + destruct m; [by left|right].
      replace (S i + S m - 1)%nat with (i + S (S m) - 1)%nat by lia.
      destruct Hleast as [|Hleast]; [lia | exact Hleast].
Qed.

#[local] Arguments dispatch_chunks : simpl never.

Lemma DispatchProtocolMessage_small (agent_host : DevToolsAgentHost)
    (message : string) (frontend : WebContents) (w : World) :
  frontend_loaded_ (self w) = true ->
  frontend_of w = Some frontend ->
  (String.length message < size)%nat ->
  DispatchProtocolMessage kMaximumMessageSize JSONWriter_Write EscapeJSONString
    agent_host message w
  = Done tt (add_events
               [ExecuteJavaScript frontend
                  ("DevToolsAPI.dispatchMessage(" +:+
                   EscapeJSONString message +:+ ");")] w).
Proof.
  intros Hloaded Hfront Hsmall. unfold DispatchProtocolMessage. run.
  rewrite Hloaded. simpl. fold size.
  destruct (Nat.ltb_spec (String.length message) size); [|lia].
  rewrite GetDevToolsWebContents_spec, Hfront. reflexivity.
Qed.

Lemma DispatchProtocolMessage_chunked (agent_host : DevToolsAgentHost)
    (message : string) (frontend : WebContents) (w : World) :
  frontend_loaded_ (self w) = true ->
  frontend_of w = Some frontend ->
  (0 < size)%nat ->
  (size <= String.length message)%nat ->
  DispatchProtocolMessage kMaximumMessageSize JSONWriter_Write EscapeJSONString
    agent_host message w
  = Done tt (add_events
               (chunk_call JSONWriter_Write frontend
                  (IntegerValue (static_cast_int (String.length message)))
                  size message
                <$> seq 0 (chunk_count size (String.length message))) w).
Proof.
  intros Hloaded Hfront Hsize Hbig. unfold DispatchProtocolMessage. run.
  rewrite Hloaded. simpl. fold size.
  destruct (Nat.ltb_spec (String.length message) size); [lia|].
  pose proof (ChunkFacts.chunk_count_covers size (String.length message) Hsize).
  pose proof (ChunkFacts.chunk_count_le size (String.length message) Hsize).
  apply (dispatch_chunks_spec message _ frontend
           (chunk_count size (String.length message)) 0); try done; try lia.
  right. simpl. apply ChunkFacts.chunk_count_least; lia.
Qed.

End Delivery.

(** C1, as the code has it.  With the frontend loaded and its document in
    place, a message shorter than [kMaxMessageChunkSize] (a quarter of the
    largest IPC message) is delivered by one [DevToolsAPI.dispatchMessage]
    call and nothing else; a message of that length or longer is delivered
    by [DevToolsAPI.dispatchMessageChunk] calls and nothing else, and there
    are as many of them as the length divided by [kMaxMessageChunkSize],
    rounded up. *)
Theorem delivery_is_one_call_or_ceil_chunks
    (kMaximumMessageSize : nat)
    (JSONWriter_Write : Value -> string) (EscapeJSONString : string -> string)
    (agent_host : DevToolsAgentHost) (message : string)
    (frontend : WebContents) (w : World) :
  frontend_loaded_ (self w) = true ->
  frontend_of w = Some frontend ->
  (0 < kMaxMessageChunkSize kMaximumMessageSize)%nat ->
  let size := kMaxMessageChunkSize kMaximumMessageSize in
  let len := String.length message in
  let delivery :=
    DispatchProtocolMessage kMaximumMessageSize JSONWriter_Write
      EscapeJSONString agent_host message w in
  size = (kMaximumMessageSize / 4)%nat
  /\ ((len < size)%nat ->
      delivery
      = Done tt (add_events
                   [ExecuteJavaScript frontend
                      ("DevToolsAPI.dispatchMessage(" +:+
                       EscapeJSONString message +:+ ");")] w))
  /\ ((size <= len)%nat ->
      exists calls,
        delivery = Done tt (add_events calls w)
        /\ calls = (chunk_call JSONWriter_Write frontend
                      (IntegerValue (static_cast_int len)) size message
                    <$> seq 0 (chunk_count size len))
        /\ length calls = chunk_count size len
        /\ (len <= chunk_count size len * size)%nat
        /\ ((chunk_count size len - 1) * size < len)%nat).
Proof.
  intros Hloaded Hfront Hsize size len delivery. split_and!.
  - reflexivity.
  - intros Hsmall. by apply DispatchProtocolMessage_small.
  - intros Hbig. eexists. split_and!.
    + by apply DispatchProtocolMessage_chunked.
    + reflexivity.
    + by rewrite length_fmap, length_seq.
    + by apply ChunkFacts.chunk_count_covers.
    + apply ChunkFacts.chunk_count_least; [done|]. subst size len. lia.
Qed.

(** C1 as it is worded does not hold at the boundary: a message whose length
    is exactly [kMaxMessageChunkSize] is not delivered by
    [DevToolsAPI.dispatchMessage] but as one chunk.  Here the largest IPC
    message has 16 bytes, so that a chunk has 4, and the message is
    [abcd]. *)
Lemma message_of_chunk_size_is_chunked :
  kMaxMessageChunkSize 16 = 4%nat
  /\ (String.length "abcd" <= kMaxMessageChunkSize 16)%nat
  /\ DispatchProtocolMessage 16 example_Write example_Escape 1%nat "abcd"
       attached_world
     = Done tt (add_events
                  [ExecuteJavaScript 3%nat
                     ("DevToolsAPI.dispatchMessageChunk(" +:+
                      Str.quoted "abcd" +:+ ", 4);")]
                  attached_world).
Proof. split_and!; [reflexivity | vm_compute; lia | vm_compute; reflexivity]. Qed.

(** The same at every size of the largest IPC message: a message of exactly
    [kMaxMessageChunkSize] characters goes out as a single chunk call. *)
Lemma message_of_exactly_chunk_size
    (kMaximumMessageSize : nat)
    (JSONWriter_Write : Value -> string) (EscapeJSONString : string -> string)
    (agent_host : DevToolsAgentHost) (message : string)
    (frontend : WebContents) (w : World) :
  frontend_loaded_ (self w) = true ->
  frontend_of w = Some frontend ->
  (0 < kMaxMessageChunkSize kMaximumMessageSize)%nat ->
  String.length message = kMaxMessageChunkSize kMaximumMessageSize ->
  DispatchProtocolMessage kMaximumMessageSize JSONWriter_Write EscapeJSONString
    agent_host message w
  = Done tt (add_events
               [ExecuteJavaScript frontend
                  ("DevToolsAPI.dispatchMessageChunk(" +:+
                   JSONWriter_Write (StringValue message) +:+ ", " +:+
                   JSONWriter_Write
                     (IntegerValue (static_cast_int (String.length message)))
                   +:+ ");")] w).
Proof.
  intros Hloaded Hfront Hsize Hlen.
  rewrite (DispatchProtocolMessage_chunked _ _ _ _ _ frontend) by (done || lia).
  assert (Hone : chunk_count (kMaxMessageChunkSize kMaximumMessageSize)
                   (String.length message) = 1%nat).
  { pose proof (ChunkFacts.chunk_count_covers _ (String.length message) Hsize).
    pose proof (ChunkFacts.chunk_count_least _ (String.length message) Hsize).
    nia. }
  rewrite Hone. simpl. unfold chunk_call, chunk_at. simpl.
  rewrite StrFacts.substring_0_all by lia.
  by rewrite !StrFacts.app_assoc.
Qed.

(** C6.  When a message is split, the [i]-th call carries the piece of the
    message at offset [i * kMaxMessageChunkSize], so the pieces go out in
    the order of their offsets; the call at offset 0, and no other, carries a
    second argument, the total size ([static_cast<int>] of the length of the
    message, which is that length for every message of at most [INT_MAX]
    bytes); and the pieces, put together in the order of delivery, are the
    message. *)
Theorem chunks_are_ordered_and_complete
    (kMaximumMessageSize : nat)
    (JSONWriter_Write : Value -> string) (EscapeJSONString : string -> string)
    (agent_host : DevToolsAgentHost) (message : string)
    (frontend : WebContents) (w : World) :
  frontend_loaded_ (self w) = true ->
  frontend_of w = Some frontend ->
  (0 < kMaxMessageChunkSize kMaximumMessageSize)%nat ->
  (kMaxMessageChunkSize kMaximumMessageSize <= String.length message)%nat ->
  let size := kMaxMessageChunkSize kMaximumMessageSize in
  let len := String.length message in
  let total_size := IntegerValue (static_cast_int len) in
  DispatchProtocolMessage kMaximumMessageSize JSONWriter_Write EscapeJSONString
    agent_host message w
  = Done tt (add_events
               (chunk_call JSONWriter_Write frontend total_size size message
                <$> seq 0 (chunk_count size len)) w)
  /\ (forall i,
         chunk_call JSONWriter_Write frontend total_size size message i
         = ExecuteJavaScript frontend
             ("DevToolsAPI.dispatchMessageChunk(" +:+
              JSONWriter_Write (StringValue (substring (i * size) size message))
              +:+ (if decide (i = 0%nat)
                   then ", " +:+ JSONWriter_Write total_size
                   else EmptyString)
              +:+ ");"))
  /\ concat_strings (chunk_at size message <$> seq 0 (chunk_count size len))
     = message
  /\ (Z.of_nat len <= INT_MAX -> total_size = IntegerValue (Z.of_nat len)).
Proof.
  intros Hloaded Hfront Hsize Hbig size len total_size. split_and!.
  - by apply DispatchProtocolMessage_chunked.
  - intros i. unfold chunk_call, chunk_at, client_arguments.
    destruct i as [|i]; simpl; by rewrite !StrFacts.app_assoc.
  - by apply ChunkFacts.concat_all_chunks.
  - intros Hrange. subst total_size. by rewrite static_cast_int_in_range.
Qed.

(** ** The network resource loader *)

Module LoaderFacts.

Lemma headers_dictionary_snoc (lines : list (string * string))
    (line : string * string) :
  headers_dictionary (lines ++ [line])
  = Dict.SetString line.1 line.2 (headers_dictionary lines).
Proof. unfold headers_dictionary. by rewrite foldl_app. Qed.

(** With names that have no dot, a later line of the same name takes the
    place of an earlier one. *)
Lemma headers_dictionary_lookup (lines : list (string * string))
    (name : string) :
  Forall dot_free lines ->
  headers_dictionary lines !! name = StringValue <$> last_value name lines.
Proof.
  induction lines as [|line lines IH] using rev_ind; intros Hfree.
  - reflexivity.
  - apply Forall_app in Hfree as [Hlines Hline].
    apply Forall_inv in Hline.
    rewrite headers_dictionary_snoc. unfold Dict.SetString.
    rewrite DictFacts.Set_no_dot by exact Hline.
    unfold last_value. rewrite filter_app, filter_cons, filter_nil.
    destruct (decide (line.1 = name)) as [->|Hne].
    + by rewrite lookup_insert_eq, last_snoc.
    + rewrite lookup_insert_ne, app_nil_r by done. by apply IH.
Qed.

Lemma completion_response_spec (headers : option HttpResponseHeaders) :
  completion_response headers
  = DictionaryValue
      (<["headers" :=
           DictionaryValue (match headers with
                            | Some h => headers_dictionary (header_lines h)
                            | None => ∅
                            end)]>
         {[ "statusCode" :=
              IntegerValue (match headers with
                            | Some h => response_code h
                            | None => 200
                            end) ]}).
Proof.
  unfold completion_response. rewrite status_code_only.
  by rewrite DictFacts.Set_no_dot.
Qed.

Lemma next_delay_scaled (delay : TimeDelta) :
  delay ≠ 0 -> GetNextExponentialBackoffDelay delay = delay * 13 / 10.
Proof.
  intros H. unfold GetNextExponentialBackoffDelay.
  by destruct (Z.eqb_spec delay 0).
Qed.

Lemma next_delay_greater (delay : TimeDelta) :
  delay = 0 \/ 4 <= delay -> delay < GetNextExponentialBackoffDelay delay.
Proof.
  intros [->|H]; [reflexivity|].
  rewrite next_delay_scaled by lia.
  assert (delay + 1 <= delay * 13 / 10)
    by (apply Z.div_le_lower_bound; lia).
  lia.
Qed.

Lemma next_delay_at_least_initial (delay : TimeDelta) :
  delay = 0 \/ kInitialBackoffDelay <= delay ->
  kInitialBackoffDelay <= GetNextExponentialBackoffDelay delay.
Proof.
  intros H.
  assert (H' : delay = 0 \/ kInitialBackoffDelay <= delay) by exact H.
  destruct H as [->|H]; [reflexivity|].
  unfold kInitialBackoffDelay, FromMilliseconds in *.
  pose proof (next_delay_greater delay). lia.
Qed.

(** The delays of a load are increasing. *)
Lemma backoff_delays_increasing (fuel : nat) (delay : TimeDelta) :
  delay = 0 \/ kInitialBackoffDelay <= delay ->
  forall i d d',
    (delay :: backoff_delays fuel delay) !! i = Some d ->
    (delay :: backoff_delays fuel delay) !! S i = Some d' ->
    d < d'.
Proof.
  revert delay. induction fuel as [|fuel IH]; intros delay Hdelay i d d' Hd Hd'.
  - destruct i; discriminate.
  - simpl in Hd'. simpl backoff_delays in Hd.
    destruct (delay <? kMaxBackoffDelay); [|destruct i; discriminate].
    destruct i as [|i]; simpl in Hd, Hd'.
    + simplify_eq. apply next_delay_greater.
      unfold kInitialBackoffDelay, FromMilliseconds in Hdelay. lia.
    + eapply (IH (GetNextExponentialBackoffDelay delay)); try eassumption.
      right. by apply next_delay_at_least_initial.
Qed.

End LoaderFacts.

Lemma OnComplete_terminal (this : nat) (l : NetworkResourceLoader)
    (success : bool) (net_error : Z) (w : World) :
  loaders_ (self w) !! this = Some l ->
  terminal l success net_error ->
  OnComplete this success net_error w
  = Done tt (set_self (with_loaders (delete this (loaders_ (self w))))
               (add_events
                  [RunCallback (callback_ l)
                     (Some (completion_response (response_headers_ l)))] w)).
Proof.
  intros Hl Hterm. unfold OnComplete, this_loader. run. rewrite Hl. run.
  assert (Hcond : negb success && (net_error =? ERR_INSUFFICIENT_RESOURCES)
                  && (retry_delay_ l <? kMaxBackoffDelay) = false).
  { destruct Hterm as [->|[Hne|Hmax]].
    - reflexivity.
    - apply Z.eqb_neq in Hne. rewrite Hne. by rewrite andb_false_r.
    - apply Z.ltb_ge in Hmax. rewrite Hmax. by rewrite andb_false_r. }
  rewrite Hcond. reflexivity.
Qed.

Lemma OnComplete_retry (this : nat) (l : NetworkResourceLoader) (w : World) :
  loaders_ (self w) !! this = Some l ->
  retry_delay_ l < kMaxBackoffDelay ->
  let created := fresh (dom (loaders_ (self w))) in
  OnComplete this false ERR_INSUFFICIENT_RESOURCES w
  = Done tt (set_self
               (with_loaders
                  (delete this (<[created := retry_of l]> (loaders_ (self w)))))
               (add_events
                  [LogWarning (stream_id_ l) (retry_delay_ (retry_of l));
                   TimerStart created (retry_delay_ (retry_of l))] w)).
Proof.
  intros Hl Hlt created. unfold OnComplete, this_loader. run. rewrite Hl. run.
  apply Z.ltb_lt in Hlt. rewrite Hlt. simpl.
  unfold NetworkResourceLoader_Create. run.
  rewrite !add_event_events, add_events_app. reflexivity.
Qed.

Lemma set_loaders_twice (a b : gmap nat NetworkResourceLoader)
    (es es' : list Event) (w : World) :
  set_self (with_loaders a)
    (add_events es' (set_self (with_loaders b) (add_events es w)))
  = set_self (with_loaders a) (add_events (es ++ es') w).
Proof.
  unfold set_self, add_events, with_loaders. simpl. by rewrite app_assoc.
Qed.

(** A load whose every attempt fails with [ERR_INSUFFICIENT_RESOURCES] comes
    to an end once the chain of its delays does: the timers started are those
    of [backoff_delays], the callback is run once, at the very end, and the
    registry has lost the loader of the load and kept none of its retries. *)
Lemma fail_every_attempt_spec (fuel this : nat) (l : NetworkResourceLoader)
    (w : World) :
  loaders_ (self w) !! this = Some l ->
  (length (backoff_delays fuel (retry_delay_ l)) < fuel)%nat ->
  exists es,
    fail_every_attempt fuel this w
    = Done tt (set_self (with_loaders (delete this (loaders_ (self w))))
                 (add_events es w))
    /\ timer_delays es = backoff_delays fuel (retry_delay_ l)
    /\ callbacks_run es
       = [(callback_ l,
           Some (completion_response
                   match backoff_delays fuel (retry_delay_ l) with
                   | [] => response_headers_ l
                   | _ :: _ => None
                   end))]
    /\ last es
       = Some (RunCallback (callback_ l)
                 (Some (completion_response
                          match backoff_delays fuel (retry_delay_ l) with
                          | [] => response_headers_ l
                          | _ :: _ => None
                          end))).
Proof.
  revert this l w. induction fuel as [|fuel IH]; intros this l w Hl Hlen.
  - simpl in Hlen. lia.
  - pose proof (is_fresh (dom (loaders_ (self w)))) as Hfresh.
    apply not_elem_of_dom in Hfresh.
    set (created := fresh (dom (loaders_ (self w)))) in *.
    assert (Hne : created ≠ this) by (intros ->; congruence).
    simpl fail_every_attempt. unfold mbind, M_bind, get. fold created.
    simpl backoff_delays in *.
    destruct (Z.ltb_spec (retry_delay_ l) kMaxBackoffDelay) as [Hlt|Hge].
    + rewrite (OnComplete_retry this l w Hl Hlt). fold created. simpl.
      rewrite lookup_delete_ne, lookup_insert_eq by done.
      rewrite bool_decide_eq_true_2 by eauto.
      simpl in Hlen.
      edestruct (IH created (retry_of l)) as (es & Hrun & Htimers & Hcalls & Hlast);
        [| |rewrite Hrun].
      * simpl. rewrite lookup_delete_ne, lookup_insert_eq by done. reflexivity.
      * simpl. lia.
      * simpl loaders_. rewrite set_loaders_twice.
        eexists. split_and!.
        -- do 3 f_equal. rewrite (delete_delete _ created this).
           by rewrite delete_insert_id.
        -- unfold timer_delays in *. by rewrite omap_app, Htimers.
        -- unfold callbacks_run in *. rewrite omap_app, Hcalls. simpl.
           by destruct (backoff_delays fuel _).
        -- rewrite last_app, Hlast. simpl. by destruct (backoff_delays fuel _).
    + rewrite (OnComplete_terminal this l false _ w Hl)
        by (right; right; exact Hge).
      simpl. rewrite lookup_delete_ne, Hfresh by done.
      rewrite bool_decide_eq_false_2 by (by intros [? ?]).
      eexists. split_and!; reflexivity.
Qed.

(** C3, as the code has it.  For a loader whose attempt has failed with
    [ERR_INSUFFICIENT_RESOURCES]: when the delay it was started with is below
    [kMaxBackoffDelay] (10 seconds), [OnComplete] starts a retry with the
    next delay, which is 250 milliseconds after a delay of zero and else the
    old delay times 1.3 (cut to whole microseconds) and is larger than the
    old one, and runs no callback; when the delay has reached
    [kMaxBackoffDelay], [OnComplete] starts no retry and runs the callback.
    The test is on the delay of the attempt that failed, not on the next
    delay.  So a load that fails every time is retried sixteen times, with
    increasing delays of which the last, 12.796451 seconds, is above the
    ceiling, and then ends: the callback is run once and the registry holds
    neither the loader nor any of its retries. *)
Theorem retries_while_delay_below_ceiling
    (this : nat) (l : NetworkResourceLoader) (w : World) :
  loaders_ (self w) !! this = Some l ->
  retry_delay_ l = 0 \/ kInitialBackoffDelay <= retry_delay_ l ->
  let next := GetNextExponentialBackoffDelay (retry_delay_ l) in
  let created := fresh (dom (loaders_ (self w))) in
  (retry_delay_ l < kMaxBackoffDelay ->
   OnComplete this false ERR_INSUFFICIENT_RESOURCES w
   = Done tt (set_self
                (with_loaders
                   (delete this (<[created := retry_of l]> (loaders_ (self w)))))
                (add_events
                   [LogWarning (stream_id_ l) next; TimerStart created next] w))
   /\ retry_delay_ (retry_of l) = next
   /\ retry_delay_ l < next)
  /\ (kMaxBackoffDelay <= retry_delay_ l ->
      OnComplete this false ERR_INSUFFICIENT_RESOURCES w
      = Done tt (set_self (with_loaders (delete this (loaders_ (self w))))
                   (add_events
                      [RunCallback (callback_ l)
                         (Some (completion_response (response_headers_ l)))]
                      w)))
  /\ GetNextExponentialBackoffDelay 0 = FromMilliseconds 250
  /\ (forall delay,
         delay ≠ 0 -> GetNextExponentialBackoffDelay delay = delay * 13 / 10)
  /\ (retry_delay_ l = 0 ->
      exists es,
        fail_every_attempt 17 this w
        = Done tt (set_self (with_loaders (delete this (loaders_ (self w))))
                     (add_events es w))
        /\ timer_delays es
           = [250000; 325000; 422500; 549250; 714025; 928232; 1206701;
              1568711; 2039324; 2651121; 3446457; 4480394; 5824512; 7571865;
              9843424; 12796451]
        /\ (forall i d d',
               timer_delays es !! i = Some d ->
               timer_delays es !! S i = Some d' ->
               d < d')
        /\ callbacks_run es
           = [(callback_ l, Some (completion_response None))]
        /\ last es
           = Some (RunCallback (callback_ l) (Some (completion_response None)))).
Proof.
  intros Hl Hdelay next created. split_and!.
  - intros Hlt. split_and!.
    + by apply OnComplete_retry.
    + reflexivity.
    + apply LoaderFacts.next_delay_greater.
      unfold kInitialBackoffDelay, FromMilliseconds in Hdelay. lia.
  - intros Hge. apply OnComplete_terminal; [done|]. by right; right.
  - reflexivity.
  - apply LoaderFacts.next_delay_scaled.
  - intros Hzero.
    destruct (fail_every_attempt_spec 17 this l w Hl)
      as (es & Hrun & Htimers & Hcalls & Hlast).
    { rewrite Hzero. vm_compute. lia. }
    rewrite Hzero in Htimers, Hcalls, Hlast.
    exists es. split_and!; [exact Hrun | exact Htimers | | exact Hcalls | exact Hlast].
    rewrite Htimers. intros i d d' Hd Hd'.
    by apply (LoaderFacts.backoff_delays_increasing 17 0 (or_introl eq_refl)
                (S i) d d').
Qed.

(** C3 as it is worded does not hold: a retry is started although the next
    delay exceeds the ceiling.  The loader 0 was started with the fifteenth
    delay of a failing load, 9.843424 seconds; the next delay, 12.796451
    seconds, is above the 10 seconds of [kMaxBackoffDelay]; when the attempt
    fails, [OnComplete] starts a timer with that delay for the new loader 1
    and runs no callback. *)
Lemma retry_is_scheduled_beyond_the_ceiling :
  In 9843424 (backoff_delays 17 0)
  /\ kMaxBackoffDelay < GetNextExponentialBackoffDelay 9843424
  /\ emitted (OnComplete 0 false ERR_INSUFFICIENT_RESOURCES) backing_off_world
     = Some [LogWarning 7 12796451; TimerStart 1 12796451].
Proof.
  split_and!.
  - vm_compute. tauto.
  - vm_compute. reflexivity.
  - vm_compute. reflexivity.
Qed.

(** C4, as the code has it.  A completion that is not retried runs the
    callback with a dictionary of two entries: [statusCode], the response
    code of the response headers when there are any and 200 when there are
    none, and [headers], a dictionary filled from the header lines.  When no
    header name has a dot, that dictionary holds under every name the value
    of the last line of that name, and nothing of the earlier lines of that
    name. *)
Theorem completion_reports_status_and_last_headers
    (this : nat) (l : NetworkResourceLoader) (success : bool) (net_error : Z)
    (w : World) :
  loaders_ (self w) !! this = Some l ->
  terminal l success net_error ->
  let status_code :=
    match response_headers_ l with
    | Some h => response_code h
    | None => 200
    end in
  let headers :=
    match response_headers_ l with
    | Some h => headers_dictionary (header_lines h)
    | None => ∅
    end in
  OnComplete this success net_error w
  = Done tt (set_self (with_loaders (delete this (loaders_ (self w))))
               (add_events
                  [RunCallback (callback_ l)
                     (Some (DictionaryValue
                              (<["headers" := DictionaryValue headers]>
                                 {[ "statusCode" := IntegerValue status_code ]})))]
                  w))
  /\ (forall h name,
         response_headers_ l = Some h ->
         Forall dot_free (header_lines h) ->
         headers !! name = StringValue <$> last_value name (header_lines h)).
Proof.
  intros Hl Hterm status_code headers. split.
  - rewrite (OnComplete_terminal this l success net_error w Hl Hterm).
    by rewrite LoaderFacts.completion_response_spec.
  - intros h name Hh Hfree. subst headers. rewrite Hh.
    by apply LoaderFacts.headers_dictionary_lookup.
Qed.

(** C4 as it is worded does not hold: a header name that occurs twice is not
    kept twice.  The response of the loader 0 has the lines
    [Set-Cookie: a=1] and [Set-Cookie: b=2]; the dictionary handed to the
    callback has one entry under [Set-Cookie], the second value. *)
Lemma duplicate_header_is_overwritten :
  header_lines two_cookies = [("Set-Cookie", "a=1"); ("Set-Cookie", "b=2")]
  /\ emitted (OnComplete 0 true 0) two_cookies_world
     = Some [RunCallback 5%nat
               (Some (DictionaryValue
                        (<["headers" :=
                             DictionaryValue
                               {[ "Set-Cookie" := StringValue "b=2" ]}]>
                           {[ "statusCode" := IntegerValue 200 ]})))]
  /\ size (headers_dictionary (header_lines two_cookies)) = 1%nat.
Proof.
  split_and!.
  - reflexivity.
  - vm_compute. reflexivity.
  - vm_compute. reflexivity.
Qed.

(** ** The properties at work on examples *)

(** A message of ten characters, with chunks of four, goes out in three
    chunk calls. *)
Lemma delivery_is_one_call_or_ceil_chunks_witness :
  frontend_loaded_ (self attached_world) = true
  /\ frontend_of attached_world = Some 3%nat
  /\ (0 < kMaxMessageChunkSize 16)%nat
  /\ exists calls,
       DispatchProtocolMessage 16 example_Write example_Escape 1%nat
         "abcdefghij" attached_world
       = Done tt (add_events calls attached_world)
       /\ length calls = 3%nat.
Proof.
  split_and!; [reflexivity | reflexivity | vm_compute; lia |].
  destruct (delivery_is_one_call_or_ceil_chunks 16 example_Write example_Escape
              1%nat "abcdefghij" 3%nat attached_world eq_refl eq_refl
              ltac:(vm_compute; lia)) as (_ & _ & Hchunked).
  destruct (Hchunked ltac:(vm_compute; lia)) as (calls & Hrun & _ & Hlen & _).
  exists calls. split; [exact Hrun | exact Hlen].
Defined.

(** The same message is put together again from its three pieces. *)
Lemma chunks_are_ordered_and_complete_witness :
  frontend_loaded_ (self attached_world) = true
  /\ frontend_of attached_world = Some 3%nat
  /\ (0 < kMaxMessageChunkSize 16)%nat
  /\ (kMaxMessageChunkSize 16 <= String.length "abcdefghij")%nat
  /\ Z.of_nat (String.length "abcdefghij") <= INT_MAX
  /\ concat_strings (chunk_at 4 "abcdefghij" <$> seq 0 3) = "abcdefghij"
  /\ static_cast_int (String.length "abcdefghij") = 10.
Proof.
  split_and!;
    [reflexivity | reflexivity | vm_compute; lia | vm_compute; lia
    | vm_compute; discriminate | |].
  - destruct (chunks_are_ordered_and_complete 16 example_Write example_Escape
                1%nat "abcdefghij" 3%nat attached_world eq_refl eq_refl
                ltac:(vm_compute; lia) ltac:(vm_compute; lia))
      as (_ & _ & Hconcat & _).
    exact Hconcat.
  - destruct (chunks_are_ordered_and_complete 16 example_Write example_Escape
                1%nat "abcdefghij" 3%nat attached_world eq_refl eq_refl
                ltac:(vm_compute; lia) ltac:(vm_compute; lia))
      as (_ & _ & _ & Htotal).
    specialize (Htotal ltac:(vm_compute; discriminate)).
    by inversion Htotal.
Defined.

(** A reload command without [params] is not of the intercepted shape, and
    is forwarded. *)
Lemma reload_shape_is_intercepted_witness :
  (~ exists id params, reload_without_params = reload_message id params)
  /\ DispatchProtocolMessageFromDevToolsFrontend reload_without_params
       attached_world
     = Done tt (add_events
                  [AgentDispatchProtocolMessage 1%nat reload_without_params]
                  attached_world).
Proof.
  destruct (reload_shape_is_intercepted reload_without_params attached_world)
    as (Hshape & _ & Hforward).
  assert (Hnot : ~ exists id params,
                     reload_without_params = reload_message id params).
  { intros H. apply Hshape in H. vm_compute in H. discriminate. }
  split; [exact Hnot | exact (Hforward Hnot)].
Defined.

(** A load that fails every time, from its first attempt on. *)
Lemma retries_while_delay_below_ceiling_witness :
  loaders_ (self two_cookies_world) !! 0%nat = Some two_cookies_loader
  /\ (retry_delay_ two_cookies_loader = 0
      \/ kInitialBackoffDelay <= retry_delay_ two_cookies_loader)
  /\ exists es,
       fail_every_attempt 17 0 two_cookies_world
       = Done tt (set_self
                    (with_loaders
                       (delete 0%nat (loaders_ (self two_cookies_world))))
                    (add_events es two_cookies_world))
       /\ length (timer_delays es) = 16%nat.
Proof.
  split_and!; [reflexivity | left; reflexivity |].
  destruct (retries_while_delay_below_ceiling 0 two_cookies_loader
              two_cookies_world eq_refl (or_introl eq_refl))
    as (_ & _ & _ & _ & Hload).
  destruct (Hload eq_refl) as (es & Hrun & Htimers & _).
  exists es. split; [exact Hrun | by rewrite Htimers].
Defined.

(** The completion of a load whose response has two [Set-Cookie] lines. *)
Lemma completion_reports_status_and_last_headers_witness :
  loaders_ (self two_cookies_world) !! 0%nat = Some two_cookies_loader
  /\ terminal two_cookies_loader true 0
  /\ Forall dot_free (header_lines two_cookies)
  /\ headers_dictionary (header_lines two_cookies) !! "Set-Cookie"
     = Some (StringValue "b=2").
Proof.
  assert (Hfree : Forall dot_free (header_lines two_cookies))
    by (repeat constructor).
  split_and!; [reflexivity | left; reflexivity | exact Hfree |].
  destruct (completion_reports_status_and_last_headers 0 two_cookies_loader
              true 0 two_cookies_world eq_refl (or_introl eq_refl))
    as (_ & Hheaders).
  exact (Hheaders two_cookies "Set-Cookie" eq_refl Hfree).
Defined.

(** A payload that the reader does not accept is dropped. *)
Lemma envelope_rejected_exactly_when_malformed_witness :
  embedder_message_dispatcher_ (self attached_world) = true
  /\ parse_fails (example_Read "ping")
  /\ HandleMessageFromDevToolsFrontend example_Read "ping" attached_world
     = Done tt (add_events
                  [LogError ("Invalid message was sent to embedder: " +:+ "ping")]
                  attached_world).
Proof.
  assert (Hfails : parse_fails (example_Read "ping")) by (left; reflexivity).
  split_and!; [reflexivity | exact Hfails |].
  destruct (envelope_rejected_exactly_when_malformed example_Read "ping"
              attached_world eq_refl) as (Hiff & _).
  exact (proj1 Hiff Hfails).
Defined.

(** The empty URL. *)
Lemma invalid_url_completes_with_404_witness :
  example_is_valid EmptyString = false
  /\ LoadNetworkResource example_is_valid example_SchemeIsFile 5%nat
       EmptyString EmptyString 7 attached_world
     = Done tt (add_events
                  [RunCallback 5%nat
                     (Some (DictionaryValue
                              {[ "statusCode" := IntegerValue 404 ]}))]
                  attached_world).
Proof.
  split; [reflexivity|].
  destruct (invalid_url_completes_with_404 example_is_valid example_SchemeIsFile
              5%nat EmptyString EmptyString 7 attached_world eq_refl)
    as (Hrun & _).
  exact Hrun.
Defined.

(** Attach, attach again, detach twice; and two [Detach] in a row on the
    session that is attached to the agent host 1. *)
Lemma attach_detach_keep_one_attachment_witness :
  attachment_consistent initial_world
  /\ agent_host_ (self initial_world) = None
  /\ Detach initial_world = Done tt initial_world
  /\ (exists w',
        lifecycle_calls every_host_accepts
          [CallAttachTo 1%nat; CallAttachTo 2%nat; CallDetach; CallDetach]
          initial_world = Done tt w'
        /\ (size (attached w') <= 1)%nat)
  /\ attachment_consistent attached_world
  /\ agent_host_ (self attached_world) = Some 1%nat
  /\ exists w',
       Detach attached_world = Done tt w'
       /\ agent_host_ (self w') = None
       /\ attached w' = ∅
       /\ events w' = [DetachClient 1%nat]
       /\ (Detach;; Detach) attached_world = Done tt w'.
Proof.
  assert (Hinit : attachment_consistent initial_world).
  { unfold attachment_consistent, bound_hosts. simpl. reflexivity. }
  assert (Hatt : attachment_consistent attached_world).
  { unfold attachment_consistent, bound_hosts. simpl. reflexivity. }
  destruct (attach_detach_keep_one_attachment every_host_accepts 1%nat
              [CallAttachTo 1%nat; CallAttachTo 2%nat; CallDetach; CallDetach]
              initial_world Hinit)
    as (_ & Hdetach & (w' & Hrun & _ & Hsize) & _).
  destruct (attach_detach_keep_one_attachment every_host_accepts 1%nat
              [] attached_world Hatt)
    as (_ & _ & _ & (w1 & Hrun1 & Hhost1 & _ & Hnone1 & Hev1 & _ & Htwice)).
  split_and!; [exact Hinit | reflexivity | exact (Hdetach eq_refl) | |
               exact Hatt | reflexivity |].
  - exists w'. split; [exact Hrun | exact Hsize].
  - exists w1. split_and!;
      [exact Hrun1 | exact Hhost1 | exact Hnone1 | exact Hev1 |
       exact (eq_trans Htwice Hrun1)].
Defined.

(** Before anything is opened there is no frontend document. *)
Lemma delivery_without_frontend_is_noop_witness :
  external_devtools_web_contents_ (self initial_world) = None
  /\ managed_devtools_web_contents_ (self initial_world) = None
  /\ SendMessageAck example_Write 7 None initial_world = Done tt initial_world.
Proof.
  split_and!; [reflexivity | reflexivity |].
  destruct (delivery_without_frontend_is_noop example_Write
              (fun _ => true) (fun s => s) initial_world eq_refl eq_refl)
    as (_ & Hack & _).
  exact (Hack 7 None).
Defined.

(** Before the frontend has loaded. *)
Lemma message_before_load_is_discarded_witness :
  frontend_loaded_ (self initial_world) = false
  /\ DispatchProtocolMessage 16 example_Write example_Escape 1%nat "abcd"
       initial_world = Done tt initial_world.
Proof.
  split; [reflexivity|].
  destruct (message_before_load_is_discarded 16 example_Write example_Escape
              false 1%nat "abcd" initial_world eq_refl) as (Hdrop & _).
  exact Hdrop.
Defined.

(** * Further properties of the bridge *)

Module MoreStrFacts.

Lemma length_substring (pos n : nat) (s : string) :
  String.length (substring pos n s) = Nat.min n (String.length s - pos).
Proof.
  revert pos n; induction s as [|x s IH]; intros pos n.
  - rewrite StrFacts.substring_nil. simpl. lia.
  - destruct pos as [|pos].
    + destruct n as [|n]; simpl; [reflexivity|]. rewrite IH. simpl. lia.
    + simpl. apply IH.
Qed.

End MoreStrFacts.

(** ** Pieces of a split message *)

(** X1. Every piece of a split message has at least one and at most
    [kMaxMessageChunkSize] characters; every piece but the last has exactly
    [kMaxMessageChunkSize], and the last has what is left. *)
Theorem chunk_pieces_are_bounded
    (kMaximumMessageSize : nat)
    (JSONWriter_Write : Value -> string) (EscapeJSONString : string -> string)
    (agent_host : DevToolsAgentHost) (message : string)
    (frontend : WebContents) (w : World) :
  frontend_loaded_ (self w) = true ->
  frontend_of w = Some frontend ->
  (0 < kMaxMessageChunkSize kMaximumMessageSize)%nat ->
  (kMaxMessageChunkSize kMaximumMessageSize <= String.length message)%nat ->
  let size := kMaxMessageChunkSize kMaximumMessageSize in
  let len := String.length message in
  DispatchProtocolMessage kMaximumMessageSize JSONWriter_Write EscapeJSONString
    agent_host message w
  = Done tt (add_events
               (chunk_call JSONWriter_Write frontend
                  (IntegerValue (static_cast_int len)) size message
                <$> seq 0 (chunk_count size len)) w)
  /\ forall i,
       (i < chunk_count size len)%nat ->
       (0 < String.length (chunk_at size message i) <= size)%nat
       /\ ((S i < chunk_count size len)%nat ->
           String.length (chunk_at size message i) = size)
       /\ (S i = chunk_count size len ->
           String.length (chunk_at size message i) = (len - i * size)%nat).
Proof.
  intros Hloaded Hfront Hsize Hbig size len. split.
  - by apply DispatchProtocolMessage_chunked.
  - intros i Hi. unfold chunk_at. rewrite MoreStrFacts.length_substring.
    fold len.
    pose proof (ChunkFacts.chunk_count_covers size len Hsize) as Hcover.
    assert (Hleast : ((chunk_count size len - 1) * size < len)%nat).
    { apply ChunkFacts.chunk_count_least; [done|]. subst size len. lia. }
    split_and!; [nia | nia | intros; nia | intros; nia].
Qed.

(** ** The loaded flag without a frontend document *)

Lemma dispatch_chunks_absent (kMaximumMessageSize : nat)
    (JSONWriter_Write : Value -> string) (message : string)
    (total_size : Value) (m i fuel : nat) (w : World) :
  let size := kMaxMessageChunkSize kMaximumMessageSize in
  frontend_of w = None ->
  (m < fuel)%nat ->
  (String.length message <= (i + m) * size)%nat ->
  dispatch_chunks kMaximumMessageSize JSONWriter_Write fuel message total_size
    (i * size) w
  = Done tt w.
Proof.
  intros size Hfront. revert i fuel.
  induction m as [|m IH]; intros i fuel Hfuel Hcover.
  - destruct fuel as [|fuel]; [lia|]. simpl. fold size.
    by destruct (Nat.ltb_spec (i * size) (String.length message)); [lia|].
  - destruct fuel as [|fuel]; [lia|]. simpl. fold size.
    destruct (Nat.ltb_spec (i * size) (String.length message)); [|done].
    unfold mbind, M_bind. rewrite CallClientFunction_absent by done.
    replace (i * size + size)%nat with (S i * size)%nat by lia.
    apply IH; lia.
Qed.

Lemma DispatchProtocolMessage_split_absent
    (kMaximumMessageSize : nat)
    (JSONWriter_Write : Value -> string) (EscapeJSONString : string -> string)
    (agent_host : DevToolsAgentHost) (message : string) (w : World) :
  frontend_loaded_ (self w) = true ->
  frontend_of w = None ->
  (0 < kMaxMessageChunkSize kMaximumMessageSize)%nat ->
  (kMaxMessageChunkSize kMaximumMessageSize <= String.length message)%nat ->
  DispatchProtocolMessage kMaximumMessageSize JSONWriter_Write EscapeJSONString
    agent_host message w
  = Done tt w.
Proof.
  intros Hloaded Hfront Hsize Hbig. unfold DispatchProtocolMessage.
  unfold mbind, M_bind, get. rewrite Hloaded. simpl negb. cbv iota.
  destruct (Nat.ltb_spec (String.length message)
              (kMaxMessageChunkSize kMaximumMessageSize)); [lia|].
  pose proof (ChunkFacts.chunk_count_covers _ (String.length message) Hsize).
  pose proof (ChunkFacts.chunk_count_le _ (String.length message) Hsize).
  apply (dispatch_chunks_absent kMaximumMessageSize JSONWriter_Write message _
           (chunk_count (kMaxMessageChunkSize kMaximumMessageSize)
              (String.length message)) 0); [done | lia | simpl; lia].
Qed.

Lemma DispatchProtocolMessage_small_absent
    (kMaximumMessageSize : nat)
    (JSONWriter_Write : Value -> string) (EscapeJSONString : string -> string)
    (agent_host : DevToolsAgentHost) (message : string) (w : World) :
  frontend_loaded_ (self w) = true ->
  frontend_of w = None ->
  (String.length message < kMaxMessageChunkSize kMaximumMessageSize)%nat ->
  DispatchProtocolMessage kMaximumMessageSize JSONWriter_Write EscapeJSONString
    agent_host message w
  = NullDereference.
Proof.
  intros Hloaded Hfront Hsmall. unfold DispatchProtocolMessage. run.
  rewrite Hloaded. simpl.
  destruct (Nat.ltb_spec (String.length message)
              (kMaxMessageChunkSize kMaximumMessageSize)); [|lia].
  rewrite GetDevToolsWebContents_spec, Hfront. reflexivity.
Qed.

(** X2. With [frontend_loaded_] set but no frontend document, as after
    [SetDevToolsWebContents] with a null document on loaded external
    devtools, what becomes of a protocol message depends on its size.  A
    message that is split is dropped without a call and without a failure:
    each chunk goes through [CallClientFunction], which checks for the
    document.  A message that is not split is not dropped: the single-call
    path uses the frontend document without a check, and dereferences a null
    pointer. *)
Theorem message_without_frontend_is_dropped_or_fatal
    (kMaximumMessageSize : nat)
    (JSONWriter_Write : Value -> string) (EscapeJSONString : string -> string)
    (agent_host : DevToolsAgentHost) (message : string) (w : World) :
  frontend_loaded_ (self w) = true ->
  frontend_of w = None ->
  (0 < kMaxMessageChunkSize kMaximumMessageSize)%nat ->
  DispatchProtocolMessage kMaximumMessageSize JSONWriter_Write EscapeJSONString
    agent_host message w
  = if (String.length message <? kMaxMessageChunkSize kMaximumMessageSize)%nat
    then NullDereference
    else Done tt w.
Proof.
  intros Hloaded Hfront Hsize.
  destruct (Nat.ltb_spec (String.length message)
              (kMaxMessageChunkSize kMaximumMessageSize)).
  - by apply DispatchProtocolMessage_small_absent.
  - by apply DispatchProtocolMessage_split_absent.
Qed.

(** ** Reattach *)

(** X3. [Reattach] always acknowledges: the callback is run, with no result, as
    the last thing it does.  When a host is held the client is detached
    from it and attached to it again, in this order, and the object keeps
    holding it; when none is held nothing else happens. *)
Theorem reattach_always_acknowledges
    (AttachClient_succeeds : DevToolsAgentHost -> bool)
    (callback : DispatchCallback) (w : World) :
  exists w',
    Reattach AttachClient_succeeds callback w = Done tt w'
    /\ self w' = self w
    /\ events w'
       = events w
         ++ match agent_host_ (self w) with
            | Some h => [DetachClient h; AttachClient h]
            | None => []
            end
         ++ [RunCallback callback None]
    /\ attached w'
       = match agent_host_ (self w) with
         | Some h =>
             if AttachClient_succeeds h then {[h]} ∪ attached w
             else attached w ∖ {[h]}
         | None => attached w
         end.
Proof.
  unfold Reattach, agent_DetachClient, agent_AttachClient. run.
  destruct (agent_host_ (self w)) as [h|]; run.
  - destruct (AttachClient_succeeds h); run; eexists;
      (split; [reflexivity|]); simpl; rewrite <- !app_assoc; simpl;
      (split; [done|split; [done|]]); [|done].
    apply set_eq. intros x. destruct (decide (x = h)); set_solver.
  - eexists. split; [reflexivity|]. by simpl.
Qed.

(** ** After the frontend document is destroyed *)

(** X4. [WebContentsDestroyed] leaves the object closed: not loaded, without an
    external document, without a dispatcher, holding no agent host and
    attached to none that it held.  From then on the bridge is silent in both
    directions: a message of the frontend is ignored without being parsed or
    logged, a protocol message of the target is dropped, and a command of
    the frontend that is not a reload goes nowhere. *)
Theorem destroyed_frontend_goes_silent
    (kMaximumMessageSize : nat)
    (JSONReader_ReadDeprecated : string -> option Value)
    (JSONWriter_Write : Value -> string) (EscapeJSONString : string -> string)
    (w : World) :
  exists w',
    WebContentsDestroyed w = Done tt w'
    /\ frontend_loaded_ (self w') = false
    /\ external_devtools_web_contents_ (self w') = None
    /\ embedder_message_dispatcher_ (self w') = false
    /\ agent_host_ (self w') = None
    /\ attached w' = attached w ∖ bound_hosts w
    /\ events w'
       = events w ++ [Observe None]
         ++ match agent_host_ (self w) with
            | Some h => [DetachClient h]
            | None => []
            end
         ++ match view_delegate (self w) with
            | Some d => [DevToolsClosed d]
            | None => []
            end
    /\ (forall message,
           HandleMessageFromDevToolsFrontend JSONReader_ReadDeprecated message w'
           = Done tt w')
    /\ (forall agent_host message,
           DispatchProtocolMessage kMaximumMessageSize JSONWriter_Write
             EscapeJSONString agent_host message w' = Done tt w')
    /\ (forall message,
           Pattern.MatchPattern message kReloadPattern = false ->
           DispatchProtocolMessageFromDevToolsFrontend message w' = Done tt w').
Proof.
  assert (Hsilent : forall w',
    frontend_loaded_ (self w') = false ->
    embedder_message_dispatcher_ (self w') = false ->
    agent_host_ (self w') = None ->
    (forall message,
        HandleMessageFromDevToolsFrontend JSONReader_ReadDeprecated message w'
        = Done tt w')
    /\ (forall agent_host message,
           DispatchProtocolMessage kMaximumMessageSize JSONWriter_Write
             EscapeJSONString agent_host message w' = Done tt w')
    /\ (forall message,
           Pattern.MatchPattern message kReloadPattern = false ->
           DispatchProtocolMessageFromDevToolsFrontend message w' = Done tt w')).
  { intros w' Hloaded Hdisp Hhost. split_and!.
    - intros message. unfold HandleMessageFromDevToolsFrontend. run.
      by rewrite Hdisp.
    - intros agent_host message. unfold DispatchProtocolMessage. run.
      by rewrite Hloaded.
    - intros message Hmatch. unfold DispatchProtocolMessageFromDevToolsFrontend.
      rewrite Hmatch. run. by rewrite Hhost. }
  assert (Hrun : exists es,
    WebContentsDestroyed w
    = Done tt
        (set_attached (fun hosts => hosts ∖ bound_hosts w)
           (set_self
              (fun s => with_embedder_message_dispatcher false
                          (with_agent_host None
                             (with_external_devtools_web_contents None
                                (with_frontend_loaded false s))))
              (add_events es w)))
    /\ es = [Observe None]
            ++ match agent_host_ (self w) with
               | Some h => [DetachClient h]
               | None => []
               end
            ++ match view_delegate (self w) with
               | Some d => [DevToolsClosed d]
               | None => []
               end).
  { unfold WebContentsDestroyed, Detach, agent_DetachClient, bound_hosts. run.
    destruct (agent_host_ (self w)) as [h|] eqn:Hh; run;
      destruct (view_delegate (self w)) as [d|] eqn:Hd; run;
      eexists; (split; [|reflexivity]);
      unfold set_attached, set_self, add_event, add_events; simpl;
      rewrite <- ?app_assoc, ?difference_empty_L; simpl; reflexivity. }
  destruct Hrun as (es & Hrun & ->). eexists. split; [exact Hrun|].
  simpl. split_and!; try done; by apply Hsilent.
Qed.

(** ** Stream chunks *)

(** X5. With a frontend document, a chunk of a download is handed to
    [DevToolsAPI.streamWrite] under the stream id of its loader: as it is
    and marked not encoded when it is UTF-8, Base64-encoded and marked
    encoded when it is not.  Then the download is resumed.  The loader keeps
    nothing of the chunk: the object is as before. *)
Theorem stream_chunk_is_written_then_resumed
    (JSONWriter_Write : Value -> string)
    (IsStringUTF8 : string -> bool) (Base64Encode : string -> string)
    (this : nat) (l : NetworkResourceLoader) (chunk : string)
    (frontend : WebContents) (w : World) :
  loaders_ (self w) !! this = Some l ->
  frontend_of w = Some frontend ->
  let encoded := negb (IsStringUTF8 chunk) in
  let payload := if IsStringUTF8 chunk then chunk else Base64Encode chunk in
  OnDataReceived JSONWriter_Write IsStringUTF8 Base64Encode this chunk w
  = Done tt
      (add_events
         [ExecuteJavaScript frontend
            ("DevToolsAPI.streamWrite(" +:+
             JSONWriter_Write (IntegerValue (stream_id_ l)) +:+ ", " +:+
             JSONWriter_Write (StringValue payload) +:+ ", " +:+
             JSONWriter_Write (BooleanValue encoded) +:+ ");");
          Resume] w).
Proof.
  intros Hl Hfront encoded payload. unfold OnDataReceived, this_loader. run.
  rewrite Hl. run.
  rewrite (CallClientFunction_present _ _ _ _ _ _ frontend Hfront).
  rewrite add_event_events, add_events_app. simpl.
  subst encoded payload. unfold client_arguments.
  destruct (IsStringUTF8 chunk); simpl; by rewrite !StrFacts.app_assoc.
Qed.

(** ** Arguments of a client function *)

(** X6. The arguments of a client function are positional and stop at the first
    that is null: without a first argument nothing is passed, whatever the
    second and third are, and without a second the third is not passed.  An
    ack without a result carries the request id alone. *)
Theorem client_arguments_stop_at_first_null
    (JSONWriter_Write : Value -> string)
    (function_name : string) (arg1 : Value) (arg2 arg3 : option Value)
    (request_id : Z) (frontend : WebContents) (w : World) :
  frontend_of w = Some frontend ->
  CallClientFunction JSONWriter_Write function_name None arg2 arg3 w
  = Done tt (add_events
               [ExecuteJavaScript frontend (function_name +:+ "();")] w)
  /\ CallClientFunction JSONWriter_Write function_name (Some arg1) None arg3 w
     = Done tt (add_events
                  [ExecuteJavaScript frontend
                     (function_name +:+ "(" +:+ JSONWriter_Write arg1 +:+ ");")]
                  w)
  /\ SendMessageAck JSONWriter_Write request_id None w
     = Done tt (add_events
                  [ExecuteJavaScript frontend
                     ("DevToolsAPI.embedderMessageAck(" +:+
                      JSONWriter_Write (IntegerValue request_id) +:+ ");")] w).
Proof.
  intros Hfront. unfold SendMessageAck.
  rewrite !(CallClientFunction_present _ _ _ _ _ _ frontend Hfront).
  unfold client_arguments. split_and!; try reflexivity;
    by rewrite !StrFacts.app_assoc, ?StrFacts.app_nil_l.
Qed.

(** ** The list of extensions *)

Lemma extension_info_built (e : Extension) :
  Dict.Set_ "exposeExperimentalAPIs"
    (BooleanValue (has_experimental_permission e))
    (Dict.SetString "name" (extension_name e)
       (Dict.SetString "startPage" (devtools_page_url e) ∅))
  = extension_info e.
Proof.
  unfold Dict.SetString, extension_info.
  rewrite !DictFacts.Set_no_dot by reflexivity. by rewrite insert_empty.
Qed.

Lemma add_extensions_results (extensions : list Extension)
    (results : list Value) (w : World) :
  add_extensions results extensions w
  = Done (results ++ ((fun e => DictionaryValue (extension_info e))
                      <$> filter has_devtools_page extensions))
      (add_events (requested_grants (Some extensions)) w).
Proof.
  revert results w. induction extensions as [|e rest IH]; intros results w.
  - simpl. run. by rewrite add_events_nil, app_nil_r.
  - simpl. unfold add_extension. run. rewrite !filter_cons.
    unfold has_devtools_page at 1.
    destruct (decide (devtools_page_url e ≠ EmptyString)) as [Hne|Heq].
    + rewrite bool_decide_eq_false_2 by done. run.
      rewrite IH, extension_info_built.
      rewrite add_event_events, add_events_app, <- app_assoc. reflexivity.
    + rewrite bool_decide_eq_true_2 by (by apply dec_stable).
      by rewrite IH.
Qed.

Lemma AddDevToolsExtensionsToClient_spec
    (JSONWriter_Write : Value -> string) (frontend : WebContents) (w : World) :
  frontend_of w = Some frontend ->
  AddDevToolsExtensionsToClient JSONWriter_Write w
  = Done tt
      (add_events
         match extension_registry w with
         | None => []
         | Some extensions =>
             let listed := filter has_devtools_page extensions in
             ((fun e => GrantRequestOrigin (extension_url e)) <$> listed)
             ++ [ExecuteJavaScript frontend
                   ("DevToolsAPI.addExtensions(" +:+
                    JSONWriter_Write
                      (ListValue ((fun e => DictionaryValue (extension_info e))
                                  <$> listed))
                    +:+ ");")]
         end w).
Proof.
  intros Hfront. unfold AddDevToolsExtensionsToClient. run.
  destruct (extension_registry w) as [extensions|]; run.
  - rewrite add_extensions_results.
    rewrite (CallClientFunction_present _ _ _ _ _ _ frontend) by done.
    rewrite add_events_app. simpl. unfold client_arguments.
    by rewrite !StrFacts.app_assoc.
  - by rewrite add_events_nil.
Qed.

(** X7. With a frontend document and an extension registry, the frontend is
    given one entry for every enabled extension that has a devtools page, in
    the order of the registry, with its start page, its name and whether it
    may use experimental APIs; exactly these extensions are granted their
    origin first.  An extension without a devtools page is neither listed
    nor granted. *)
Theorem extensions_with_devtools_page_are_listed
    (JSONWriter_Write : Value -> string)
    (extensions : list Extension) (frontend : WebContents) (w : World) :
  extension_registry w = Some extensions ->
  frontend_of w = Some frontend ->
  let listed := filter has_devtools_page extensions in
  AddDevToolsExtensionsToClient JSONWriter_Write w
  = Done tt
      (add_events
         (((fun e => GrantRequestOrigin (extension_url e)) <$> listed)
          ++ [ExecuteJavaScript frontend
                ("DevToolsAPI.addExtensions(" +:+
                 JSONWriter_Write
                   (ListValue ((fun e => DictionaryValue (extension_info e))
                               <$> listed))
                 +:+ ");")]) w).
Proof.
  intros Hreg Hfront listed.
  rewrite (AddDevToolsExtensionsToClient_spec _ frontend) by done.
  by rewrite Hreg.
Qed.

(** ** Load completion *)

Lemma LoadCompleted_spec (JSONWriter_Write : Value -> string)
    (ENABLE_ELECTRON_EXTENSIONS : bool) (frontend : WebContents) (w : World) :
  frontend_of w = Some frontend ->
  LoadCompleted JSONWriter_Write ENABLE_ELECTRON_EXTENSIONS w
  = Done tt (set_self load_completed_self
               (add_events
                  (load_completed_events JSONWriter_Write
                     ENABLE_ELECTRON_EXTENSIONS frontend w) w)).
Proof.
  intros Hfront.
  assert (Hext : forall w0 : World,
    frontend_of w0 = Some frontend ->
    extension_registry w0 = extension_registry w ->
    when ENABLE_ELECTRON_EXTENSIONS
      (AddDevToolsExtensionsToClient JSONWriter_Write) w0
    = Done tt
        (add_events
           (if ENABLE_ELECTRON_EXTENSIONS then
              match extension_registry w with
              | None => []
              | Some extensions =>
                  let listed := filter has_devtools_page extensions in
                  ((fun e => GrantRequestOrigin (extension_url e)) <$> listed)
                  ++ [ExecuteJavaScript frontend
                        ("DevToolsAPI.addExtensions(" +:+
                         JSONWriter_Write
                           (ListValue
                              ((fun e => DictionaryValue (extension_info e))
                               <$> listed))
                         +:+ ");")]
              end
            else []) w0)).
  { intros w0 Hfront0 Hreg0. destruct ENABLE_ELECTRON_EXTENSIONS; simpl.
    - rewrite (AddDevToolsExtensionsToClient_spec _ frontend) by done.
      by rewrite Hreg0.
    - run. by rewrite add_events_nil. }
  unfold when in Hext. unfold mret, M_ret in Hext.
  pose proof Hfront as Hf. unfold frontend_of in Hf.
  unfold LoadCompleted, load_completed_events, load_completed_self, SetIsDocked,
    effective_dock_state.
  destruct (bool_decide (is_Some (managed_devtools_web_contents_ (self w))))
    eqn:Hb;
    destruct (can_dock_ (self w)) eqn:Hdock;
    destruct (bool_decide (dock_state_ (self w) = EmptyString)) eqn:Hempty;
    destruct (view_delegate (self w)) as [d|] eqn:Hd.
  all: repeat (progress (run; rewrite ?Hb, ?Hdock, ?Hempty, ?Hd)).
  all: rewrite ?GetDevToolsWebContents_spec; unfold frontend_of; simpl;
       rewrite ?Hf; run.
  all: rewrite Hext by (unfold frontend_of; simpl; done); run.
  all: rewrite ?Hd.
  all: unfold set_self, add_event, add_events, dock_side_script; simpl;
       rewrite ?Hd, ?Hdock, ?Hempty, <- ?app_assoc, ?app_nil_r; simpl;
       try reflexivity.
Qed.

Module MoreStrFacts2.

Lemma RemoveChars_removes (s : string) (c : ascii) :
  Str.contains c (Str.RemoveChars s c) = false.
Proof.
  induction s as [|x s IH]; simpl; [reflexivity|].
  destruct (Ascii.eqb x c) eqn:Hx; [exact IH|]. simpl. by rewrite Hx.
Qed.




End MoreStrFacts2.

(** X8. When the frontend reports that it has loaded, the object is marked
    loaded, and with a frontend document in place the calls are, in this
    order: the view is shown when the document is a managed one; the
    frontend is docked by a [setDockSide] script when docking is possible,
    and else the view is set undocked when the document is a managed one;
    the extensions are listed when the build has them; the view delegate,
    when there is one, is told that the devtools are open.  The dock state
    of the script is [dock_state_], or when that is empty the preference
    [currentDockState] with every double quote removed, which is then kept
    in [dock_state_]. *)
Theorem load_completed_docks_and_announces
    (JSONWriter_Write : Value -> string)
    (ENABLE_ELECTRON_EXTENSIONS : bool) (frontend : WebContents) (w : World) :
  frontend_of w = Some frontend ->
  exists w',
    LoadCompleted JSONWriter_Write ENABLE_ELECTRON_EXTENSIONS w = Done tt w'
    /\ frontend_loaded_ (self w') = true
    /\ events w'
       = events w ++ load_completed_events JSONWriter_Write
                       ENABLE_ELECTRON_EXTENSIONS frontend w
    /\ dock_state_ (self w')
       = (if can_dock_ (self w) then effective_dock_state (self w)
          else dock_state_ (self w))
    /\ (dock_state_ (self w) = EmptyString ->
        Str.contains Str.dquote (effective_dock_state (self w)) = false)
    /\ attached w' = attached w
    /\ agent_host_ (self w') = agent_host_ (self w).
Proof.
  intros Hfront. eexists. split; [by apply LoadCompleted_spec|].
  simpl. unfold load_completed_self, effective_dock_state.
  destruct (can_dock_ (self w)),
    (bool_decide (dock_state_ (self w) = EmptyString)) eqn:Hempty; simpl;
    split_and!; try done.
  all: intros Hds; try apply MoreStrFacts2.RemoveChars_removes.
  all: apply bool_decide_eq_false in Hempty; done.
Qed.

(** X9. A protocol message that arrives after [LoadCompleted] is delivered,
    whatever the loaded flag was before: here a message below the chunk
    size, by one [DevToolsAPI.dispatchMessage] after the calls of
    [LoadCompleted]. *)
Theorem message_after_load_is_delivered
    (kMaximumMessageSize : nat)
    (JSONWriter_Write : Value -> string) (EscapeJSONString : string -> string)
    (ENABLE_ELECTRON_EXTENSIONS : bool)
    (agent_host : DevToolsAgentHost) (message : string)
    (frontend : WebContents) (w : World) :
  frontend_of w = Some frontend ->
  (String.length message < kMaxMessageChunkSize kMaximumMessageSize)%nat ->
  (LoadCompleted JSONWriter_Write ENABLE_ELECTRON_EXTENSIONS;;
   DispatchProtocolMessage kMaximumMessageSize JSONWriter_Write
     EscapeJSONString agent_host message) w
  = Done tt
      (set_self load_completed_self
         (add_events
            (load_completed_events JSONWriter_Write ENABLE_ELECTRON_EXTENSIONS
               frontend w
             ++ [ExecuteJavaScript frontend
                   ("DevToolsAPI.dispatchMessage(" +:+
                    EscapeJSONString message +:+ ");")]) w)).
Proof.
  intros Hfront Hsmall. unfold mbind, M_bind.
  rewrite (LoadCompleted_spec _ _ frontend) by done.
  rewrite (DispatchProtocolMessage_small _ _ _ _ _ frontend); try done.
  - unfold set_self, add_events. simpl. by rewrite <- app_assoc.
  - simpl. unfold load_completed_self.
    by destruct (can_dock_ (self w) && _).
  - unfold frontend_of, load_completed_self. simpl.
    destruct (can_dock_ (self w) && _); exact Hfront.
Qed.

(** ** The dock state *)


(** ** The preferences *)

(** X11. A preference that was set is what [GetPreferences] hands to its
    callback under that name, as a string, and the other preferences are as
    before; a preference that was removed is absent, the others as before;
    after [ClearPreferences] there is none. *)
Theorem preferences_are_kept_by_name
    (name value : string) (callback : DispatchCallback) (w : World) :
  (exists prefs,
      (SetPreference name value;; GetPreferences callback) w
      = Done tt (add_events [RunCallback callback (Some (DictionaryValue prefs))]
                   (set_self (with_pref_service prefs) w))
      /\ prefs !! name = Some (StringValue value)
      /\ forall other, other ≠ name ->
                       prefs !! other = pref_service_ (self w) !! other)
  /\ (exists prefs,
         (RemovePreference name;; GetPreferences callback) w
         = Done tt (add_events
                      [RunCallback callback (Some (DictionaryValue prefs))]
                      (set_self (with_pref_service prefs) w))
         /\ prefs !! name = None
         /\ forall other, other ≠ name ->
                          prefs !! other = pref_service_ (self w) !! other)
  /\ (ClearPreferences;; GetPreferences callback) w
     = Done tt (add_events [RunCallback callback (Some (DictionaryValue ∅))]
                  (set_self (with_pref_service ∅) w)).
Proof.
  split_and!.
  - eexists. split; [reflexivity|]. split.
    + apply lookup_insert_eq.
    + intros other Hne. by apply lookup_insert_ne.
  - eexists. split; [reflexivity|]. split.
    + apply lookup_delete_eq.
    + intros other Hne. by apply lookup_delete_ne.
  - reflexivity.
Qed.


(** ** An externally supplied frontend document *)

(** X13. [SetDevToolsWebContents] is ignored while a managed document exists.
    Without one, the document given becomes the frontend document, and the
    calls of client functions go to it; when null is given there is no
    frontend document and such calls do nothing. *)
Theorem external_document_only_without_managed
    (JSONWriter_Write : Value -> string)
    (devtools : option WebContents) (function_name : string) (w : World) :
  (is_Some (managed_devtools_web_contents_ (self w)) ->
   SetDevToolsWebContents devtools w = Done tt w)
  /\ (managed_devtools_web_contents_ (self w) = None ->
      let w' := set_self (with_external_devtools_web_contents devtools) w in
      SetDevToolsWebContents devtools w = Done tt w'
      /\ frontend_of w' = devtools
      /\ (SetDevToolsWebContents devtools;;
          CallClientFunction JSONWriter_Write function_name None None None) w
         = Done tt
             (add_events
                match devtools with
                | Some c => [ExecuteJavaScript c (function_name +:+ "();")]
                | None => []
                end w')).
Proof.
  split.
  - intros Hmanaged. unfold SetDevToolsWebContents. run.
    by rewrite bool_decide_eq_true_2.
  - intros Hnone w'.
    assert (Hset : SetDevToolsWebContents devtools w = Done tt w').
    { unfold SetDevToolsWebContents. run. rewrite Hnone.
      rewrite bool_decide_eq_false_2 by (by intros [? ?]). reflexivity. }
    assert (Hfront : frontend_of w' = devtools).
    { unfold frontend_of. simpl. rewrite Hnone. by destruct devtools. }
    split_and!; [exact Hset | exact Hfront |].
    unfold mbind, M_bind. rewrite Hset.
    destruct devtools as [c|].
    + by rewrite (CallClientFunction_present _ _ _ _ _ _ c Hfront).
    + by rewrite CallClientFunction_absent, add_events_nil.
Qed.

(** ** The registry of loaders *)

Lemma with_loaders_same (w : World) :
  set_self (with_loaders (loaders_ (self w))) w = w.
Proof. by destruct w as [[] ? ? ?]. Qed.

Lemma LoadNetworkResource_valid
    (GURL_is_valid GURL_SchemeIsFile : string -> bool)
    (callback : DispatchCallback) (url headers : string) (stream_id : Z)
    (frontend : WebContents) (w : World) :
  GURL_is_valid url = true ->
  GURL_SchemeIsFile url = true \/ frontend_of w = Some frontend ->
  LoadNetworkResource GURL_is_valid GURL_SchemeIsFile callback url headers
    stream_id w
  = Done tt
      (set_self
         (with_loaders
            (<[fresh (dom (loaders_ (self w))) :=
                 new_loader GURL_SchemeIsFile callback url headers stream_id
                   frontend]> (loaders_ (self w))))
         (add_events [TimerStart (fresh (dom (loaders_ (self w)))) 0] w)).
Proof.
  intros Hvalid Hfactory. unfold LoadNetworkResource, new_loader.
  rewrite Hvalid. simpl.
  destruct (GURL_SchemeIsFile url) eqn:Hfile.
  - unfold NetworkResourceLoader_Create. run. reflexivity.
  - destruct Hfactory as [|Hfront]; [discriminate|].
    unfold NetworkResourceLoader_Create. run.
    rewrite GetDevToolsWebContents_spec, Hfront. run. reflexivity.
Qed.

(** X14. A load from a valid URL, with the file scheme or with a frontend
    document in place, adds one loader to the registry, under an identity
    that was not in use, for the given stream, request and callback and
    without a delay; its timer is started with delay zero, and the callback
    is not run yet.  The factory is the file factory for a file URL and else
    that of the storage partition of the frontend document. *)
Theorem valid_load_registers_one_loader
    (GURL_is_valid GURL_SchemeIsFile : string -> bool)
    (callback : DispatchCallback) (url headers : string) (stream_id : Z)
    (frontend : WebContents) (w : World) :
  GURL_is_valid url = true ->
  GURL_SchemeIsFile url = true \/ frontend_of w = Some frontend ->
  exists created w',
    LoadNetworkResource GURL_is_valid GURL_SchemeIsFile callback url headers
      stream_id w = Done tt w'
    /\ loaders_ (self w) !! created = None
    /\ loaders_ (self w')
       = <[created := new_loader GURL_SchemeIsFile callback url headers
                        stream_id frontend]> (loaders_ (self w))
    /\ size (loaders_ (self w')) = S (size (loaders_ (self w)))
    /\ events w' = events w ++ [TimerStart created 0].
Proof.
  intros Hvalid Hfactory.
  pose proof (is_fresh (dom (loaders_ (self w)))) as Hfresh.
  apply not_elem_of_dom in Hfresh.
  exists (fresh (dom (loaders_ (self w)))). eexists.
  split; [by apply (LoadNetworkResource_valid _ _ _ _ _ _ frontend)|].
  simpl. split_and!; try done. by apply map_size_insert_None.
Qed.

(** X15. Two loads in a row have a loader each: the registry grows by two
    entries under different identities, one per stream. *)
Theorem concurrent_loads_have_their_own_loaders
    (GURL_is_valid GURL_SchemeIsFile : string -> bool)
    (callback1 callback2 : DispatchCallback)
    (url1 headers1 url2 headers2 : string) (stream1 stream2 : Z)
    (frontend : WebContents) (w : World) :
  GURL_is_valid url1 = true ->
  GURL_is_valid url2 = true ->
  frontend_of w = Some frontend ->
  exists first second w',
    (LoadNetworkResource GURL_is_valid GURL_SchemeIsFile callback1 url1
       headers1 stream1;;
     LoadNetworkResource GURL_is_valid GURL_SchemeIsFile callback2 url2
       headers2 stream2) w = Done tt w'
    /\ first ≠ second
    /\ loaders_ (self w) !! first = None
    /\ loaders_ (self w) !! second = None
    /\ loaders_ (self w') !! first
       = Some (new_loader GURL_SchemeIsFile callback1 url1 headers1 stream1
                 frontend)
    /\ loaders_ (self w') !! second
       = Some (new_loader GURL_SchemeIsFile callback2 url2 headers2 stream2
                 frontend)
    /\ size (loaders_ (self w')) = S (S (size (loaders_ (self w))))
    /\ events w' = events w ++ [TimerStart first 0; TimerStart second 0].
Proof.
  intros Hvalid1 Hvalid2 Hfront.
  set (first := fresh (dom (loaders_ (self w)))).
  set (l1 := new_loader GURL_SchemeIsFile callback1 url1 headers1 stream1
               frontend).
  set (second := fresh (dom (<[first := l1]> (loaders_ (self w))))).
  pose proof (is_fresh (dom (loaders_ (self w)))) as Hfresh1.
  apply not_elem_of_dom in Hfresh1. fold first in Hfresh1.
  pose proof (is_fresh (dom (<[first := l1]> (loaders_ (self w))))) as Hfresh2.
  apply not_elem_of_dom in Hfresh2. fold second in Hfresh2.
  assert (Hne : first ≠ second).
  { intros Heq. rewrite <- Heq, lookup_insert_eq in Hfresh2. discriminate. }
  rewrite lookup_insert_ne in Hfresh2 by done.
  exists first, second. eexists. split.
  - unfold mbind, M_bind.
    rewrite (LoadNetworkResource_valid _ _ _ _ _ _ frontend w)
      by (done || by right).
    rewrite (LoadNetworkResource_valid _ _ _ _ _ _ frontend)
      by (done || by right).
    reflexivity.
  - simpl. fold first l1 second. split_and!; try done.
    + by rewrite lookup_insert_ne, lookup_insert_eq.
    + by rewrite lookup_insert_eq.
    + rewrite !map_size_insert_None; try done.
      by rewrite lookup_insert_ne.
    + by rewrite <- app_assoc.
Qed.


(** X17. A completion takes its own loader out of the registry and leaves every
    other loader alone.  When it is final the registry has one loader less;
    when it starts a retry the registry has as many loaders as before, the
    new one being the retry of the old under an identity that was not in
    use. *)
Theorem completion_replaces_or_removes_its_loader
    (this : nat) (l : NetworkResourceLoader) (success : bool) (net_error : Z)
    (w : World) :
  loaders_ (self w) !! this = Some l ->
  exists w',
    OnComplete this success net_error w = Done tt w'
    /\ loaders_ (self w') !! this = None
    /\ (forall other,
           other ≠ this -> is_Some (loaders_ (self w) !! other) ->
           loaders_ (self w') !! other = loaders_ (self w) !! other)
    /\ (terminal l success net_error ->
        loaders_ (self w') = delete this (loaders_ (self w))
        /\ S (size (loaders_ (self w'))) = size (loaders_ (self w)))
    /\ (success = false -> net_error = ERR_INSUFFICIENT_RESOURCES ->
        retry_delay_ l < kMaxBackoffDelay ->
        size (loaders_ (self w')) = size (loaders_ (self w))
        /\ exists created,
             loaders_ (self w) !! created = None
             /\ loaders_ (self w') !! created = Some (retry_of l)).
Proof.
  intros Hl.
  pose proof (is_fresh (dom (loaders_ (self w)))) as Hfresh.
  apply not_elem_of_dom in Hfresh.
  set (created := fresh (dom (loaders_ (self w)))) in *.
  assert (Hne : created ≠ this) by (intros ->; congruence).
  destruct (decide (success = false /\ net_error = ERR_INSUFFICIENT_RESOURCES
                    /\ retry_delay_ l < kMaxBackoffDelay))
    as [(-> & -> & Hlt)|Hterm].
  - eexists. split; [by apply OnComplete_retry|]. simpl. fold created.
    split_and!.
    + apply lookup_delete_eq.
    + intros other Hother [x Hx]. rewrite lookup_delete_ne by done.
      rewrite lookup_insert_ne; [done|]. intros <-. congruence.
    + intros [?|[?|?]]; [done | done | lia].
    + intros _ _ _. split.
      * rewrite map_size_delete, lookup_insert_ne, Hl by done.
        rewrite map_size_insert_None by done. reflexivity.
      * exists created. split; [done|].
        by rewrite lookup_delete_ne, lookup_insert_eq.
  - assert (Hterm' : terminal l success net_error).
    { unfold terminal. destruct success; [by left|].
      destruct (decide (net_error = ERR_INSUFFICIENT_RESOURCES)); [|by auto].
      right; right. destruct (Z.le_gt_cases kMaxBackoffDelay (retry_delay_ l));
        [done|]. exfalso. apply Hterm. auto. }
    eexists. split; [by apply OnComplete_terminal|]. simpl. split_and!.
    + apply lookup_delete_eq.
    + intros other Hother _. by rewrite lookup_delete_ne.
    + intros _. split; [done|]. rewrite map_size_delete, Hl.
      assert (0 < size (loaders_ (self w)))%nat; [|lia].
      apply Nat.neq_0_lt_0. intros Hz. apply map_size_empty_iff in Hz.
      rewrite Hz in Hl. by rewrite lookup_empty in Hl.
    + intros Hs He Hlt. exfalso. apply Hterm. auto.
Qed.

(** ** The bounds of the devtools window *)

Module RectFacts.

Lemma clamped_fits (origin size : Z) :
  0 <= size -> origin + size <= INT_MAX -> Gfx.clamped origin size = size.
Proof.
  unfold Gfx.clamped, Gfx.GetClampedValue, Gfx.AddWouldOverflow, INT_MAX.
  intros Hsize Hfit.
  destruct (Z.ltb_spec 0 origin), (Z.ltb_spec 0 size),
    (Z.ltb_spec (2 ^ 31 - 1 - origin) size); simpl; lia.
Qed.

Lemma clamped_nonneg (origin size : Z) : 0 <= Gfx.clamped origin size.
Proof. unfold Gfx.clamped. lia. Qed.

Lemma IsPointInRect_spec (point : Point) (rect : Rect) :
  IsPointInRect point rect = true <->
  rect_x rect < point.1 < rect_x rect + rect_width rect
  /\ rect_y rect < point.2 < rect_y rect + rect_height rect.
Proof.
  unfold IsPointInRect. rewrite !andb_true_iff, !Z.ltb_lt. lia.
Qed.

Lemma IsPointInScreen_spec (all_displays : list Rect) (point : Point) :
  IsPointInScreen all_displays point = true <->
  exists display, display ∈ all_displays /\ IsPointInRect point display = true.
Proof.
  induction all_displays as [|d rest IH]; simpl.
  - split; [discriminate|]. intros (display & Hin & _). by inversion Hin.
  - destruct (IsPointInRect point d) eqn:Hd.
    + split; [|done]. intros _. exists d. split; [left|done].
    + rewrite IH. split.
      * intros (display & Hin & Hp). exists display. split; [by right|done].
      * intros (display & Hin & Hp). inversion Hin; subst; [congruence|].
        by exists display.
Qed.

End RectFacts.

Lemma RectToDictionary_lookups (bounds : Rect) :
  RectToDictionary bounds !! "x" = Some (IntegerValue (rect_x bounds))
  /\ RectToDictionary bounds !! "y" = Some (IntegerValue (rect_y bounds))
  /\ RectToDictionary bounds !! "width"
     = Some (IntegerValue (rect_width bounds))
  /\ RectToDictionary bounds !! "height"
     = Some (IntegerValue (rect_height bounds)).
Proof.
  unfold RectToDictionary.
  split_and!; repeat (rewrite lookup_insert_ne by done);
    by rewrite lookup_insert_eq.
Qed.

(** X18. The bounds written to the preferences are the bounds read back: the
    dictionary of a rectangle has the four keys [x], [y], [width] and
    [height], and [DictionaryToRect] of it is that rectangle. *)
Theorem rect_round_trip (bounds : Rect) :
  Rect_valid bounds ->
  DictionaryToRect (RectToDictionary bounds) = Some bounds
  /\ dom (RectToDictionary bounds) = {["x"; "y"; "width"; "height"]}.
Proof.
  intros (Hw & Hh & Hx & Hy). split.
  - destruct (RectToDictionary_lookups bounds) as (Hkx & Hky & Hkw & Hkh).
    unfold DictionaryToRect, int_or. rewrite Hkx. simpl. rewrite Hky. simpl.
    rewrite Hkw. simpl. rewrite Hkh. simpl.
    unfold Gfx.make_Rect. rewrite !RectFacts.clamped_fits by done.
    by destruct bounds.
  - unfold RectToDictionary. rewrite !dom_insert_L, dom_empty_L. set_solver.
Qed.


(** X20. A point is in a rectangle only when it lies strictly inside: neither
    the origin of the rectangle nor any other point of its border is in it,
    and a rectangle that is not at least two wide and two high has no point
    in it. *)
Theorem border_is_outside_the_rect (point : Point) (rect : Rect) :
  (IsPointInRect point rect = true <->
   rect_x rect < point.1 < rect_x rect + rect_width rect
   /\ rect_y rect < point.2 < rect_y rect + rect_height rect)
  /\ IsPointInRect (rect_x rect, rect_y rect) rect = false
  /\ (rect_width rect <= 1 \/ rect_height rect <= 1 ->
      IsPointInRect point rect = false).
Proof.
  split_and!.
  - apply RectFacts.IsPointInRect_spec.
  - apply not_true_is_false. rewrite RectFacts.IsPointInRect_spec. simpl. lia.
  - intros Hsmall. apply not_true_is_false.
    rewrite RectFacts.IsPointInRect_spec. lia.
Qed.

Module CentreFacts.

(** Half of an [int], cut towards zero as the division of C++ does. *)
Lemma half_bounds (a : Z) :
  (0 <= a -> 2 * (a ÷ 2) <= a <= 2 * (a ÷ 2) + 1)
  /\ (a <= 0 -> 2 * (a ÷ 2) - 1 <= a <= 2 * (a ÷ 2)).
Proof.
  split; intros Ha.
  - rewrite Z.quot_div_nonneg by lia.
    pose proof (Z.div_mod a 2). pose proof (Z.mod_pos_bound a 2). lia.
  - replace a with (- (- a)) by lia. rewrite Z.quot_opp_l by lia.
    rewrite Z.quot_div_nonneg by lia.
    pose proof (Z.div_mod (- a) 2). pose proof (Z.mod_pos_bound (- a) 2). lia.
Qed.

Lemma half_moderate (a : Z) :
  - 2 ^ 30 <= a <= 2 ^ 30 -> - 2 ^ 29 <= a ÷ 2 <= 2 ^ 29.
Proof.
  intros Ha. destruct (half_bounds a) as [Hpos Hneg].
  destruct (Z.le_gt_cases 0 a); [specialize (Hpos ltac:(lia))
                                 | specialize (Hneg ltac:(lia))]; lia.
Qed.

End CentreFacts.

Lemma initial_bounds_of_dictionary
    (dict : gmap string Value) (stored : Rect)
    (is_guest has_native_view : bool)
    (all_displays : list Rect) (nearest primary : Rect) :
  DictionaryToRect dict = Some stored ->
  Rect_moderate stored ->
  Rect_moderate nearest ->
  Rect_moderate primary ->
  let display :=
    if negb is_guest && has_native_view then nearest else primary in
  let resized := (rect_height stored <? 100) || (rect_width stored <? 100) in
  exists bounds,
    initial_devtools_bounds (DictionaryValue dict) is_guest has_native_view
      all_displays nearest primary = Some bounds
    /\ rect_width bounds = (if resized then 800 else rect_width stored)
    /\ rect_height bounds = (if resized then 600 else rect_height stored)
    /\ 100 <= rect_width bounds /\ 100 <= rect_height bounds
    /\ (IsPointInScreen all_displays (rect_x stored, rect_y stored) = true ->
        rect_x bounds = rect_x stored /\ rect_y bounds = rect_y stored)
    /\ (IsPointInScreen all_displays (rect_x stored, rect_y stored) = false ->
        rect_x bounds
        = rect_x display + (rect_width display - rect_width bounds) ÷ 2
        /\ rect_y bounds
           = rect_y display + (rect_height display - rect_height bounds) ÷ 2
        /\ (rect_width bounds <= rect_width display ->
            rect_x display <= rect_x bounds
            /\ rect_x bounds + rect_width bounds
               <= rect_x display + rect_width display)
        /\ (rect_height bounds <= rect_height display ->
            rect_y display <= rect_y bounds
            /\ rect_y bounds + rect_height bounds
               <= rect_y display + rect_height display)).
Proof.
  intros Hstored (Hsx & Hsy & Hsw & Hsh) Hnearest Hprimary display resized.
  assert (Hdisplay : Rect_moderate display)
    by (subst display; by destruct (negb is_guest && has_native_view)).
  destruct Hdisplay as (Hdx & Hdy & Hdw & Hdh).
  unfold moderate in *.
  unfold initial_devtools_bounds. rewrite Hstored. simpl. fold resized.
  set (sized := if resized
                then Gfx.set_width 800 (Gfx.set_height 600 stored)
                else stored).
  assert (Hsized :
    rect_x sized = rect_x stored /\ rect_y sized = rect_y stored
    /\ rect_width sized = (if resized then 800 else rect_width stored)
    /\ rect_height sized = (if resized then 600 else rect_height stored)
    /\ 100 <= rect_width sized <= 2 ^ 29
    /\ 100 <= rect_height sized <= 2 ^ 29).
  { subst sized resized.
    destruct (Z.ltb_spec (rect_height stored) 100),
      (Z.ltb_spec (rect_width stored) 100); simpl;
      rewrite ?RectFacts.clamped_fits by (unfold INT_MAX; lia); lia. }
  destruct Hsized as (Hx & Hy & Hw & Hh & Hwr & Hhr).
  rewrite Hx, Hy. fold display.
  destruct (IsPointInScreen all_displays (rect_x stored, rect_y stored)).
  - simpl. exists sized. split_and!; try done; try lia.
  - simpl. eexists. split; [reflexivity|]. simpl.
    pose proof (CentreFacts.half_moderate
                  (rect_width display - rect_width sized) ltac:(lia)).
    pose proof (CentreFacts.half_moderate
                  (rect_height display - rect_height sized) ltac:(lia)).
    rewrite !RectFacts.clamped_fits by (unfold INT_MAX; lia).
    split_and!; try done; try lia.
    intros _. split_and!; try done.
    + intros Hfit.
      destruct (CentreFacts.half_bounds
                  (rect_width display - rect_width sized)) as [Hpos _].
      specialize (Hpos ltac:(lia)). lia.
    + intros Hfit.
      destruct (CentreFacts.half_bounds
                  (rect_height display - rect_height sized)) as [Hpos _].
      specialize (Hpos ltac:(lia)). lia.
Qed.

(** X21. The bounds with which the devtools window starts.  Of stored bounds
    that are less than 100 wide or less than 100 high both sizes are
    replaced, by 800 and 600, so that the window is at least 100 by 100.  An
    origin that lies strictly inside a display is kept.  Any other origin is
    replaced so that the window is centred on a display, the one nearest to
    the inspected view when this is not a guest and has a view, and else the
    primary one; a window that is not larger than that display then lies
    within it.  A stored value that is not a dictionary gives an empty
    rectangle at the origin. *)
Theorem initial_bounds_are_normalised
    (dict : gmap string Value) (stored : Rect)
    (is_guest has_native_view : bool)
    (all_displays : list Rect) (nearest primary : Rect) (other : Value) :
  DictionaryToRect dict = Some stored ->
  Rect_moderate stored ->
  Rect_moderate nearest ->
  Rect_moderate primary ->
  let display :=
    if negb is_guest && has_native_view then nearest else primary in
  let resized := (rect_height stored <? 100) || (rect_width stored <? 100) in
  (exists bounds,
      initial_devtools_bounds (DictionaryValue dict) is_guest has_native_view
        all_displays nearest primary = Some bounds
      /\ rect_width bounds = (if resized then 800 else rect_width stored)
      /\ rect_height bounds = (if resized then 600 else rect_height stored)
      /\ 100 <= rect_width bounds /\ 100 <= rect_height bounds
      /\ (IsPointInScreen all_displays (rect_x stored, rect_y stored) = true ->
          rect_x bounds = rect_x stored /\ rect_y bounds = rect_y stored)
      /\ (IsPointInScreen all_displays (rect_x stored, rect_y stored) = false ->
          rect_x bounds
          = rect_x display + (rect_width display - rect_width bounds) ÷ 2
          /\ rect_y bounds
             = rect_y display + (rect_height display - rect_height bounds) ÷ 2
          /\ (rect_width bounds <= rect_width display ->
              rect_x display <= rect_x bounds
              /\ rect_x bounds + rect_width bounds
                 <= rect_x display + rect_width display)
          /\ (rect_height bounds <= rect_height display ->
              rect_y display <= rect_y bounds
              /\ rect_y bounds + rect_height bounds
                 <= rect_y display + rect_height display)))
  /\ ((forall d, other ≠ DictionaryValue d) ->
      initial_devtools_bounds other is_guest has_native_view all_displays
        nearest primary
      = Some {| rect_x := 0; rect_y := 0; rect_width := 0; rect_height := 0 |}).
Proof.
  intros Hstored Hmoderate Hnearest Hprimary display resized. split.
  - by apply initial_bounds_of_dictionary.
  - intros Hother. destruct other; try reflexivity. by destruct (Hother d).
Qed.

(** X22. So a window that was saved with its origin exactly on the top left
    corner of the display, the only one, does not keep its place: the corner
    is not strictly inside the display, and the window is centred. *)
Theorem window_at_display_corner_is_recentred
    (dict : gmap string Value) (stored display : Rect)
    (is_guest has_native_view : bool) :
  DictionaryToRect dict = Some stored ->
  Rect_moderate stored ->
  Rect_moderate display ->
  100 <= rect_width stored -> 100 <= rect_height stored ->
  rect_x stored = rect_x display -> rect_y stored = rect_y display ->
  initial_devtools_bounds (DictionaryValue dict) is_guest has_native_view
    [display] display display
  = Some {| rect_x := rect_x display
                      + (rect_width display - rect_width stored) ÷ 2;
            rect_y := rect_y display
                      + (rect_height display - rect_height stored) ÷ 2;
            rect_width := rect_width stored;
            rect_height := rect_height stored |}.
Proof.
  intros Hstored Hmod Hdisplay Hw Hh Hx Hy.
  destruct (initial_bounds_of_dictionary dict stored is_guest has_native_view
              [display] display display Hstored Hmod Hdisplay Hdisplay)
    as (bounds & Hrun & Hbw & Hbh & _ & _ & _ & Hout).
  assert (Hresized :
    (rect_height stored <? 100) || (rect_width stored <? 100) = false).
  { destruct (Z.ltb_spec (rect_height stored) 100),
      (Z.ltb_spec (rect_width stored) 100); simpl; lia. }
  rewrite Hresized in Hbw, Hbh.
  assert (Hcorner :
    IsPointInScreen [display] (rect_x stored, rect_y stored) = false).
  { simpl. rewrite Hx, Hy.
    assert (Hborder :
      IsPointInRect (rect_x display, rect_y display) display = false).
    { apply not_true_is_false. rewrite RectFacts.IsPointInRect_spec.
      simpl. lia. }
    by rewrite Hborder. }
  destruct (Hout Hcorner) as (Hbx & Hby & _).
  rewrite Hrun. f_equal. destruct bounds. simpl in *.
  rewrite Hbw in Hbx. rewrite Hbh in Hby.
  destruct (negb is_guest && has_native_view); by subst.
Qed.

(** ** Opening and closing the devtools *)

Lemma events_since_self (w : World) : events_since w w = [].
Proof. unfold events_since. apply drop_all. Qed.

Lemma drop_logged {A} (l xs ys : list A) :
  drop (length (l ++ xs)) (l ++ ys) = drop (length xs) ys.
Proof. by rewrite length_app, drop_app_add'. Qed.

Ltac scompute :=
  cbv beta iota zeta delta
    [lift call read set_observed set_extensions_api Observe_
     WebContentsDestroyed_ destroy mbind MS_bind M_bind mret MS_ret M_ret
     get modify emit deref when modify_attached events_since
     world is_guest_ observed extensions_api_ history
     self attached extension_registry events
     set_self set_attached add_event
     frontend_loaded_ can_dock_ dock_state_ activate_ delegate_ view_delegate
     pref_service_ agent_host_ managed_devtools_web_contents_
     external_devtools_web_contents_ embedder_message_dispatcher_ loaders_
     with_frontend_loaded with_agent_host with_external_devtools_web_contents
     with_embedder_message_dispatcher with_activate
     with_managed_devtools_web_contents].

Ltac srun :=
  repeat (progress (scompute;
                    rewrite <- ?app_assoc, ?drop_logged, ?drop_app_length,
                      ?drop_all, ?app_nil_r;
                    simpl)).

Ltac session_done :=
  (eexists; split; [reflexivity|]); simpl; split_and!;
  first [ reflexivity
        | by rewrite ?app_nil_r
        | by rewrite last_app
        | lazymatch goal with |- @eq (gset _) _ _ => set_solver end ].

(** X23. [ShowDevTools] on devtools that are open already, that is, with a
    dispatcher in place, opens nothing and attaches nothing: no member
    changes, the argument [activate] is not stored, and the only call is the
    one that shows the view of a managed document. *)
Theorem show_on_open_devtools_only_shows_the_view
    (AttachClient_succeeds : DevToolsAgentHost -> bool) (remote_base : string)
    (activate : bool) (created : WebContents) (inspected : DevToolsAgentHost)
    (s : Session) :
  embedder_message_dispatcher_ (self (world s)) = true ->
  exists s',
    ShowDevTools AttachClient_succeeds remote_base activate created inspected s
    = Finished tt s'
    /\ self (world s') = self (world s)
    /\ attached (world s') = attached (world s)
    /\ observed s' = observed s
    /\ history s'
       = history s
         ++ (if bool_decide
                  (is_Some (managed_devtools_web_contents_ (self (world s))))
             then [Earlier (ViewShowDevTools activate)] else []).
Proof.
  intros Hdisp. unfold ShowDevTools.
  destruct s as [[[loaded can_dock dock activated delegate view pref host managed
                     external dispatcher loaders] hosts registry log]
                  guest watching api past].
  simpl in Hdisp. subst.
  destruct managed as [c|]; srun; session_done.
Qed.

(** X24. [ShowDevTools] on closed devtools: the argument is stored and the
    dispatcher created; a document is created, and given this object as its
    delegate, only when no external one was set; the object observes the
    frontend; the target is attached after the host held before, if any, was
    detached; and the last call loads the devtools URL, built from
    [can_dock_], in the frontend. *)
Theorem show_opens_attaches_then_loads
    (AttachClient_succeeds : DevToolsAgentHost -> bool) (remote_base : string)
    (activate : bool) (created : WebContents) (inspected : DevToolsAgentHost)
    (s : Session) :
  embedder_message_dispatcher_ (self (world s)) = false ->
  managed_devtools_web_contents_ (self (world s)) = None ->
  let external := external_devtools_web_contents_ (self (world s)) in
  let frontend := default created external in
  exists s',
    ShowDevTools AttachClient_succeeds remote_base activate created inspected s
    = Finished tt s'
    /\ embedder_message_dispatcher_ (self (world s')) = true
    /\ activate_ (self (world s')) = activate
    /\ external_devtools_web_contents_ (self (world s')) = external
    /\ managed_devtools_web_contents_ (self (world s'))
       = (if external is Some _ then None else Some created)
    /\ observed s' = Some frontend
    /\ agent_host_ (self (world s')) = Some inspected
    /\ attached (world s')
       = (if AttachClient_succeeds inspected then {[inspected]} else ∅)
         ∪ (attached (world s) ∖ bound_hosts (world s))
    /\ history s'
       = history s
         ++ (if external is Some _ then []
             else [CreateWebContents created; SetWebContentsDelegate created])
         ++ [Earlier (Observe (Some frontend))]
         ++ (if agent_host_ (self (world s)) is Some old
             then [Earlier (DetachClient old)] else [])
         ++ [Earlier (AttachClient inspected);
             LoadURL frontend
               (GetDevToolsURL remote_base (can_dock_ (self (world s))))].
Proof.
  intros Hdisp Hmanaged external frontend. subst frontend external.
  unfold ShowDevTools, bound_hosts.
  destruct s as [[[loaded can_dock dock activated delegate view pref host managed
                     external dispatcher loaders] hosts registry log]
                  guest watching api past].
  simpl in Hdisp, Hmanaged. subst.
  unfold AttachTo, Detach, GetDevToolsWebContents, agent_AttachClient,
    agent_DetachClient.
  destruct external as [c|], host as [old|],
    (AttachClient_succeeds inspected) eqn:Hsucc;
    srun; rewrite Hsucc; srun; session_done.
Qed.

(** X25. [CloseDevTools] on a managed document that the object observes: the view
    is closed and the document destroyed, and the notification of its end
    detaches the agent host, drops the dispatcher and tells the view
    delegate; the inspected contents are focused last, unless they are a
    guest. *)
Theorem close_of_managed_devtools_detaches
    (contents : WebContents) (s : Session) :
  managed_devtools_web_contents_ (self (world s)) = Some contents ->
  observed s = Some contents ->
  exists s',
    CloseDevTools s = Finished tt s'
    /\ frontend_loaded_ (self (world s')) = false
    /\ embedder_message_dispatcher_ (self (world s')) = false
    /\ managed_devtools_web_contents_ (self (world s')) = None
    /\ external_devtools_web_contents_ (self (world s')) = None
    /\ agent_host_ (self (world s')) = None
    /\ attached (world s') = attached (world s) ∖ bound_hosts (world s)
    /\ observed s' = None
    /\ history s'
       = history s
         ++ [ViewCloseDevTools; DestroyWebContents contents;
             Earlier (Observe None)]
         ++ (if agent_host_ (self (world s)) is Some old
             then [Earlier (DetachClient old)] else [])
         ++ (if view_delegate (self (world s)) is Some d
             then [Earlier (DevToolsClosed d)] else [])
         ++ (if is_guest_ s then [] else [FocusInspectedContents]).
Proof.
  intros Hmanaged Hobserved. unfold CloseDevTools, bound_hosts.
  destruct s as [[[loaded can_dock dock activated delegate view pref host managed
                     external dispatcher loaders] hosts registry log]
                  guest watching api past].
  simpl in Hmanaged, Hobserved. subst.
  destruct external as [c|], host as [old|],
    view as [d|], guest;
    unfold WebContentsDestroyed, Detach, GetDevToolsWebContents,
      agent_DetachClient;
    srun; rewrite ?bool_decide_eq_true_2 by done; srun;
    session_done.
Qed.

(** X26. [CloseDevTools] without a managed document ends nothing: with an
    external document the frontend counts as not loaded and the dispatcher is
    dropped, but the document stays set and observed and the agent host stays
    attached; without any document the call does nothing at all. *)
Theorem close_without_managed_document_keeps_the_attachment (s : Session) :
  managed_devtools_web_contents_ (self (world s)) = None ->
  exists s',
    CloseDevTools s = Finished tt s'
    /\ self (world s')
       = (if external_devtools_web_contents_ (self (world s)) is Some _
          then with_embedder_message_dispatcher false
                 (with_frontend_loaded false (self (world s)))
          else self (world s))
    /\ attached (world s') = attached (world s)
    /\ observed s' = observed s
    /\ history s'
       = history s
         ++ (if external_devtools_web_contents_ (self (world s)) is Some _
             then if is_guest_ s then [] else [FocusInspectedContents]
             else []).
Proof.
  intros Hmanaged. unfold CloseDevTools.
  destruct s as [[[loaded can_dock dock activated delegate view pref host managed
                     external dispatcher loaders] hosts registry log]
                  guest watching api past].
  simpl in Hmanaged. subst.
  destruct external as [c|], guest;
    unfold GetDevToolsWebContents; srun;
    session_done.
Qed.

(** X27. Opening the devtools and closing them again, with no external document:
    whatever [AttachClient] did, no session on an agent host is left when
    the object held its only session before, and the devtools can be opened
    again. *)
Theorem show_then_close_leaves_no_session
    (AttachClient_succeeds : DevToolsAgentHost -> bool) (remote_base : string)
    (activate : bool) (created : WebContents) (inspected : DevToolsAgentHost)
    (s : Session) :
  embedder_message_dispatcher_ (self (world s)) = false ->
  managed_devtools_web_contents_ (self (world s)) = None ->
  external_devtools_web_contents_ (self (world s)) = None ->
  attachment_consistent (world s) ->
  exists s',
    (ShowDevTools AttachClient_succeeds remote_base activate created inspected;;
     CloseDevTools) s = Finished tt s'
    /\ attached (world s') = ∅
    /\ agent_host_ (self (world s')) = None
    /\ embedder_message_dispatcher_ (self (world s')) = false
    /\ managed_devtools_web_contents_ (self (world s')) = None
    /\ observed s' = None
    /\ last (history s')
       = Some (if is_guest_ s
               then if view_delegate (self (world s)) is Some d
                    then Earlier (DevToolsClosed d)
                    else Earlier (DetachClient inspected)
               else FocusInspectedContents).
Proof.
  intros Hdisp Hmanaged Hexternal Hconsistent.
  unfold attachment_consistent, bound_hosts in Hconsistent.
  unfold ShowDevTools, CloseDevTools.
  destruct s as [[[loaded can_dock dock activated delegate view pref host managed
                     external dispatcher loaders] hosts registry log]
                  guest watching api past].
  simpl in *. subst.
  unfold AttachTo, WebContentsDestroyed, Detach, GetDevToolsWebContents,
    agent_AttachClient, agent_DetachClient.
  destruct host as [old|], view as [d|], guest,
    (AttachClient_succeeds inspected) eqn:Hsucc;
    srun; rewrite Hsucc; srun; rewrite ?bool_decide_eq_true_2 by done; srun;
    session_done.
Qed.

(** X28. The destructor announces the end of the devtools once: when there is a
    frontend, [WebContentsDestroyed] runs in the body and unsubscribes the
    observer, so that the end of the managed document, which comes after it,
    calls nothing back. *)
Theorem destruction_closes_the_devtools_once (s : Session) :
  exists s',
    Destructor s = Finished tt s'
    /\ observed s'
       = (if external_devtools_web_contents_ (self (world s)) is Some _
          then None
          else if managed_devtools_web_contents_ (self (world s)) is Some _
               then None else observed s)
    /\ history s'
       = history s
         ++ (if bool_decide
                  (is_Some (external_devtools_web_contents_ (self (world s)))
                   \/ is_Some
                        (managed_devtools_web_contents_ (self (world s))))
             then
               (if managed_devtools_web_contents_ (self (world s)) is Some c
                then [ClearWebContentsDelegate c] else [])
               ++ [Earlier (Observe None)]
               ++ (if agent_host_ (self (world s)) is Some old
                   then [Earlier (DetachClient old)] else [])
               ++ (if view_delegate (self (world s)) is Some d
                   then [Earlier (DevToolsClosed d)] else [])
             else [])
         ++ (if managed_devtools_web_contents_ (self (world s)) is Some c
             then [DestroyWebContents c] else []).
Proof.
  unfold Destructor.
  destruct s as [[[loaded can_dock dock activated delegate view pref host managed
                     external dispatcher loaders] hosts registry log]
                  guest watching api past].
  destruct external as [e|],
    managed as [c|], host as [old|],
    view as [d|];
    unfold WebContentsDestroyed, Detach, GetDevToolsWebContents,
      agent_DetachClient;
    srun;
    session_done.
Qed.

(** ** The extensions API in subframes *)

Module StrOpsFacts.
Import StrOps.

Lemma find_unfold (needle s : string) :
  find needle s
  = if String.prefix needle s then Some 0%nat
    else match s with
         | EmptyString => None
         | String _ s' => S <$> find needle s'
         end.
Proof. by destruct s. Qed.

Lemma length_app (a b : string) :
  String.length (a +:+ b) = (String.length a + String.length b)%nat.
Proof.
  induction a as [|x a IH]; [reflexivity|].
  rewrite StrFacts.app_cons. simpl. by rewrite IH.
Qed.

Lemma take_app_exact (a b : string) : take (String.length a) (a +:+ b) = a.
Proof.
  induction a as [|x a IH]; [by destruct b|].
  rewrite StrFacts.app_cons. simpl. by rewrite IH.
Qed.

Lemma drop_app_exact (a b : string) : drop (String.length a) (a +:+ b) = b.
Proof.
  induction a as [|x a IH]; [by destruct b|].
  rewrite StrFacts.app_cons. simpl. exact IH.
Qed.

Lemma prefix_nil (s : string) : String.prefix EmptyString s = true.
Proof. by destruct s. Qed.

Lemma prefix_app (needle x : string) : String.prefix needle (needle +:+ x) = true.
Proof.
  induction needle as [|c needle IH]; [apply prefix_nil|].
  rewrite StrFacts.app_cons. simpl. by destruct (Ascii.ascii_dec c c).
Qed.

Lemma prefix_true (needle s : string) :
  String.prefix needle s = true ->
  s = needle +:+ drop (String.length needle) s.
Proof.
  revert s. induction needle as [|c needle IH]; intros s H.
  - by destruct s.
  - destruct s as [|x s]; [discriminate|]. simpl in H.
    destruct (Ascii.ascii_dec c x) as [->|]; [|discriminate].
    rewrite StrFacts.app_cons. simpl. f_equal. by apply IH.
Qed.

Lemma prefix_agree (needle a x y : string) :
  (String.length needle <= String.length a)%nat ->
  String.prefix needle (a +:+ x) = String.prefix needle (a +:+ y).
Proof.
  revert a. induction needle as [|c needle IH]; intros a Hlen;
    [by rewrite !prefix_nil|].
  destruct a as [|b a]; simpl in Hlen; [lia|].
  rewrite !StrFacts.app_cons. simpl.
  destruct (Ascii.ascii_dec c b); [|reflexivity]. apply IH. lia.
Qed.

(** Where [find] finds the needle the needle is, with the text before it
    and the text after it around it. *)
Lemma find_spec (needle s : string) (pos : nat) :
  find needle s = Some pos ->
  s = take pos s +:+ needle +:+ drop (pos + String.length needle) s
  /\ String.length (take pos s) = pos.
Proof.
  revert pos. induction s as [|x s IH]; intros pos; rewrite find_unfold.
  - destruct (String.prefix needle EmptyString) eqn:Hp; [|discriminate].
    intros [= <-]. split; [|reflexivity]. by apply prefix_true.
  - destruct (String.prefix needle (String x s)) eqn:Hp.
    + intros [= <-]. split; [|reflexivity]. by apply prefix_true.
    + destruct (find needle s) as [p|] eqn:Hf; [|discriminate].
      intros [= <-]. destruct (IH p eq_refl) as [Hs Hlen]. simpl.
      rewrite StrFacts.app_cons, <- Hs, Hlen. done.
Qed.

(** The first occurrence stays the first when the text after it changes. *)
Lemma find_stable (needle s x : string) (pos : nat) :
  find needle s = Some pos ->
  find needle (take pos s +:+ needle +:+ x) = Some pos.
Proof.
  revert pos. induction s as [|c s IH]; intros pos; rewrite find_unfold.
  - destruct (String.prefix needle EmptyString) eqn:Hp; [|discriminate].
    intros [= <-]. simpl. rewrite StrFacts.app_nil_l, find_unfold.
    by rewrite prefix_app.
  - destruct (String.prefix needle (String c s)) eqn:Hp.
    + intros [= <-]. simpl. rewrite StrFacts.app_nil_l, find_unfold.
      by rewrite prefix_app.
    + destruct (find needle s) as [p|] eqn:Hf; [|discriminate].
      intros [= <-]. destruct (find_spec needle s p Hf) as [Hs Hlen].
      simpl take. rewrite StrFacts.app_cons, find_unfold.
      assert (Hno : String.prefix needle (String c (take p s +:+ needle +:+ x))
                    = false).
      { rewrite <- Hp. rewrite Hs at 2.
        rewrite <- !StrFacts.app_cons, <- !StrFacts.app_assoc.
        apply prefix_agree. rewrite length_app. simpl. lia. }
      rewrite Hno, (IH p eq_refl). reflexivity.
Qed.

End StrOpsFacts.

Lemma chrome_patch_found (script : string) (pos : nat) :
  StrOps.find "var chrome" script = Some pos ->
  chrome_patch script = patched_script script pos 1.
Proof.
  intros Hfind. unfold chrome_patch, StrOps.ReplaceFirstSubstringAfterOffset.
  rewrite Hfind. unfold patched_script. simpl repeat_string.
  change "var chrome = window.chrome "
    with ("var chrome" +:+ " = window.chrome ").
  by rewrite ?StrFacts.app_assoc, ?StrFacts.app_empty_r.
Qed.

Lemma patched_script_found (script : string) (pos k : nat) :
  StrOps.find "var chrome" script = Some pos ->
  StrOps.find "var chrome" (patched_script script pos k) = Some pos.
Proof. intros Hfind. by apply StrOpsFacts.find_stable. Qed.

Lemma chrome_patch_patched (script : string) (pos k : nat) :
  StrOps.find "var chrome" script = Some pos ->
  chrome_patch (patched_script script pos k) = patched_script script pos (S k).
Proof.
  intros Hfind.
  destruct (StrOpsFacts.find_spec _ _ _ Hfind) as [_ Hlen].
  rewrite (chrome_patch_found _ pos) by (by apply patched_script_found).
  unfold patched_script at 1 3. simpl repeat_string.
  rewrite StrFacts.app_empty_r.
  assert (Htake : StrOps.take pos (patched_script script pos k)
                  = StrOps.take pos script).
  { unfold patched_script. rewrite <- Hlen at 1.
    apply StrOpsFacts.take_app_exact. }
  assert (Hdrop : StrOps.drop (pos + 10) (patched_script script pos k)
                  = repeat_string k " = window.chrome "
                    +:+ StrOps.drop (pos + 10) script).
  { unfold patched_script. rewrite <- StrFacts.app_assoc.
    replace (pos + 10)%nat
      with (String.length (StrOps.take pos script +:+ "var chrome")).
    - apply StrOpsFacts.drop_app_exact.
    - rewrite StrOpsFacts.length_app, Hlen. reflexivity. }
  rewrite Htake, Hdrop. by rewrite !StrFacts.app_assoc.
Qed.


Lemma DidFinishNavigation_injects (h : NavigationHandle) (guid stored : string)
    (s : Session) :
  IsInMainFrame h = false ->
  url_scheme h = "chrome-extension" ->
  HasCommitted h = true ->
  extensions_api_ s !! origin_spec h = Some stored ->
  DidFinishNavigation h guid s
  = Finished tt
      {| world := world s; is_guest_ := is_guest_ s; observed := observed s;
         extensions_api_ :=
           <[origin_spec h := chrome_patch stored]> (extensions_api_ s);
         history :=
           history s
           ++ [ExecuteJavaScriptForTests (GetRenderFrameHost h)
                 (api_call (chrome_patch stored) guid)] |}.
Proof.
  intros Hsub Hscheme Hcommitted Hstored. unfold DidFinishNavigation.
  rewrite Hsub, Hscheme, Hcommitted. simpl.
  unfold mbind, MS_bind, read, set_extensions_api, call. simpl.
  by rewrite Hstored.
Qed.


(** X30. The replacement is made in the registered script itself, so every
    further navigation to the origin makes it once more: when [var chrome]
    first occurs at [pos], the script injected by the navigation number [i]
    has what the replacement adds [i] times after that occurrence, and so
    has the script that stays registered after the last navigation. *)
Theorem every_navigation_patches_the_script_again
    (h : NavigationHandle) (stored : string) (pos : nat)
    (guids : list string) (s : Session) :
  IsInMainFrame h = false ->
  url_scheme h = "chrome-extension" ->
  HasCommitted h = true ->
  extensions_api_ s !! origin_spec h = Some stored ->
  StrOps.find "var chrome" stored = Some pos ->
  exists s',
    navigations ((fun guid => (h, guid)) <$> guids) s = Finished tt s'
    /\ world s' = world s
    /\ extensions_api_ s' !! origin_spec h
       = Some (patched_script stored pos (length guids))
    /\ (forall other, other ≠ origin_spec h ->
                      extensions_api_ s' !! other = extensions_api_ s !! other)
    /\ history s'
       = history s
         ++ imap (fun i guid =>
                    ExecuteJavaScriptForTests (GetRenderFrameHost h)
                      (api_call (patched_script stored pos (S i)) guid))
              guids.
Proof.
  intros Hsub Hscheme Hcommitted Hstored Hfind.
  assert (Hzero : stored = patched_script stored pos 0).
  { unfold patched_script. simpl repeat_string. rewrite StrFacts.app_nil_l.
    by destruct (StrOpsFacts.find_spec _ _ _ Hfind). }
  assert (Hgen : forall guids k s,
    extensions_api_ s !! origin_spec h = Some (patched_script stored pos k) ->
    exists s',
      navigations ((fun guid => (h, guid)) <$> guids) s = Finished tt s'
      /\ world s' = world s
      /\ extensions_api_ s' !! origin_spec h
         = Some (patched_script stored pos (k + length guids))
      /\ (forall other, other ≠ origin_spec h ->
                        extensions_api_ s' !! other = extensions_api_ s !! other)
      /\ history s'
         = history s
           ++ imap (fun i guid =>
                      ExecuteJavaScriptForTests (GetRenderFrameHost h)
                        (api_call (patched_script stored pos (S (k + i))) guid))
                guids).
  { clear s Hstored. intros gs.
    induction gs as [|guid rest IH]; intros k s Hk.
    - exists s. simpl. rewrite Nat.add_0_r, app_nil_r. by split_and!.
    - simpl. unfold mbind, MS_bind.
      rewrite (DidFinishNavigation_injects h guid _ s Hsub Hscheme Hcommitted Hk).
      rewrite chrome_patch_patched by done.
      edestruct (IH (S k)) as (s' & Hrun & Hworld & Hapi & Hother & Hhist);
        [|exists s'; split; [exact Hrun|]].
      + simpl. apply lookup_insert_eq.
      + simpl in *. split_and!.
        * exact Hworld.
        * rewrite Hapi. do 2 f_equal. lia.
        * intros other Hne. rewrite Hother by done.
          by apply lookup_insert_ne.
        * rewrite Hhist, <- app_assoc. simpl. rewrite Nat.add_0_r.
          do 2 f_equal. apply imap_ext. intros i guid' _. simpl.
          by rewrite Nat.add_succ_r. }
  rewrite Hzero in Hstored.
  destruct (Hgen guids 0%nat s Hstored) as (s' & Hrun & Hworld & Hapi & Hother & Hhist).
  exists s'. by split_and!.
Qed.

(** ** The properties above on examples *)

(** A message of ten characters cut every four: the last piece has two. *)
Lemma chunk_pieces_are_bounded_witness :
  frontend_loaded_ (self attached_world) = true
  /\ frontend_of attached_world = Some 3%nat
  /\ (0 < kMaxMessageChunkSize 16)%nat
  /\ (kMaxMessageChunkSize 16 <= String.length "abcdefghij")%nat
  /\ String.length (chunk_at 4 "abcdefghij" 0) = 4%nat
  /\ String.length (chunk_at 4 "abcdefghij" 2) = 2%nat.
Proof.
  destruct (chunk_pieces_are_bounded 16 example_Write example_Escape 1%nat
              "abcdefghij" 3%nat attached_world eq_refl eq_refl
              ltac:(vm_compute; lia) ltac:(vm_compute; lia))
    as (_ & Hpieces).
  split_and!; [reflexivity | reflexivity | vm_compute; lia | vm_compute; lia | |].
  - destruct (Hpieces 0%nat ltac:(vm_compute; lia)) as (_ & Hfull & _).
    exact (Hfull ltac:(vm_compute; lia)).
  - destruct (Hpieces 2%nat ltac:(vm_compute; lia)) as (_ & _ & Hlast).
    exact (Hlast eq_refl).
Defined.

(** Without the document a message of two characters is fatal and one of
    ten is dropped. *)
Lemma message_without_frontend_is_dropped_or_fatal_witness :
  frontend_loaded_ (self orphaned_world) = true
  /\ frontend_of orphaned_world = None
  /\ (0 < kMaxMessageChunkSize 16)%nat
  /\ DispatchProtocolMessage 16 example_Write example_Escape 1%nat "ab"
       orphaned_world = NullDereference
  /\ DispatchProtocolMessage 16 example_Write example_Escape 1%nat "abcdefghij"
       orphaned_world = Done tt orphaned_world.
Proof.
  split_and!; [reflexivity | reflexivity | vm_compute; lia | |].
  - exact (message_without_frontend_is_dropped_or_fatal 16 example_Write
             example_Escape 1%nat "ab" orphaned_world eq_refl eq_refl
             ltac:(vm_compute; lia)).
  - exact (message_without_frontend_is_dropped_or_fatal 16 example_Write
             example_Escape 1%nat "abcdefghij" orphaned_world eq_refl eq_refl
             ltac:(vm_compute; lia)).
Defined.

(** A chunk of the stream 7 that is UTF-8. *)
Lemma stream_chunk_is_written_then_resumed_witness :
  loaders_ (self two_cookies_world) !! 0%nat = Some two_cookies_loader
  /\ frontend_of two_cookies_world = Some 3%nat
  /\ OnDataReceived example_Write (fun _ => true) (fun s => s) 0%nat "data"
       two_cookies_world
     = Done tt
         (add_events
            [ExecuteJavaScript 3%nat
               ("DevToolsAPI.streamWrite(" +:+
                example_Write (IntegerValue 7) +:+ ", " +:+
                example_Write (StringValue "data") +:+ ", " +:+
                example_Write (BooleanValue false) +:+ ");");
             Resume] two_cookies_world).
Proof.
  split_and!; [reflexivity | reflexivity |].
  exact (stream_chunk_is_written_then_resumed example_Write (fun _ => true)
           (fun s => s) 0%nat two_cookies_loader "data" 3%nat
           two_cookies_world eq_refl eq_refl).
Defined.

(** The ack of the request 7 without a result. *)
Lemma client_arguments_stop_at_first_null_witness :
  frontend_of attached_world = Some 3%nat
  /\ SendMessageAck example_Write 7 None attached_world
     = Done tt
         (add_events
            [ExecuteJavaScript 3%nat
               ("DevToolsAPI.embedderMessageAck(" +:+
                example_Write (IntegerValue 7) +:+ ");")] attached_world).
Proof.
  split; [reflexivity|].
  destruct (client_arguments_stop_at_first_null example_Write "f" NoneValue
              None None 7 3%nat attached_world eq_refl) as (_ & _ & Hack).
  exact Hack.
Defined.

(** Of the two extensions only the one with a devtools page is listed. *)
Lemma extensions_with_devtools_page_are_listed_witness :
  extension_registry extensions_world
  = Some [react_extension; plain_extension]
  /\ frontend_of extensions_world = Some 3%nat
  /\ filter has_devtools_page [react_extension; plain_extension]
     = [react_extension]
  /\ AddDevToolsExtensionsToClient example_Write extensions_world
     = Done tt
         (add_events
            [GrantRequestOrigin "chrome-extension://react/";
             ExecuteJavaScript 3%nat
               ("DevToolsAPI.addExtensions(" +:+
                example_Write
                  (ListValue [DictionaryValue (extension_info react_extension)])
                +:+ ");")] extensions_world).
Proof.
  split_and!; [reflexivity | reflexivity | reflexivity |].
  exact (extensions_with_devtools_page_are_listed example_Write
           [react_extension; plain_extension] 3%nat extensions_world
           eq_refl eq_refl).
Defined.

(** The frontend of the session in use reports that it has loaded. *)
Lemma load_completed_docks_and_announces_witness :
  frontend_of attached_world = Some 3%nat
  /\ exists w',
       LoadCompleted example_Write false attached_world = Done tt w'
       /\ frontend_loaded_ (self w') = true
       /\ attached w' = attached attached_world.
Proof.
  split; [reflexivity|].
  destruct (load_completed_docks_and_announces example_Write false 3%nat
              attached_world eq_refl)
    as (w' & Hrun & Hloaded & _ & _ & _ & Hattached & _).
  exists w'. split_and!; [exact Hrun | exact Hloaded | exact Hattached].
Defined.

(** A message of two characters after the load. *)
Lemma message_after_load_is_delivered_witness :
  frontend_of initial_world = None
  /\ frontend_of attached_world = Some 3%nat
  /\ (String.length "ab" < kMaxMessageChunkSize 16)%nat
  /\ (LoadCompleted example_Write false;;
      DispatchProtocolMessage 16 example_Write example_Escape 1%nat "ab")
       attached_world
     = Done tt
         (set_self load_completed_self
            (add_events
               (load_completed_events example_Write false 3%nat attached_world
                ++ [ExecuteJavaScript 3%nat
                      ("DevToolsAPI.dispatchMessage(" +:+
                       example_Escape "ab" +:+ ");")]) attached_world)).
Proof.
  split_and!; [reflexivity | reflexivity | vm_compute; lia |].
  exact (message_after_load_is_delivered 16 example_Write example_Escape false
           1%nat "ab" 3%nat attached_world eq_refl ltac:(vm_compute; lia)).
Defined.



(** A load over the network on the session in use. *)
Lemma valid_load_registers_one_loader_witness :
  example_is_valid "https://example.test/a.map" = true
  /\ frontend_of attached_world = Some 3%nat
  /\ exists created w',
       LoadNetworkResource example_is_valid example_SchemeIsFile 5%nat
         "https://example.test/a.map" EmptyString 7 attached_world
       = Done tt w'
       /\ size (loaders_ (self w')) = 1%nat
       /\ events w' = [TimerStart created 0].
Proof.
  split_and!; [reflexivity | reflexivity |].
  destruct (valid_load_registers_one_loader example_is_valid
              example_SchemeIsFile 5%nat "https://example.test/a.map"
              EmptyString 7 3%nat attached_world eq_refl
              (or_intror eq_refl))
    as (created & w' & Hrun & _ & _ & Hsize & Hevents).
  exists created, w'. split_and!; [exact Hrun | exact Hsize | exact Hevents].
Defined.

(** Two loads, of a source map and of a script. *)
Lemma concurrent_loads_have_their_own_loaders_witness :
  example_is_valid "https://example.test/a.map" = true
  /\ example_is_valid "https://example.test/b.js" = true
  /\ frontend_of attached_world = Some 3%nat
  /\ exists (first second : nat) w',
       (LoadNetworkResource example_is_valid example_SchemeIsFile 5%nat
          "https://example.test/a.map" EmptyString 7;;
        LoadNetworkResource example_is_valid example_SchemeIsFile 6%nat
          "https://example.test/b.js" EmptyString 8) attached_world
       = Done tt w'
       /\ first ≠ second
       /\ size (loaders_ (self w')) = 2%nat.
Proof.
  split_and!; [reflexivity | reflexivity | reflexivity |].
  destruct (concurrent_loads_have_their_own_loaders example_is_valid
              example_SchemeIsFile 5%nat 6%nat "https://example.test/a.map"
              EmptyString "https://example.test/b.js" EmptyString 7 8 3%nat
              attached_world eq_refl eq_refl eq_refl)
    as (first & second & w' & Hrun & Hne & _ & _ & _ & _ & Hsize & _).
  exists first, second, w'. split_and!; [exact Hrun | exact Hne | exact Hsize].
Defined.


(** The completion of the only load. *)
Lemma completion_replaces_or_removes_its_loader_witness :
  loaders_ (self two_cookies_world) !! 0%nat = Some two_cookies_loader
  /\ exists w',
       OnComplete 0%nat true 0 two_cookies_world = Done tt w'
       /\ loaders_ (self w') !! 0%nat = None
       /\ S (size (loaders_ (self w'))) = size (loaders_ (self two_cookies_world)).
Proof.
  split; [reflexivity|].
  destruct (completion_replaces_or_removes_its_loader 0%nat
              two_cookies_loader true 0 two_cookies_world eq_refl)
    as (w' & Hrun & Hgone & _ & Hfinal & _).
  exists w'. split_and!; [exact Hrun | exact Hgone |].
  exact (proj2 (Hfinal (or_introl eq_refl))).
Defined.

(** The bounds of a window of 640 by 480. *)
Lemma rect_round_trip_witness :
  Rect_valid saved_bounds
  /\ DictionaryToRect (RectToDictionary saved_bounds) = Some saved_bounds.
Proof.
  assert (Hvalid : Rect_valid saved_bounds).
  { unfold Rect_valid, INT_MAX. simpl. lia. }
  split; [exact Hvalid|].
  exact (proj1 (rect_round_trip saved_bounds Hvalid)).
Defined.

(** The window saved at (40, 30) on the only display keeps its place. *)
Lemma initial_bounds_are_normalised_witness :
  DictionaryToRect (RectToDictionary saved_bounds) = Some saved_bounds
  /\ Rect_moderate saved_bounds
  /\ Rect_moderate full_hd
  /\ IsPointInScreen [full_hd] (rect_x saved_bounds, rect_y saved_bounds) = true
  /\ exists bounds,
       initial_devtools_bounds (DictionaryValue (RectToDictionary saved_bounds))
         false true [full_hd] full_hd full_hd = Some bounds
       /\ rect_width bounds = 640 /\ rect_height bounds = 480
       /\ rect_x bounds = 40 /\ rect_y bounds = 30.
Proof.
  assert (Hread :
    DictionaryToRect (RectToDictionary saved_bounds) = Some saved_bounds)
    by (vm_compute; reflexivity).
  assert (Hsaved : Rect_moderate saved_bounds).
  { unfold Rect_moderate, moderate. simpl. lia. }
  assert (Hdisplay : Rect_moderate full_hd).
  { unfold Rect_moderate, moderate. simpl. lia. }
  split_and!; [exact Hread | exact Hsaved | exact Hdisplay | reflexivity |].
  destruct (initial_bounds_are_normalised (RectToDictionary saved_bounds)
              saved_bounds false true [full_hd] full_hd full_hd NoneValue
              Hread Hsaved Hdisplay Hdisplay)
    as ((bounds & Hrun & Hwidth & Hheight & _ & _ & Hinside & _) & _).
  exists bounds.
  split_and!; [exact Hrun | exact Hwidth | exact Hheight
              | exact (proj1 (Hinside eq_refl))
              | exact (proj2 (Hinside eq_refl))].
Defined.

(** The window saved on the corner of the display is moved to
    (640, 300). *)
Lemma window_at_display_corner_is_recentred_witness :
  DictionaryToRect (RectToDictionary corner_bounds) = Some corner_bounds
  /\ Rect_moderate corner_bounds
  /\ Rect_moderate full_hd
  /\ initial_devtools_bounds (DictionaryValue (RectToDictionary corner_bounds))
       false true [full_hd] full_hd full_hd
     = Some {| rect_x := 640; rect_y := 300;
               rect_width := 640; rect_height := 480 |}.
Proof.
  assert (Hread :
    DictionaryToRect (RectToDictionary corner_bounds) = Some corner_bounds)
    by (vm_compute; reflexivity).
  assert (Hcorner : Rect_moderate corner_bounds).
  { unfold Rect_moderate, moderate. simpl. lia. }
  assert (Hdisplay : Rect_moderate full_hd).
  { unfold Rect_moderate, moderate. simpl. lia. }
  split_and!; [exact Hread | exact Hcorner | exact Hdisplay |].
  exact (window_at_display_corner_is_recentred (RectToDictionary corner_bounds)
           corner_bounds full_hd false true Hread Hcorner Hdisplay
           ltac:(simpl; lia) ltac:(simpl; lia) eq_refl eq_refl).
Defined.

(** [ShowDevTools] on the devtools that are open. *)
Lemma show_on_open_devtools_only_shows_the_view_witness :
  embedder_message_dispatcher_ (self (world open_session)) = true
  /\ exists s',
       ShowDevTools every_host_accepts "https://example.test/" false 8%nat
         1%nat open_session = Finished tt s'
       /\ self (world s') = self (world open_session)
       /\ history s' = [Earlier (ViewShowDevTools false)].
Proof.
  split; [reflexivity|].
  destruct (show_on_open_devtools_only_shows_the_view every_host_accepts
              "https://example.test/" false 8%nat 1%nat open_session eq_refl)
    as (s' & Hrun & Hself & _ & _ & Hhistory).
  exists s'. split_and!; [exact Hrun | exact Hself | exact Hhistory].
Defined.

(** [ShowDevTools] for the first time. *)
Lemma show_opens_attaches_then_loads_witness :
  embedder_message_dispatcher_ (self (world closed_session)) = false
  /\ managed_devtools_web_contents_ (self (world closed_session)) = None
  /\ exists s',
       ShowDevTools every_host_accepts "https://example.test/" true 8%nat
         1%nat closed_session = Finished tt s'
       /\ managed_devtools_web_contents_ (self (world s')) = Some 8%nat
       /\ observed s' = Some 8%nat
       /\ attached (world s') = {[1%nat]}
       /\ history s'
          = [CreateWebContents 8%nat; SetWebContentsDelegate 8%nat;
             Earlier (Observe (Some 8%nat)); Earlier (AttachClient 1%nat);
             LoadURL 8%nat (GetDevToolsURL "https://example.test/" true)].
Proof.
  split_and!; [reflexivity | reflexivity |].
  destruct (show_opens_attaches_then_loads every_host_accepts
              "https://example.test/" true 8%nat 1%nat closed_session
              eq_refl eq_refl)
    as (s' & Hrun & _ & _ & _ & Hmanaged & Hobserved & _ & Hattached
        & Hhistory).
  exists s'.
  split_and!; [exact Hrun | exact Hmanaged | exact Hobserved | | exact Hhistory].
  rewrite Hattached. apply set_eq. intros x. vm_compute. tauto.
Defined.

(** [CloseDevTools] on the devtools open in the managed document 3. *)
Lemma close_of_managed_devtools_detaches_witness :
  managed_devtools_web_contents_ (self (world open_session)) = Some 3%nat
  /\ observed open_session = Some 3%nat
  /\ exists s',
       CloseDevTools open_session = Finished tt s'
       /\ agent_host_ (self (world s')) = None
       /\ observed s' = None
       /\ history s'
          = [ViewCloseDevTools; DestroyWebContents 3%nat;
             Earlier (Observe None); Earlier (DetachClient 1%nat);
             FocusInspectedContents].
Proof.
  split_and!; [reflexivity | reflexivity |].
  destruct (close_of_managed_devtools_detaches 3%nat open_session
              eq_refl eq_refl)
    as (s' & Hrun & _ & _ & _ & _ & Hhost & _ & Hobserved & Hhistory).
  exists s'.
  split_and!; [exact Hrun | exact Hhost | exact Hobserved | exact Hhistory].
Defined.

(** [CloseDevTools] on the devtools open in the external document 4. *)
Lemma close_without_managed_document_keeps_the_attachment_witness :
  managed_devtools_web_contents_ (self (world external_session)) = None
  /\ exists s',
       CloseDevTools external_session = Finished tt s'
       /\ attached (world s') = attached (world external_session)
       /\ observed s' = Some 4%nat
       /\ history s' = [FocusInspectedContents].
Proof.
  split; [reflexivity|].
  destruct (close_without_managed_document_keeps_the_attachment
              external_session eq_refl)
    as (s' & Hrun & _ & Hattached & Hobserved & Hhistory).
  exists s'.
  split_and!; [exact Hrun | exact Hattached | exact Hobserved | exact Hhistory].
Defined.

(** Open and close, from the start. *)
Lemma show_then_close_leaves_no_session_witness :
  embedder_message_dispatcher_ (self (world closed_session)) = false
  /\ managed_devtools_web_contents_ (self (world closed_session)) = None
  /\ external_devtools_web_contents_ (self (world closed_session)) = None
  /\ attachment_consistent (world closed_session)
  /\ exists s',
       (ShowDevTools every_host_accepts "https://example.test/" true 8%nat
          1%nat;; CloseDevTools) closed_session = Finished tt s'
       /\ attached (world s') = ∅
       /\ last (history s') = Some FocusInspectedContents.
Proof.
  assert (Hconsistent : attachment_consistent (world closed_session)).
  { unfold attachment_consistent, bound_hosts. simpl. reflexivity. }
  split_and!; [reflexivity | reflexivity | reflexivity | exact Hconsistent |].
  destruct (show_then_close_leaves_no_session every_host_accepts
              "https://example.test/" true 8%nat 1%nat closed_session
              eq_refl eq_refl eq_refl Hconsistent)
    as (s' & Hrun & Hattached & _ & _ & _ & _ & Hlast).
  exists s'. split_and!; [exact Hrun | exact Hattached | exact Hlast].
Defined.


(** Two navigations to the extension: the second script has the addition
    twice. *)
Lemma every_navigation_patches_the_script_again_witness :
  IsInMainFrame extension_subframe = false
  /\ url_scheme extension_subframe = "chrome-extension"
  /\ HasCommitted extension_subframe = true
  /\ extensions_api_ api_session !! origin_spec extension_subframe
     = Some api_script
  /\ StrOps.find "var chrome" api_script = Some 16%nat
  /\ patched_script api_script 16 2
     = "(function(id) { var chrome = window.chrome  = window.chrome ; })"
  /\ exists s',
       navigations [(extension_subframe, "guid-1"); (extension_subframe, "guid-2")]
         api_session = Finished tt s'
       /\ extensions_api_ s' !! "chrome-extension://react/"
          = Some (patched_script api_script 16 2).
Proof.
  split_and!; [reflexivity | reflexivity | reflexivity | reflexivity
              | reflexivity | reflexivity |].
  destruct (every_navigation_patches_the_script_again extension_subframe
              api_script 16%nat ["guid-1"; "guid-2"] api_session
              eq_refl eq_refl eq_refl eq_refl eq_refl)
    as (s' & Hrun & _ & Hapi & _).
  exists s'. split; [exact Hrun | exact Hapi].
Defined.
